(** * blue_slate.py: a shallow embedding and its verified properties

    The program turns a CSV file (an athlete's bio and race results) into a
    static HTML page.  Every function of [blue_slate.py] that the properties
    below talk about is transcribed here as a Rocq function:

    - Python [str] values are [string]s whose characters are code points
      below 256; the character classes ([str.isspace], [\s], [\w], [\d]) are
      the Unicode ones restricted to that range;
    - a result record (a [dict] from column name to cell) is a
      [gmap string string], [r.get(k)] is [r !! k];
    - a function that can raise returns a [result], and [try/except
      ValueError] is the combinator [catch_ValueError];
    - Python floats are IEEE 754 binary64 values, computed with the
      Standard Library's [SpecFloat] operations;
    - the module constants [IMAGE_BASE], [DEFAULT_IMAGE_URL] and
      [YEAR_FILTER] are the fields of a [config] record that the functions
      receive, [source_config] holding the values written in the source. *)

From Stdlib Require Import ZArith Lia Bool List Ascii String.
From Stdlib Require Import DecimalString DecimalNat.
From Stdlib Require Import Floats.SpecFloat.
From Stdlib Require Import Sorting.Sorted Sorting.Permutation.
From stdpp Require Import base option gmap strings.

Open Scope string_scope.

#[global] Arguments String.append : simpl nomatch.

(** ** Characters and strings *)

Module Py.

(** The double quote and the line feed, spelled by code point. *)
Definition dq : string := String (ascii_of_nat 34) EmptyString.
Definition nl : string := String (ascii_of_nat 10) EmptyString.
Definition bs : ascii := ascii_of_nat 92.

(** [q s] is [s] between double quotes. *)
Definition q (s : string) : string := dq ++ s ++ dq.

Definition code (c : ascii) : nat := nat_of_ascii c.

Definition in_range (lo hi : nat) (c : ascii) : bool :=
  (lo <=? code c)%nat && (code c <=? hi)%nat.

(** [str.isspace] on one character, which is also [\s] of the [re] module
    for [str] patterns: TAB..CR, FS..US, space, NEL and NBSP. *)
Definition is_space (c : ascii) : bool :=
  in_range 9 13 c || in_range 28 32 c || (code c =? 133)%nat || (code c =? 160)%nat.

(** [\d] of [re] for [str] patterns, and the digits [int()] and [float()]
    read: below 256 the only decimal digits are 0..9. *)
Definition is_digit (c : ascii) : bool := in_range 48 57 c.

Definition is_ascii_letter (c : ascii) : bool :=
  in_range 65 90 c || in_range 97 122 c.

(** [\w] of [re] for [str] patterns: alphanumeric characters
    ([str.isalnum]) and the underscore. *)
Definition is_word (c : ascii) : bool :=
  is_digit c || is_ascii_letter c || (code c =? 95)%nat
  || (code c =? 170)%nat || (code c =? 178)%nat || (code c =? 179)%nat
  || (code c =? 181)%nat || (code c =? 185)%nat || (code c =? 186)%nat
  || in_range 188 190 c || in_range 192 214 c || in_range 216 246 c
  || in_range 248 255 c.

(** [not s] for a string. *)
Definition is_empty (s : string) : bool :=
  match s with EmptyString => true | String _ _ => false end.

(** Stripping the characters of a class [sp] from both ends.  On the right
    a character is kept when it is not in the class or when something is
    kept after it. *)
Fixpoint lstrip_with (sp : ascii -> bool) (s : string) : string :=
  match s with
  | String c s' => if sp c then lstrip_with sp s' else s
  | EmptyString => EmptyString
  end.

Fixpoint rstrip_with (sp : ascii -> bool) (s : string) : string :=
  match s with
  | EmptyString => EmptyString
  | String c s' =>
      let r := rstrip_with sp s' in
      if sp c && is_empty r then EmptyString else String c r
  end.

Definition strip_with (sp : ascii -> bool) (s : string) : string :=
  rstrip_with sp (lstrip_with sp s).

(** [s.lstrip()], [s.rstrip()] and [s.strip()] *)
Definition lstrip : string -> string := lstrip_with is_space.
Definition rstrip : string -> string := rstrip_with is_space.
Definition strip : string -> string := strip_with is_space.

(** [s.upper()], character by character.  The sharp s becomes "SS"; the
    upper-case forms of the micro sign and of y with diaeresis lie above
    code point 255 and those two characters are left in place. *)
Definition upper_char (c : ascii) : string :=
  if in_range 97 122 c || in_range 224 246 c || in_range 248 254 c
  then String (ascii_of_nat (code c - 32)) EmptyString
  else if (code c =? 223)%nat then "SS"
  else String c EmptyString.

Fixpoint upper (s : string) : string :=
  match s with
  | EmptyString => EmptyString
  | String c s' => upper_char c ++ upper s'
  end.

(** [s[:n]] and [s[n:]] for [0 <= n]. *)
Fixpoint take (n : nat) (s : string) : string :=
  match n, s with
  | S n', String c s' => String c (take n' s')
  | _, _ => EmptyString
  end.

Fixpoint drop (n : nat) (s : string) : string :=
  match n, s with
  | S n', String _ s' => drop n' s'
  | _, _ => s
  end.

(** [s.startswith(p)] *)
Fixpoint starts_with (p s : string) : bool :=
  match p, s with
  | EmptyString, _ => true
  | String a p', String b s' => Ascii.eqb a b && starts_with p' s'
  | String _ _, EmptyString => false
  end.

(** [s.find(p)]: the least index at which [p] occurs in [s]. *)
Fixpoint find (p s : string) : option nat :=
  if starts_with p s then Some 0
  else match s with
       | EmptyString => None
       | String _ s' => option_map S (find p s')
       end.

(** [p in s] *)
Definition contains (p s : string) : bool :=
  match find p s with Some _ => true | None => false end.

(** [s.count(c)] for a one-character [c]. *)
Fixpoint count (c : ascii) (s : string) : nat :=
  match s with
  | EmptyString => 0
  | String a s' => (if Ascii.eqb a c then 1 else 0) + count c s'
  end.

(** [s.split(c)] for a one-character separator. *)
Fixpoint split (c : ascii) (s : string) : list string :=
  match s with
  | EmptyString => [EmptyString]
  | String a s' =>
      if Ascii.eqb a c then EmptyString :: split c s'
      else match split c s' with
           | w :: ws => String a w :: ws
           | [] => [String a EmptyString]
           end
  end.

(** [s.split(c, 1)]: the text before the first [c] and the text after it. *)
Fixpoint split1 (c : ascii) (s : string) : list string :=
  match s with
  | EmptyString => [EmptyString]
  | String a s' =>
      if Ascii.eqb a c then [EmptyString; s']
      else match split1 c s' with
           | w :: ws => String a w :: ws
           | [] => [String a EmptyString]
           end
  end.

(** [s.replace(c, r)] for a one-character [c]. *)
Fixpoint replace (c : ascii) (r : string) (s : string) : string :=
  match s with
  | EmptyString => EmptyString
  | String a s' =>
      if Ascii.eqb a c then r ++ replace c r s' else String a (replace c r s')
  end.

(** ["".join(l)] *)
Fixpoint join (l : list string) : string :=
  match l with
  | [] => EmptyString
  | s :: l' => s ++ join l'
  end.

(** [str(n)] for a natural number, as an f-string interpolates it. *)
Definition str_of_nat (n : nat) : string := NilEmpty.string_of_uint (Nat.to_uint n).

(** [x or ""] for the result of [dict.get]. *)
Definition or_empty (x : option string) : string :=
  match x with Some s => s | None => EmptyString end.

(** [html.escape(s)] with its default [quote=True]: five calls of
    [str.replace], the ampersand first. *)
Definition escape (s : string) : string :=
  let s := replace "&" "&amp;" s in
  let s := replace "<" "&lt;" s in
  let s := replace ">" "&gt;" s in
  let s := replace (ascii_of_nat 34) "&quot;" s in
  let s := replace "'" "&#x27;" s in
  s.

End Py.

Import Py.

(** ** Exceptions *)

Inductive exn : Type :=
  | ValueError (msg : string)
  | IndexError (msg : string)
  | OverflowError (msg : string)
  | ReError (msg : string).

Inductive result (A : Type) : Type :=
  | Ok (a : A)
  | Raise (e : exn).
Arguments Ok {A} a.
Arguments Raise {A} e.

(** Sequencing: the first exception raised ends the computation.  With
    these instances stdpp's [x ← m; k] reads as statements in sequence. *)
#[global] Instance result_ret : MRet result := fun A a => Ok a.
#[global] Instance result_bind : MBind result := fun A B k m =>
  match m with
  | Ok a => k a
  | Raise e => Raise e
  end.

(** [try: m  except ValueError: h] *)
Definition catch_ValueError {A : Type} (m : result A) (h : result A) : result A :=
  match m with
  | Raise (ValueError _) => h
  | _ => m
  end.

Definition is_Raise {A : Type} (m : result A) : bool :=
  match m with Raise _ => true | Ok _ => false end.

(** ** Configuration constants *)

Record config : Type := {
  IMAGE_BASE : string;
  DEFAULT_IMAGE_URL : string;
  YEAR_FILTER : option string
}.

Definition source_config : config := {|
  IMAGE_BASE := "https://si339.github.io/ClientData/21615274/";
  DEFAULT_IMAGE_URL :=
    "https://raw.githubusercontent.com/vannesschia/SI338/main/images/skyline_logo.jpg";
  YEAR_FILTER := None
|}.

(** A result record: the [dict] built by [parse_results]. *)
Abbreviation record := (gmap string string).

(** ** Helpers *)

Definition safe_default (val : option string) (default : string) : string :=
  let v := strip (or_empty val) in
  if is_empty v then default else v.

(** [safe(val)] with the default placeholder. *)
Definition safe (val : option string) : string := safe_default val "N/A".

(** The search [re.search(r"\b(20\d{2})\b", s)]: [prev_word] tells whether
    the character before the position is a word character. *)
Definition year_here (s : string) : option string :=
  match s with
  | String "2" (String "0" (String d1 (String d2 rest))) =>
      if is_digit d1 && is_digit d2
         && match rest with EmptyString => true | String c _ => negb (is_word c) end
      then Some (String "2" (String "0" (String d1 (String d2 EmptyString))))
      else None
  | _ => None
  end.

Fixpoint search_year (prev_word : bool) (s : string) : option string :=
  match s with
  | EmptyString => None
  | String c s' =>
      match (if prev_word then None else year_here s) with
      | Some y => Some y
      | None => search_year (is_word c) s'
      end
  end.

Definition year_from_date (date_str : string) : string :=
  if is_empty date_str then ""
  else match search_year false date_str with
       | Some y => y
       | None => ""
       end.

Definition image_url (cfg : config) (photo_filename : string) : string :=
  let fn := strip photo_filename in
  if is_empty fn || String.eqb (upper fn) "N/A"
  then (if is_empty (strip (DEFAULT_IMAGE_URL cfg)) then ""
        else strip (DEFAULT_IMAGE_URL cfg))
  else IMAGE_BASE cfg ++ fn.

Definition image_alt_text (r : record) (fallback : string) : string :=
  let alt := strip (or_empty (r !! "AltText")) in
  if is_empty alt then fallback else alt.

(** ** Meet cards *)

(** The season filter of both builders. *)
Definition passes_year_filter (cfg : config) (r : record) : bool :=
  match YEAR_FILTER cfg with
  | None => true
  | Some y => String.eqb (year_from_date (strip (or_empty (r !! "Date")))) y
  end.

Definition details_id (i : nat) : string := "race-details-" ++ str_of_nat i.
Definition title_id (i : nat) : string := "meet-" ++ str_of_nat i ++ "-title".

Definition img_html (cfg : config) (r : record) : string :=
  let meet := safe (r !! "Meet Name") in
  let photo_fn := strip (or_empty (r !! "PhotoFileName")) in
  let img_src := image_url cfg photo_fn in
  if is_empty img_src then "<p>No image available.</p>"
  else "<img src=" ++ q (escape img_src)
       ++ " alt=" ++ q (image_alt_text r ("Photo from " ++ meet ++ "."))
       ++ " loading=" ++ q "lazy" ++ " decoding=" ++ q "async" ++ ">".

(** The f-string appended for the [i]-th record of [filtered]. *)
Definition card (cfg : config) (i : nat) (r : record) : string :=
  let meet := safe (r !! "Meet Name") in
  let date := safe (r !! "Date") in
  let time := safe (r !! "Time") in
  let grade := safe (r !! "Grade") in
  let place := safe (r !! "Overall Place") in
  nl
  ++ "        <article class=" ++ q "meet-card" ++ " aria-labelledby=" ++ q (title_id i) ++ ">" ++ nl
  ++ "          <h3 id=" ++ q (title_id i) ++ ">" ++ escape meet ++ "</h3>" ++ nl
  ++ nl
  ++ "          <div class=" ++ q "spacer" ++ ">" ++ nl
  ++ "            " ++ img_html cfg r ++ nl
  ++ "          </div>" ++ nl
  ++ nl
  ++ "          <button type=" ++ q "button" ++ " class=" ++ q "open-panel"
  ++ " aria-expanded=" ++ q "false" ++ " aria-controls=" ++ q (details_id i) ++ ">" ++ nl
  ++ "            More info" ++ nl
  ++ "          </button>" ++ nl
  ++ nl
  ++ "          <div id=" ++ q (details_id i) ++ " class=" ++ q "race-details" ++ " hidden>" ++ nl
  ++ "            <p><strong>Date:</strong> " ++ escape date ++ "</p>" ++ nl
  ++ "            <p><strong>Time:</strong> " ++ escape time ++ "</p>" ++ nl
  ++ "            <p><strong>Grade:</strong> " ++ escape grade ++ "</p>" ++ nl
  ++ "            <p><strong>Overall place:</strong> " ++ escape place ++ "</p>" ++ nl
  ++ "          </div>" ++ nl
  ++ "        </article>" ++ nl.

(** [enumerate(filtered, start=i)] mapped to the cards. *)
Fixpoint cards_from (cfg : config) (i : nat) (filtered : list record) : list string :=
  match filtered with
  | [] => []
  | r :: rest => card cfg i r :: cards_from cfg (S i) rest
  end.

Definition filtered_records (cfg : config) (records : list record) : list record :=
  List.filter (passes_year_filter cfg) records.

(** The list [cards] at the end of the loop. *)
Definition meet_cards (cfg : config) (records : list record) : list string :=
  cards_from cfg 1 (filtered_records cfg records).

Definition build_meet_cards (cfg : config) (records : list record) : string :=
  match meet_cards cfg records with
  | [] => "<p>No meets found.</p>"
  | cards => join cards
  end.

(** ** CSV sections *)

(** A row of the CSV reader is a list of cells. *)
Abbreviation row := (list string).

(** [r and r[0].strip() == name] *)
Definition is_marker (name : string) (r : row) : bool :=
  match r with
  | [] => false
  | c :: _ => String.eqb (strip c) name
  end.

(** [next((i for i, r in enumerate(rows) if ...), None)] *)
Fixpoint find_marker (name : string) (rows : list row) : option nat :=
  match rows with
  | [] => None
  | r :: rest =>
      if is_marker name r then Some 0 else option_map S (find_marker name rest)
  end.

(** [rows[i]] for [0 <= i] *)
Definition index_row (rows : list row) (i : nat) : result row :=
  match nth_error rows i with
  | Some r => Ok r
  | None => Raise (IndexError "list index out of range")
  end.

(** [rows[a:b]] and [rows[a:]] for [0 <= a], [0 <= b] *)
Definition slice (rows : list row) (a b : nat) : list row :=
  firstn (b - a) (skipn a rows).
Definition slice_from (rows : list row) (a : nat) : list row := skipn a rows.

Definition read_sections (rows : list row)
  : result (row * list row * row * list row) :=
  let bio_marker := find_marker "Bio" rows in
  let results_marker := find_marker "Results" rows in
  match bio_marker, results_marker with
  | Some bio_marker, Some results_marker =>
      bio_header ← index_row rows (bio_marker + 1);
      let bio_rows := slice rows (bio_marker + 2) results_marker in
      results_header ← index_row rows (results_marker + 1);
      let results_rows := slice_from rows (results_marker + 2) in
      Ok (bio_header, bio_rows, results_header, results_rows)
  | _, _ =>
      Raise (ValueError "Could not find 'Bio' and 'Results' markers in the CSV.")
  end.

(** [{header[i]: (r[i] if i < len(r) else "") for i in range(len(header))}]:
    a later column of the same name replaces an earlier one. *)
Fixpoint zip_record (header r : row) (acc : record) : record :=
  match header with
  | [] => acc
  | k :: header' =>
      zip_record header' (tl r) (<[k := hd "" r]> acc)
  end.

Definition parse_primary_bio (bio_header : row) (bio_rows : list row) : record :=
  match bio_rows with
  | [] => ∅
  | first :: _ => zip_record bio_header first ∅
  end.

(** [any((cell or "").strip() for cell in r)] *)
Definition any_nonblank (r : row) : bool :=
  existsb (fun cell => negb (is_empty (strip cell))) r.

Fixpoint parse_results (results_header : row) (results_rows : list row) : list record :=
  match results_rows with
  | [] => []
  | r :: rest =>
      if any_nonblank r
      then zip_record results_header r ∅ :: parse_results results_header rest
      else parse_results results_header rest
  end.

(** ** The [re] module: searching, and the replacement templates of [re.sub] *)

Module Re.

(** [re.search]: [attempt s] is the length of the match of the pattern at
    the start of [s], if it matches there; the search tries the positions
    from left to right and returns [(m.start(), m.end())]. *)
Fixpoint search (attempt : string -> option nat) (s : string) : option (nat * nat) :=
  match attempt s with
  | Some n => Some (0, n)
  | None =>
      match s with
      | EmptyString => None
      | String _ s' =>
          match search attempt s' with
          | Some (a, b) => Some (S a, S b)
          | None => None
          end
      end
  end.

(** A parsed replacement template: literal characters and references to
    group 0, the whole match (the patterns here have no other group). *)
Inductive piece : Type :=
  | Lit (c : ascii)
  | Group0.

Definition is_octdigit (c : ascii) : bool := in_range 48 55 c.
Definition digit_val (c : ascii) : nat := code c - 48.

Fixpoint all_digits (s : string) : bool :=
  match s with
  | EmptyString => true
  | String c s' => is_digit c && all_digits s'
  end.

Fixpoint all_zero (s : string) : bool :=
  match s with
  | EmptyString => true
  | String c s' => Ascii.eqb c "0" && all_zero s'
  end.

(** [str.isidentifier] *)
Definition is_id_start (c : ascii) : bool :=
  is_ascii_letter c || (code c =? 95)%nat || (code c =? 170)%nat
  || (code c =? 181)%nat || (code c =? 186)%nat
  || in_range 192 214 c || in_range 216 246 c || in_range 248 255 c.
Definition is_id_continue (c : ascii) : bool :=
  is_id_start c || is_digit c || (code c =? 183)%nat.
Fixpoint all_id_continue (s : string) : bool :=
  match s with
  | EmptyString => true
  | String c s' => is_id_continue c && all_id_continue s'
  end.
Definition is_identifier (s : string) : bool :=
  match s with
  | EmptyString => false
  | String c s' => is_id_start c && all_id_continue s'
  end.

(** The table [ESCAPES] of the template parser. *)
Definition escapes (c : ascii) : option ascii :=
  if Ascii.eqb c "a" then Some (ascii_of_nat 7)
  else if Ascii.eqb c "b" then Some (ascii_of_nat 8)
  else if Ascii.eqb c "f" then Some (ascii_of_nat 12)
  else if Ascii.eqb c "n" then Some (ascii_of_nat 10)
  else if Ascii.eqb c "r" then Some (ascii_of_nat 13)
  else if Ascii.eqb c "t" then Some (ascii_of_nat 9)
  else if Ascii.eqb c "v" then Some (ascii_of_nat 11)
  else if Ascii.eqb c bs then Some bs
  else None.

(** What [\g<name>] stands for in a pattern without groups. *)
Definition group_reference (name : string) : result piece :=
  if is_empty name then Raise (ReError "missing group name")
  else if all_digits name then
    (if all_zero name then Ok Group0
     else Raise (ReError "invalid group reference"))
  else if is_identifier name then Raise (IndexError "unknown group name")
  else Raise (ReError "bad character in group name").

(** [parse_template] for a pattern without groups.  [name] is [Some acc]
    while the characters of a group name are being read, [acc] holding the
    ones read so far in reverse. *)
Fixpoint parse_template_from (name : option string) (s : string)
  : result (list piece) :=
  match name with
  | Some acc =>
      match s with
      | EmptyString => Raise (ReError "missing >, unterminated name")
      | String c s' =>
          if Ascii.eqb c ">" then
            g ← group_reference (String.rev acc);
            rest ← parse_template_from None s';
            Ok (g :: rest)
          else parse_template_from (Some (String c acc)) s'
      end
  | None =>
      match s with
      | EmptyString => Ok []
      | String c s1 =>
          if negb (Ascii.eqb c bs) then
            rest ← parse_template_from None s1; Ok (Lit c :: rest)
          else
            match s1 with
            | EmptyString => Raise (ReError "bad escape (end of pattern)")
            | String e s2 =>
                if Ascii.eqb e "g" then
                  match s2 with
                  | String "<" s3 => parse_template_from (Some EmptyString) s3
                  | _ => Raise (ReError "missing <")
                  end
                else if Ascii.eqb e "0" then
                  match s2 with
                  | String d1 s3 =>
                      if is_octdigit d1 then
                        match s3 with
                        | String d2 s4 =>
                            if is_octdigit d2 then
                              rest ← parse_template_from None s4;
                              Ok (Lit (ascii_of_nat
                                         ((8 * digit_val d1 + digit_val d2) mod 256)) :: rest)
                            else
                              rest ← parse_template_from None s3;
                              Ok (Lit (ascii_of_nat (digit_val d1)) :: rest)
                        | EmptyString => Ok [Lit (ascii_of_nat (digit_val d1))]
                        end
                      else
                        rest ← parse_template_from None s2;
                        Ok (Lit (ascii_of_nat 0) :: rest)
                  | EmptyString => Ok [Lit (ascii_of_nat 0)]
                  end
                else if is_digit e then
                  match s2 with
                  | String d2 (String d3 s4) =>
                      if is_octdigit e && is_octdigit d2 && is_octdigit d3 then
                        let v := 64 * digit_val e + 8 * digit_val d2 + digit_val d3 in
                        if (255 <? v)%nat
                        then Raise (ReError "octal escape value outside of range 0-0o377")
                        else rest ← parse_template_from None s4;
                             Ok (Lit (ascii_of_nat v) :: rest)
                      else Raise (ReError "invalid group reference")
                  | _ => Raise (ReError "invalid group reference")
                  end
                else
                  match escapes e with
                  | Some x => rest ← parse_template_from None s2; Ok (Lit x :: rest)
                  | None =>
                      if is_ascii_letter e then Raise (ReError "bad escape")
                      else rest ← parse_template_from None s2;
                           Ok (Lit c :: Lit e :: rest)
                  end
            end
      end
  end.

Definition parse_template (repl : string) : result (list piece) :=
  parse_template_from None repl.

(** The text a parsed template stands for, given the matched text. *)
Fixpoint expand (pieces : list piece) (matched : string) : string :=
  match pieces with
  | [] => EmptyString
  | Lit c :: rest => String c (expand rest matched)
  | Group0 :: rest => matched ++ expand rest matched
  end.

End Re.

(** ** The template anchors *)

(** One attempt of [<div\s+id="IDENT"[^>]*>] at the start of [s]; the length
    of the match.  [\s+] takes all the white space there is (the literal
    after it starts with a letter), and [[^>]*>] ends at the first [>]. *)
Definition match_div (ident s : string) : option nat :=
  if starts_with "<div" s then
    let s1 := drop 4 s in
    let s2 := lstrip s1 in
    let spaces := String.length s1 - String.length s2 in
    let attr := "id=" ++ q ident in
    if (spaces =? 0)%nat then None
    else if starts_with attr s2 then
      match find ">" (drop (String.length attr) s2) with
      | Some k => Some (4 + spaces + String.length attr + k + 1)
      | None => None
      end
    else None
  else None.

(** [re.search] of that pattern. *)
Definition search_div (ident : string) : string -> option (nat * nat) :=
  Re.search (match_div ident).

Definition inject_cards_into_template (template_html cards_html : string)
  : result string :=
  match search_div "meet-grid" template_html with
  | None =>
      Raise (ValueError ("Could not find <div id=" ++ q "meet-grid" ++ "...> in the template."))
  | Some (_, start_idx) =>
      match search_div "performance-panel" template_html with
      | None =>
          Raise (ValueError ("Could not find <div id=" ++ q "performance-panel"
                             ++ "...> in the template."))
      | Some (panel_idx, _) =>
          let before := take start_idx template_html in
          let panel_and_after := drop panel_idx template_html in
          Ok (before ++ nl ++ cards_html ++ nl ++ panel_and_after)
      end
  end.

(** ** The heading *)

(** One attempt of [<h1>.*?</h1>] (with [re.DOTALL]) at the start of [s]:
    the lazy [.*?] stops at the first [</h1>].  The length of the match. *)
Definition match_h1 (s : string) : option nat :=
  if starts_with "<h1>" s then
    match find "</h1>" (drop 4 s) with
    | Some k => Some (4 + k + 5)
    | None => None
    end
  else None.

Definition search_h1 : string -> option (nat * nat) := Re.search match_h1.

(** [re.sub(r"<h1>.*?</h1>", repl, html_text, count=1, flags=re.DOTALL)]:
    the template is parsed before the search starts. *)
Definition sub_first_h1 (repl html_text : string) : result string :=
  pieces ← Re.parse_template repl;
  match search_h1 html_text with
  | None => Ok html_text
  | Some (a, b) =>
      Ok (take a html_text
          ++ Re.expand pieces (take (b - a) (drop a html_text))
          ++ drop b html_text)
  end.

Definition replace_first_h1 (html_text new_name : string) : result string :=
  if is_empty (strip new_name) then Ok html_text
  else sub_first_h1 ("<h1>" ++ escape (strip new_name) ++ "</h1>") html_text.

(** ** Numbers: [int(s)], [float(s)] and float arithmetic *)

Module Num.

(** A Python float: an IEEE 754 binary64 value. *)
Abbreviation float := spec_float.
Definition prec : Z := 53.
Definition emax : Z := 1024.

(** The white space [int()] and [float()] skip at both ends: the ASCII
    white space and, once a non-ASCII string is brought to ASCII, NEL and
    NBSP.  The separators FS..US are not skipped. *)
Definition is_num_space (c : ascii) : bool :=
  in_range 9 13 c || (code c =? 32)%nat || (code c =? 133)%nat || (code c =? 160)%nat.

Definition digit_Z (c : ascii) : Z := Z.of_nat (code c - 48).

Fixpoint digits_value_from (acc : Z) (s : string) : Z :=
  match s with
  | EmptyString => acc
  | String c s' => digits_value_from (10 * acc + digit_Z c) s'
  end.

(** The number a string of decimal digits denotes. *)
Definition digits_value (s : string) : Z := digits_value_from 0 s.

(** The longest prefix of digits, and what follows it. *)
Fixpoint span_digits (s : string) : string * string :=
  match s with
  | String c s' =>
      if is_digit c then let '(d, r) := span_digits s' in (String c d, r)
      else (EmptyString, s)
  | EmptyString => (EmptyString, EmptyString)
  end.

(** An optional sign: whether it is a minus, and what follows it. *)
Definition read_sign (s : string) : bool * string :=
  match s with
  | String "-" s' => (true, s')
  | String "+" s' => (false, s')
  | _ => (false, s)
  end.

(** The digits of an integer literal with the underscores taken out: an
    underscore stands between two digits, and there is at least one
    digit.  [prev_digit] tells whether the previous character is a digit. *)
Fixpoint int_digits (prev_digit : bool) (s : string) : option string :=
  match s with
  | EmptyString => if prev_digit then Some EmptyString else None
  | String c s' =>
      if is_digit c then option_map (String c) (int_digits true s')
      else if Ascii.eqb c "_" && prev_digit then int_digits false s'
      else None
  end.

(** [sys.int_info.default_max_str_digits] *)
Definition max_str_digits : nat := 4300.

(** [int(s)] for a string [s] *)
Definition int_of_str (s : string) : result Z :=
  let '(neg, body) := read_sign (strip_with is_num_space s) in
  match int_digits false body with
  | None => Raise (ValueError "invalid literal for int() with base 10")
  | Some ds =>
      if (max_str_digits <? String.length ds)%nat
      then Raise (ValueError "Exceeds the limit (4300 digits) for integer string conversion")
      else Ok (if neg then - digits_value ds else digits_value ds)%Z
  end.

(** The value [m * 10^e] of a decimal literal, rounded to the nearest float,
    ties to even; [neg] is the sign. *)
Definition float_of_decimal (neg : bool) (m e : Z) : float :=
  match m with
  | Zpos p =>
      match e with
      | Zneg k => SFdiv prec emax (S754_finite neg p 0)
                    (S754_finite false (Pos.pow 10 k) 0)
      | _ => binary_round prec emax neg (p * Z.to_pos (10 ^ e)) 0
      end
  | _ => S754_zero neg
  end.

(** Underscores in a float literal: each stands after a digit and before a
    digit; they are taken out. *)
Fixpoint float_underscores (prev : ascii) (s : string) : option string :=
  match s with
  | EmptyString => if Ascii.eqb prev "_" then None else Some EmptyString
  | String c s' =>
      if Ascii.eqb c "_" then
        if is_digit prev then float_underscores c s' else None
      else if Ascii.eqb prev "_" && negb (is_digit c) then None
      else option_map (String c) (float_underscores c s')
  end.

Definition lower_char (c : ascii) : ascii :=
  if in_range 65 90 c then ascii_of_nat (code c + 32) else c.

Fixpoint lower_ascii (s : string) : string :=
  match s with
  | EmptyString => EmptyString
  | String c s' => String (lower_char c) (lower_ascii s')
  end.

(** The optional exponent of a float literal: its value and what follows
    it.  An [e] that no digit follows is not an exponent. *)
Definition read_exponent (s : string) : Z * string :=
  match s with
  | String c s' =>
      if Ascii.eqb c "e" || Ascii.eqb c "E" then
        let '(neg, s'') := read_sign s' in
        let '(ds, r) := span_digits s'' in
        if is_empty ds then (0%Z, s)
        else ((if neg then - digits_value ds else digits_value ds)%Z, r)
      else (0%Z, s)
  | EmptyString => (0%Z, s)
  end.

(** A float literal without its sign. *)
Definition float_body (neg : bool) (s : string) : option float :=
  if String.eqb (lower_ascii s) "inf" || String.eqb (lower_ascii s) "infinity"
  then Some (S754_infinity neg)
  else if String.eqb (lower_ascii s) "nan" then Some S754_nan
  else
    let '(ip, r1) := span_digits s in
    let '(fp, r2) :=
      match r1 with
      | String "." r => span_digits r
      | _ => (EmptyString, r1)
      end in
    if is_empty ip && is_empty fp then None
    else
      let '(ex, r3) := read_exponent r2 in
      if is_empty r3
      then Some (float_of_decimal neg (digits_value (ip ++ fp))
                   (ex - Z.of_nat (String.length fp)))
      else None.

(** [float(s)] for a string [s] *)
Definition float_of_str (s : string) : result float :=
  let err := Raise (ValueError "could not convert string to float") in
  match float_underscores "000" (strip_with is_num_space s) with
  | None => err
  | Some t =>
      let '(neg, body) := read_sign t in
      match float_body neg body with
      | Some f => Ok f
      | None => err
      end
  end.

(** The conversion of an [int] operand that meets a float. *)
Definition float_of_int (n : Z) : result float :=
  match binary_normalize prec emax n 0 false with
  | S754_infinity _ => Raise (OverflowError "int too large to convert to float")
  | f => Ok f
  end.

(** [n + f] for an [int] [n] and a float [f] *)
Definition int_add_float (n : Z) (f : float) : result float :=
  x ← float_of_int n; Ok (SFadd prec emax x f).

End Num.

Import Num.

(** ** Race times *)

(** The list pattern [a, b, c = t.split(":")]: three parts, or the
    unpacking fails with [ValueError]. *)
Definition unpack3 (l : list string) : result (string * string * string) :=
  match l with
  | [a; b; c] => Ok (a, b, c)
  | _ => Raise (ValueError "wrong number of values to unpack")
  end.

Definition unpack2 (l : list string) : result (string * string) :=
  match l with
  | [a; b] => Ok (a, b)
  | _ => Raise (ValueError "wrong number of values to unpack")
  end.

Definition parse_time_to_seconds (time_str : string) : result (option float) :=
  let t := strip time_str in
  if is_empty t || String.eqb (upper t) "N/A" then Ok None
  else if (count ":" t =? 2)%nat then
    '(a, b, c) ← unpack3 (split ":" t);
    catch_ValueError
      (x ← int_of_str a; y ← int_of_str b; z ← float_of_str c;
       f ← int_add_float (x * 3600 + y * 60) z; Ok (Some f))
      (Ok None)
  else if (count ":" t =? 1)%nat then
    '(a, b) ← unpack2 (split1 ":" t);
    catch_ValueError
      (x ← int_of_str a; z ← float_of_str b;
       f ← int_add_float (x * 60) z; Ok (Some f))
      (Ok None)
  else
    catch_ValueError (f ← float_of_str t; Ok (Some f)) (Ok None).

(** ** Calendar dates *)

Module Dt.

(** A [datetime.date]. *)
Record date : Type := { year : nat; month : nat; day : nat }.

Definition is_leap (y : nat) : bool :=
  ((y mod 4 =? 0) && (negb (y mod 100 =? 0) || (y mod 400 =? 0)))%nat.

Definition days_in_month (y m : nat) : nat :=
  match m with
  | 2 => if is_leap y then 29 else 28
  | 4 | 6 | 9 | 11 => 30
  | _ => 31
  end.

(** The constructor [date(y, m, d)], which raises [ValueError] outside the
    calendar. *)
Definition make_date (y m d : nat) : option date :=
  if ((1 <=? y) && (y <=? 9999) && (1 <=? m) && (m <=? 12)
      && (1 <=? d) && (d <=? days_in_month y m))%nat
  then Some {| year := y; month := m; day := d |}
  else None.

(** [n] in decimal, padded with zeros on the left to [width] characters. *)
Fixpoint zeros (n : nat) : string :=
  match n with
  | 0 => EmptyString
  | S n' => String "0" (zeros n')
  end.

Definition zero_pad (width n : nat) : string :=
  let s := str_of_nat n in zeros (width - String.length s) ++ s.

(** [d.isoformat()] *)
Definition isoformat (d : date) : string :=
  zero_pad 4 (year d) ++ "-" ++ zero_pad 2 (month d) ++ "-" ++ zero_pad 2 (day d).

(** *** [datetime.strptime] for the directives the program uses

    A format is turned into a regular expression and matched from the start
    of the text, ignoring case; the match has to end where the text ends.
    Every piece of the expression is a function from the text to the list
    of its possible matches (value read, text left), in the order in which
    the regular expression tries them. *)

Inductive token : Type :=
  | TYear4        (* %Y : \d\d\d\d *)
  | TYear2        (* %y : \d\d *)
  | TMonth        (* %m : 1[0-2]|0[1-9]|[1-9] *)
  | TDay          (* %d : 3[0-1]|[1-2]\d|0[1-9]|[1-9]| [1-9] *)
  | TMonthAbbr    (* %b *)
  | TMonthName    (* %B *)
  | TSpaces       (* white space in the format: \s+ *)
  | TChar (c : ascii)
  | TBad.         (* a directive outside this model *)

Fixpoint tokens (after_space : bool) (fmt : string) : list token :=
  match fmt with
  | EmptyString => []
  | String "%" (String d rest) =>
      (if Ascii.eqb d "Y" then TYear4
       else if Ascii.eqb d "y" then TYear2
       else if Ascii.eqb d "m" then TMonth
       else if Ascii.eqb d "d" then TDay
       else if Ascii.eqb d "b" then TMonthAbbr
       else if Ascii.eqb d "B" then TMonthName
       else TBad) :: tokens false rest
  | String "%" EmptyString => [TBad]
  | String c rest =>
      if is_space c then
        (if after_space then tokens true rest else TSpaces :: tokens true rest)
      else TChar c :: tokens false rest
  end.

Definition month_names : list string :=
  ["january"; "february"; "march"; "april"; "may"; "june"; "july";
   "august"; "september"; "october"; "november"; "december"].

Definition month_abbrs : list string := map (take 3) month_names.

(** The fields a match has read so far. *)
Record fields : Type := { f_year : option nat; f_month : option nat; f_day : option nat }.
Definition no_fields : fields := {| f_year := None; f_month := None; f_day := None |}.
Definition set_year (y : nat) (f : fields) : fields :=
  {| f_year := Some y; f_month := f_month f; f_day := f_day f |}.
Definition set_month (m : nat) (f : fields) : fields :=
  {| f_year := f_year f; f_month := Some m; f_day := f_day f |}.
Definition set_day (d : nat) (f : fields) : fields :=
  {| f_year := f_year f; f_month := f_month f; f_day := Some d |}.

Definition dval (c : ascii) : nat := code c - 48.

(** A literal of the expression, compared without regard to letter case. *)
Definition lit (p : string) (s : string) : list string :=
  if String.eqb (lower_ascii p) (lower_ascii (take (String.length p) s))
  then [drop (String.length p) s] else [].

(** The names of a month directive: the index (from 1) of each name the
    text starts with. *)
Fixpoint names_from (i : nat) (names : list string) (s : string) : list (nat * string) :=
  match names with
  | [] => []
  | n :: names' =>
      (map (fun r => (i, r)) (lit n s) ++ names_from (S i) names' s)%list
  end.

(** [\s+], the longest run first. *)
Fixpoint spaces_rest (s : string) : list string :=
  match s with
  | String c s' => if is_space c then (spaces_rest s' ++ [s'])%list else []
  | EmptyString => []
  end.

Definition month_alts (s : string) : list (nat * string) :=
  match s with
  | String a s1 =>
      ((match s1 with
        | String b s2 =>
            ((if Ascii.eqb a "1" && in_range 48 50 b then [(10 + dval b, s2)] else [])
             ++ (if Ascii.eqb a "0" && in_range 49 57 b then [(dval b, s2)] else []))%list
        | EmptyString => []
        end)
       ++ (if in_range 49 57 a then [(dval a, s1)] else []))%list
  | EmptyString => []
  end.

Definition day_alts (s : string) : list (nat * string) :=
  match s with
  | String a s1 =>
      ((match s1 with
        | String b s2 =>
            ((if Ascii.eqb a "3" && in_range 48 49 b then [(30 + dval b, s2)] else [])
             ++ (if in_range 49 50 a && is_digit b then [(10 * dval a + dval b, s2)] else [])
             ++ (if Ascii.eqb a "0" && in_range 49 57 b then [(dval b, s2)] else []))%list
        | EmptyString => []
        end)
       ++ (if in_range 49 57 a then [(dval a, s1)] else [])
       ++ (match s1 with
           | String b s2 =>
               if Ascii.eqb a " " && in_range 49 57 b then [(dval b, s2)] else []
           | EmptyString => []
           end))%list
  | EmptyString => []
  end.

(** All the ways one token matches at the start of [s]. *)
Definition match_token (t : token) (f : fields) (s : string) : list (fields * string) :=
  match t with
  | TYear4 =>
      match s with
      | String a (String b (String c (String d r))) =>
          if is_digit a && is_digit b && is_digit c && is_digit d
          then [(set_year (1000 * dval a + 100 * dval b + 10 * dval c + dval d) f, r)]
          else []
      | _ => []
      end
  | TYear2 =>
      match s with
      | String a (String b r) =>
          if is_digit a && is_digit b
          then let y := 10 * dval a + dval b in
               [(set_year (if (y <=? 68)%nat then y + 2000 else y + 1900) f, r)]
          else []
      | _ => []
      end
  | TMonth => map (fun '(m, r) => (set_month m f, r)) (month_alts s)
  | TDay => map (fun '(d, r) => (set_day d f, r)) (day_alts s)
  | TMonthAbbr => map (fun '(m, r) => (set_month m f, r)) (names_from 1 month_abbrs s)
  | TMonthName => map (fun '(m, r) => (set_month m f, r)) (names_from 1 month_names s)
  | TSpaces => map (fun r => (f, r)) (spaces_rest s)
  | TChar c => map (fun r => (f, r)) (lit (String c EmptyString) s)
  | TBad => []
  end.

(** All the matches of a sequence of tokens, the preferred one first. *)
Fixpoint match_tokens (ts : list token) (f : fields) (s : string) : list (fields * string) :=
  match ts with
  | [] => [(f, s)]
  | t :: ts' =>
      flat_map (fun '(f', r) => match_tokens ts' f' r) (match_token t f s)
  end.

(** [datetime.datetime.strptime(ds, fmt).date()]; [None] when it raises.
    A field the format does not name is 1900 for the year and 1 for the
    month and the day. *)
Definition strptime (ds fmt : string) : option date :=
  if existsb (fun t => match t with TBad => true | _ => false end) (tokens false fmt)
  then None
  else
    match match_tokens (tokens false fmt) no_fields ds with
    | (f, rest) :: _ =>
        if is_empty rest
        then make_date (default 1900 (f_year f)) (default 1 (f_month f))
                       (default 1 (f_day f))
        else None
    | [] => None
    end.

End Dt.

(** ** The race series *)

(** A point while the list is being built, with its [_sort] entry. *)
Record point : Type := {
  pt_date : string;
  pt_meet : string;
  pt_time : string;
  pt_seconds : option float;
  pt_sort : string
}.

(** A point of the returned list: [{date, meet, time, seconds}]. *)
Record series_point : Type := {
  sp_date : string;
  sp_meet : string;
  sp_time : string;
  sp_seconds : option float
}.

Definition public (p : point) : series_point :=
  {| sp_date := pt_date p; sp_meet := pt_meet p;
     sp_time := pt_time p; sp_seconds := pt_seconds p |}.

(** The formats tried on a date, in this order. *)
Definition date_formats : list string :=
  ["%Y-%m-%d"; "%m/%d/%Y"; "%m/%d/%y"; "%b %d %Y"; "%B %d %Y"].

(** The key of [points.sort]: [(p["_sort"] == "", p["_sort"])]. *)
Definition sort_key_of (p : point) : bool * string :=
  (String.eqb (pt_sort p) "", pt_sort p).

(** [a < b] for two such tuples: the first components decide unless they
    are equal, and [False < True]. *)
Definition key_lt (a b : bool * string) : bool :=
  if Bool.eqb (fst a) (fst b) then String.ltb (snd a) (snd b)
  else negb (fst a) && fst b.

(** [list.sort] is a stable sort that compares keys with [<] only.  The
    model inserts the elements from the last to the first, each one before
    the first element whose key is not smaller than its own. *)
Section Sort.
Context {A K : Type} (key : A -> K) (lt : K -> K -> bool).

Fixpoint insert_sorted (x : A) (l : list A) : list A :=
  match l with
  | [] => [x]
  | y :: l' =>
      if lt (key y) (key x) then y :: insert_sorted x l' else x :: l
  end.

Fixpoint py_sort (l : list A) : list A :=
  match l with
  | [] => []
  | x :: l' => insert_sorted x (py_sort l')
  end.
End Sort.

Section RaceSeries.
(** [strptime ds fmt] is [datetime.datetime.strptime(ds, fmt).date()],
    [None] when the call raises; [Dt.strptime] is the instance for the C
    locale. *)
Variable strptime : string -> string -> option Dt.date.

(** The loop over the formats, which stops at the first one that
    parses. *)
Fixpoint first_format (ds : string) (fmts : list string) : string :=
  match fmts with
  | [] => ""
  | fmt :: fmts' =>
      match strptime ds fmt with
      | Some d => Dt.isoformat d
      | None => first_format ds fmts'
      end
  end.

Definition sort_key (r : record) : string :=
  first_format (strip (or_empty (r !! "Date"))) date_formats.

(** The test that makes the loop [continue]. *)
Definition skipped (cfg : config) (r : record) : bool :=
  match YEAR_FILTER cfg with
  | Some y => negb (String.eqb (year_from_date (strip (or_empty (r !! "Date")))) y)
  | None => false
  end.

Definition make_point (r : record) : result point :=
  let meet := safe (r !! "Meet Name") in
  let date := safe (r !! "Date") in
  let time := safe (r !! "Time") in
  sec ← parse_time_to_seconds time;
  Ok {| pt_date := date; pt_meet := meet; pt_time := time;
        pt_seconds := sec; pt_sort := sort_key r |}.

(** The list [points] at the end of the loop. *)
Fixpoint race_points (cfg : config) (records : list record) : result (list point) :=
  match records with
  | [] => Ok []
  | r :: rest =>
      if skipped cfg r then race_points cfg rest
      else p ← make_point r; ps ← race_points cfg rest; Ok (p :: ps)
  end.

Definition build_race_series (cfg : config) (records : list record)
  : result (list series_point) :=
  points ← race_points cfg records;
  Ok (map public (py_sort sort_key_of key_lt points)).
End RaceSeries.

(** ** Blank strings and sample inputs *)

(** All the characters of [s] are white space. *)
Fixpoint all_space (s : string) : bool :=
  match s with
  | EmptyString => true
  | String c s' => is_space c && all_space s'
  end.

(** A template with both anchors. *)
Definition sample_template : string :=
  "<main><div id=" ++ q "meet-grid" ++ " class=" ++ q "grid" ++ ">old</div>"
  ++ "<div id=" ++ q "performance-panel" ++ "><canvas></canvas></div></main>".

(** A CSV in the expected shape, and one with the sections in reverse
    order. *)
Definition sample_rows : list row :=
  [["Bio"]; ["Athlete Name"; "Grade"]; ["Garrett Comer"; "12"];
   ["Results"]; ["Meet Name"; "Date"; "Time"]; ["City Meet"; "3/1/2025"; "5:23.4"]].

Definition reversed_rows : list row :=
  [["Results"]; ["Meet Name"; "Date"]; ["City Meet"; "3/1/2025"];
   ["Bio"]; ["Athlete Name"]; ["Garrett Comer"]].

(** A configuration without a fallback image. *)
Definition no_fallback_config : config := {|
  IMAGE_BASE := "https://example.org/photos/";
  DEFAULT_IMAGE_URL := "";
  YEAR_FILTER := None
|}.

(** Two result records that differ in their date, and the configuration
    of the source with a season filter. *)
Definition dated (d : string) : record :=
  {[ "Meet Name" := "City Meet"; "Date" := d; "Time" := "5:23.4" ]}.

Definition two_records : list record := [dated "3/1/2024"; dated "3/1/2025"].

Definition season (y : string) : config := {|
  IMAGE_BASE := IMAGE_BASE source_config;
  DEFAULT_IMAGE_URL := DEFAULT_IMAGE_URL source_config;
  YEAR_FILTER := Some y
|}.

(** The configuration [cfg] with the season filter unset. *)
Definition unfiltered (cfg : config) : config := {|
  IMAGE_BASE := IMAGE_BASE cfg;
  DEFAULT_IMAGE_URL := DEFAULT_IMAGE_URL cfg;
  YEAR_FILTER := None
|}.

(** A record whose alternative text holds a double quote, and one whose
    meet name does. *)
Definition quoted_alt : string := "x" ++ dq ++ " onerror=" ++ dq ++ "alert(1)".

Definition alt_record : record :=
  {[ "Meet Name" := "City Meet"; "AltText" := quoted_alt ]}.

Definition quoted_meet_record : record :=
  {[ "Meet Name" := "The " ++ dq ++ "Big" ++ dq ++ " Meet" ]}.

(** Whether the text before a position ends with a word character;
    [prev_word] answers for the empty text. *)
Fixpoint ends_word (prev_word : bool) (s : string) : bool :=
  match s with
  | EmptyString => prev_word
  | String c s' => ends_word (is_word c) s'
  end.

(** [x] may stand before [y] in a list sorted by [key]: the key of [y] is
    not smaller than the key of [x]. *)
Definition not_after {A K : Type} (key : A -> K) (lt : K -> K -> bool) (x y : A) : Prop :=
  lt (key y) (key x) = false.

(** A point whose date was parsed under one of the formats. *)
Definition parsed (p : point) : bool := negb (String.eqb (pt_sort p) "").

(** The point the loop of [build_race_series] makes of a record. *)
Definition is_point_of (strptime : string -> string -> option Dt.date)
    (r : record) (p : point) : Prop :=
  pt_date p = safe (r !! "Date")
  /\ pt_meet p = safe (r !! "Meet Name")
  /\ pt_time p = safe (r !! "Time")
  /\ parse_time_to_seconds (safe (r !! "Time")) = Ok (pt_seconds p)
  /\ pt_sort p = sort_key strptime r.

(** Records with dates in three of the formats, one without a date that
    parses, and two with the same day. *)
Definition dated_records : list record :=
  [dated "3/1/2025"; dated "sometime"; dated "2024-01-05"; dated "Mar 1 2025";
   dated "March 2 2024"; dated "12/31/23"].

(** The literal pieces of a text. *)
Definition literals (s : string) : list Re.piece :=
  map Re.Lit (list_ascii_of_string s).

(** A heading with an attribute, a name with an escape sequence of the
    replacement templates, and one with a sequence they reject. *)
Definition attributed_heading : string :=
  "<h1 class=" ++ q "name" ++ ">Old Name</h1>".

Definition name_with_newline_escape : string := "Jo" ++ String bs "nes".

Definition name_with_bad_escape : string := "Ada" ++ String bs "d".

(** The point of a sample record, whose time is 5:23.4. *)
Definition sample_point (r : record) : point :=
  {| pt_date := safe (r !! "Date"); pt_meet := safe (r !! "Meet Name");
     pt_time := safe (r !! "Time");
     pt_seconds := Some (float_of_decimal false 3234 (-1));
     pt_sort := sort_key Dt.strptime r |}.

(** ** The time formats of the specification

    The specification names three formats: H:MM:SS, MM:SS and bare
    seconds, with a fraction allowed in the seconds.  They are read here as
    fields of decimal digits separated by colons, the last field with an
    optional fraction after a point. *)

(** All the characters of [s] are in the class [p]. *)
Fixpoint all_in (p : ascii -> bool) (s : string) : bool :=
  match s with
  | EmptyString => true
  | String c s' => p c && all_in p s'
  end.

(** A field of digits: at least one. *)
Definition is_number (s : string) : bool := negb (is_empty s) && all_in is_digit s.

(** A seconds field: digits, then possibly a point and digits. *)
Definition spec_seconds (s : string) : bool :=
  let '(ip, r) := span_digits s in
  negb (is_empty ip)
  && match r with
     | EmptyString => true
     | String c fp => Ascii.eqb c "." && all_in is_digit fp
     end.

Definition spec_time_format (s : string) : bool :=
  match split ":" s with
  | [sec] => spec_seconds sec
  | [m; sec] => is_number m && spec_seconds sec
  | [h; m; sec] => is_number h && is_number m && spec_seconds sec
  | _ => false
  end.

(** The float nearest to the decimal number a seconds field denotes. *)
Definition seconds_value (s : string) : float :=
  let '(ip, r) := span_digits s in
  let fp := match r with String _ fp => fp | EmptyString => EmptyString end in
  float_of_decimal false (digits_value (ip ++ fp)) (- Z.of_nat (String.length fp)).

(** A character of a time in one of the formats. *)
Definition time_char (c : ascii) : bool :=
  is_digit c || Ascii.eqb c "." || Ascii.eqb c ":".

(** A text of [n] zeros after a one: the digits of [10^n]. *)
Definition one_and_zeros (n : nat) : string := String "1" (Dt.zeros n).

(** ** The behavior scripts

    [str.replace(old, new)] for a text [old] that is not empty: the
    occurrences are found from left to right and do not overlap.  [skip]
    counts the characters of an occurrence that are still to be passed. *)
Fixpoint replace_from (old new : string) (skip : nat) (s : string) : string :=
  match s with
  | EmptyString => EmptyString
  | String c s' =>
      match skip with
      | S k => replace_from old new k s'
      | 0 =>
          if starts_with old s
          then new ++ replace_from old new (String.length old - 1) s'
          else String c (replace_from old new 0 s')
      end
  end.

Definition replace_text (old new s : string) : string := replace_from old new 0 s.

(** The f-string [script] of [inject_scripts]: the text before the
    interpolated [race_series_json] and the text after it. *)
Definition script_head : string :=
  nl ++
  "<script id=" ++ dq ++ "race-data" ++ dq ++ " type=" ++ dq ++ "application/json" ++ dq ++ ">".

Definition script_tail : string :=
  "</script>" ++ nl ++
  "<script>" ++ nl ++
  "  // Toggle per-card details (layout-stable overlay)" ++ nl ++
  "  document.addEventListener(" ++ dq ++ "click" ++ dq ++ ", function (e) {" ++ nl ++
  "    const btn = e.target.closest(" ++ dq ++ "button.open-panel" ++ dq ++ ");" ++ nl ++
  "    if (!btn) return;" ++ nl ++
  nl ++
  "    const targetId = btn.getAttribute(" ++ dq ++ "aria-controls" ++ dq ++ ");" ++ nl ++
  "    if (!targetId) return;" ++ nl ++
  nl ++
  "    const panel = document.getElementById(targetId);" ++ nl ++
  "    if (!panel) return;" ++ nl ++
  nl ++
  "    const isOpen = !panel.hasAttribute(" ++ dq ++ "hidden" ++ dq ++ ");" ++ nl ++
  "    if (isOpen) {" ++ nl ++
  "      panel.setAttribute(" ++ dq ++ "hidden" ++ dq ++ ", " ++ dq ++ dq ++ ");" ++ nl ++
  "      btn.setAttribute(" ++ dq ++ "aria-expanded" ++ dq ++ ", " ++ dq ++ "false" ++ dq ++ ");" ++ nl ++
  "    } else {" ++ nl ++
  "      panel.removeAttribute(" ++ dq ++ "hidden" ++ dq ++ ");" ++ nl ++
  "      btn.setAttribute(" ++ dq ++ "aria-expanded" ++ dq ++ ", " ++ dq ++ "true" ++ dq ++ ");" ++ nl ++
  "    }" ++ nl ++
  "  });" ++ nl ++
  nl ++
  "  // Chart.js time trend" ++ nl ++
  "  document.addEventListener(" ++ dq ++ "DOMContentLoaded" ++ dq ++ ", function () {" ++ nl ++
  "    const el = document.getElementById(" ++ dq ++ "race-data" ++ dq ++ ");" ++ nl ++
  "    const canvas = document.getElementById(" ++ dq ++ "time-chart" ++ dq ++ ");" ++ nl ++
  "    if (!el || !canvas || typeof Chart === " ++ dq ++ "undefined" ++ dq ++ ") return;" ++ nl ++
  nl ++
  "    const races = JSON.parse(el.textContent || " ++ dq ++ "[]" ++ dq ++ ")" ++ nl ++
  "      .filter(r => typeof r.seconds === " ++ dq ++ "number" ++ dq ++ " && !Number.isNaN(r.seconds));" ++ nl ++
  nl ++
  "    if (!races.length) return;" ++ nl ++
  nl ++
  "    const labels = races.map(r => r.date);" ++ nl ++
  "    const seconds = races.map(r => r.seconds);" ++ nl ++
  nl ++
  "    function formatTime(sec) {" ++ nl ++
  "      const m = Math.floor(sec / 60);" ++ nl ++
  "      const s = sec - m * 60;" ++ nl ++
  "      const sInt = Math.floor(s);" ++ nl ++
  "      const tenths = Math.round((s - sInt) * 10);" ++ nl ++
  "      const ss = String(sInt).padStart(2, " ++ dq ++ "0" ++ dq ++ ");" ++ nl ++
  "      return tenths > 0 ? `${m}:${ss}.${tenths}` : `${m}:${ss}`;" ++ nl ++
  "    }" ++ nl ++
  nl ++
  "    const ctx = canvas.getContext(" ++ dq ++ "2d" ++ dq ++ ");" ++ nl ++
  "    new Chart(ctx, {" ++ nl ++
  "      type: " ++ dq ++ "line" ++ dq ++ "," ++ nl ++
  "      data: {" ++ nl ++
  "        labels," ++ nl ++
  "        datasets: [{" ++ nl ++
  "          label: " ++ dq ++ "Race time" ++ dq ++ "," ++ nl ++
  "          data: seconds," ++ nl ++
  "          tension: 0.25," ++ nl ++
  "          pointRadius: 3" ++ nl ++
  "        }]" ++ nl ++
  "      }," ++ nl ++
  "      options: {" ++ nl ++
  "        responsive: true," ++ nl ++
  "        maintainAspectRatio: false," ++ nl ++
  "        plugins: {" ++ nl ++
  "          tooltip: {" ++ nl ++
  "            callbacks: {" ++ nl ++
  "              title: (items) => {" ++ nl ++
  "                const i = items?.[0]?.dataIndex ?? 0;" ++ nl ++
  "                return races[i]?.meet ? `${races[i].meet}` : `${labels[i]}`;" ++ nl ++
  "              }," ++ nl ++
  "              label: (item) => `Time: ${formatTime(item.parsed.y)}`," ++ nl ++
  "              afterLabel: (item) => {" ++ nl ++
  "                const i = item.dataIndex;" ++ nl ++
  "                return races[i]?.date ? `Date: ${races[i].date}` : " ++ dq ++ dq ++ ";" ++ nl ++
  "              }" ++ nl ++
  "            }" ++ nl ++
  "          }" ++ nl ++
  "        }," ++ nl ++
  "        scales: {" ++ nl ++
  "          y: {" ++ nl ++
  "            reverse: true," ++ nl ++
  "            ticks: {" ++ nl ++
  "              callback: (value) => formatTime(value)" ++ nl ++
  "            }," ++ nl ++
  "            title: { display: true, text: " ++ dq ++ "Time (mm:ss)" ++ dq ++ " }" ++ nl ++
  "          }," ++ nl ++
  "          x: {" ++ nl ++
  "            title: { display: true, text: " ++ dq ++ "Meet date" ++ dq ++ " }" ++ nl ++
  "          }" ++ nl ++
  "        }" ++ nl ++
  "      }" ++ nl ++
  "    });" ++ nl ++
  "  });" ++ nl ++
  "</script>" ++ nl.

Definition script_block (race_series_json : string) : string :=
  script_head ++ race_series_json ++ script_tail.

Definition inject_scripts (html_text race_series_json : string) : string :=
  let script := script_block race_series_json in
  if negb (contains "</body>" html_text) then html_text ++ script
  else replace_text "</body>" (script ++ nl ++ "</body>") html_text.

(** ** The page

    The steps of [main] between reading the two files and writing the
    page.  [json_dumps] is [json.dumps] on a race series. *)
Section Main.
Variable strptime : string -> string -> option Dt.date.
Variable json_dumps : list series_point -> string.

Definition build_page (cfg : config) (template_html : string) (rows : list row)
  : result string :=
  '(bio_header, bio_rows, results_header, results_rows) ← read_sections rows;
  let bio := parse_primary_bio bio_header bio_rows in
  let results := parse_results results_header results_rows in
  let cards_html := build_meet_cards cfg results in
  out_html ← inject_cards_into_template template_html cards_html;
  let athlete_name := strip (or_empty (bio !! "Athlete Name")) in
  out_html ← replace_first_h1 out_html athlete_name;
  race_series ← build_race_series strptime cfg results;
  Ok (inject_scripts out_html (json_dumps race_series)).
End Main.

(** A record without a time, and one whose time is blank. *)
Definition untimed_record : record := {[ "Meet Name" := "City Meet"; "Date" := "3/1/2025" ]}.
Definition blank_time_record : record :=
  {[ "Meet Name" := "City Meet"; "Date" := "3/1/2025"; "Time" := "   " ]}.

(** A record whose time has a minutes field of 401 digits. *)
Definition overflowing_record : record :=
  {[ "Meet Name" := "City Meet"; "Date" := "3/1/2025";
     "Time" := one_and_zeros 400 ++ ":00" ]}.

(** Two keys of which neither is smaller than the other. *)
Definition same_class {K : Type} (lt : K -> K -> bool) (k k' : K) : bool :=
  negb (lt k k') && negb (lt k' k).

(** The date at which the loop over the formats stops: the value of
    [dt] when [_sort] is filled in, [None] when no format parses. *)
Fixpoint first_date (ds : string) (fmts : list string) : option Dt.date :=
  match fmts with
  | [] => None
  | fmt :: fmts' =>
      match Dt.strptime ds fmt with
      | Some d => Some d
      | None => first_date ds fmts'
      end
  end.

(** [d1 < d2] on dates. *)
Definition date_before (d1 d2 : Dt.date) : Prop :=
  (Dt.year d1 < Dt.year d2
   \/ (Dt.year d1 = Dt.year d2
       /\ (Dt.month d1 < Dt.month d2
           \/ (Dt.month d1 = Dt.month d2 /\ Dt.day d1 < Dt.day d2))))%nat.

(** The decimal digit [n], for [n < 10]. *)
Definition digit (n : nat) : ascii := ascii_of_nat (48 + n).

(** A template with the performance panel before the meet grid. *)
Definition panel_first_template : string :=
  "<div id=" ++ q "performance-panel" ++ "></div><div id=" ++ q "meet-grid" ++ "></div>".

(** A template without the anchors, and a stand-in for [json.dumps]. *)
Definition bare_template : string := "<main><h1>Name</h1></main>".
Definition no_json (series : list series_point) : string := "[]".

(** A template with its heading before the anchors. *)
Definition headed_template : string := "<h1>Name</h1>" ++ sample_template.
(** Cards with a heading of their own (from an alt text, which is not
    escaped). *)
Definition cards_with_heading : string := "<img alt=" ++ q "<h1>x</h1>" ++ ">".

(** The sort key of the point of a record, and what a returned point
    shows of the record it was made of. *)
Definition record_key (strptime : string -> string -> option Dt.date) (r : record)
  : bool * string :=
  (String.eqb (sort_key strptime r) "", sort_key strptime r).

Definition shows (r : record) (sp : series_point) : Prop :=
  sp_date sp = safe (r !! "Date")
  /\ sp_meet sp = safe (r !! "Meet Name")
  /\ sp_time sp = safe (r !! "Time")
  /\ parse_time_to_seconds (safe (r !! "Time")) = Ok (sp_seconds sp).

(** At offset [j] of [s] stands the number [y], of the form 20dd, with no
    word character right before it and none right after it. *)
Definition standalone_year (s : string) (j : nat) (y : string) : Prop :=
  exists (d1 d2 : ascii) (post : string),
    y = String "2" (String "0" (String d1 (String d2 "")))
    /\ is_digit d1 = true /\ is_digit d2 = true
    /\ drop j s = y ++ post
    /\ ends_word false (take j s) = false
    /\ ends_word false (take 1 post) = false.

(** A date that names two years. *)
Definition two_year_record : record :=
  {[ "Meet Name" := "City Meet"; "Date" := "2024-2025 season"; "Time" := "5:23.4" ]}.

(** * Properties *)

(** ** Strings *)

Section StringFacts.

Lemma append_nil_r (s : string) : s ++ "" = s.
Proof. induction s as [|c s IH]; simpl; [reflexivity | now rewrite IH]. Qed.

Lemma append_assoc (s t u : string) : (s ++ t) ++ u = s ++ t ++ u.
Proof. induction s as [|c s IH]; simpl; [reflexivity | now rewrite IH]. Qed.

Lemma length_append (s t : string) :
String.length (s ++ t) = String.length s + String.length t.
Proof. induction s as [|c s IH]; simpl; [reflexivity | now rewrite IH]. Qed.

Lemma is_empty_true (s : string) : is_empty s = true <-> s = "".
Proof. destruct s; simpl; split; congruence. Qed.

Lemma is_empty_false (s : string) : is_empty s = false <-> s <> "".
Proof. destruct s; simpl; split; congruence. Qed.

Lemma take_drop (n : nat) (s : string) : take n s ++ drop n s = s.
Proof.
revert s; induction n as [|n IH]; intros [|c s]; simpl; try reflexivity.
now rewrite IH.
Qed.

Lemma length_take (n : nat) (s : string) :
n <= String.length s -> String.length (take n s) = n.
Proof.
revert s; induction n as [|n IH]; intros [|c s]; simpl; intros H; try lia.
rewrite IH; lia.
Qed.

Lemma length_drop (n : nat) (s : string) :
String.length (drop n s) = String.length s - n.
Proof.
revert s; induction n as [|n IH]; intros [|c s]; simpl; try lia. apply IH.
Qed.

Lemma take_app_length (s t : string) : take (String.length s) (s ++ t) = s.
Proof. induction s as [|c s IH]; simpl; [now destruct t | now rewrite IH]. Qed.

Lemma drop_app_length (s t : string) : drop (String.length s) (s ++ t) = t.
Proof. induction s as [|c s IH]; simpl; [reflexivity | exact IH]. Qed.

Lemma drop_drop (a b : nat) (s : string) : drop b (drop a s) = drop (a + b) s.
Proof.
revert s; induction a as [|a IH]; intros s; simpl; [reflexivity|].
destruct s as [|c s]; [now destruct b | apply IH].
Qed.

Lemma take_add (a b : nat) (s : string) :
take (a + b) s = take a s ++ take b (drop a s).
Proof.
revert s; induction a as [|a IH]; intros s; simpl; [reflexivity|].
destruct s as [|c s]; simpl; [now destruct b | now rewrite IH].
Qed.

Lemma starts_with_app (p r : string) : starts_with p (p ++ r) = true.
Proof.
induction p as [|c p IH]; simpl; [reflexivity|].
now rewrite Ascii.eqb_refl, IH.
Qed.

Lemma starts_with_split (p s : string) :
starts_with p s = true -> s = p ++ drop (String.length p) s.
Proof.
revert s; induction p as [|c p IH]; intros s H; simpl in *; [reflexivity|].
destruct s as [|d s]; [discriminate|].
apply andb_true_iff in H as [Hc Hp]. apply Ascii.eqb_eq in Hc as ->.
simpl. f_equal. now apply IH.
Qed.

Lemma starts_with_iff (p s : string) :
starts_with p s = true <-> exists r, s = p ++ r.
Proof.
split.
- intros H. eexists. now apply starts_with_split.
- intros [r ->]. apply starts_with_app.
Qed.

Lemma starts_with_length (p s : string) :
starts_with p s = true -> String.length p <= String.length s.
Proof.
intros H. apply starts_with_split in H. rewrite H, length_append. lia.
Qed.

(** [find] returns the first position at which the pattern occurs. *)
Lemma find_Some (p s : string) (i : nat) :
find p s = Some i ->
starts_with p (drop i s) = true
/\ i + String.length p <= String.length s
/\ forall j, j < i -> starts_with p (drop j s) = false.
Proof.
revert i; induction s as [|c s IH]; intros i; simpl.
- destruct (starts_with p "") eqn:E; [|discriminate].
  intros [= <-]. split; [exact E|]. split; [|lia].
  apply starts_with_length in E. simpl in *. lia.
- destruct (starts_with p (String c s)) eqn:E.
  + intros [= <-]. split; [exact E|]. split; [|lia].
    apply starts_with_length in E. simpl in *. lia.
  + destruct (find p s) as [k|]; [|discriminate]. simpl. intros [= <-].
    destruct (IH k eq_refl) as (H1 & H2 & H3). simpl. repeat split; [assumption|lia|].
    intros [|j] Hj; simpl; [assumption | apply H3; lia].
Qed.

Lemma find_None (p s : string) :
find p s = None -> forall j, starts_with p (drop j s) = false.
Proof.
induction s as [|c s IH]; simpl.
- destruct (starts_with p "") eqn:E; [discriminate|]. intros _ [|j]; exact E.
- destruct (starts_with p (String c s)) eqn:E; [discriminate|].
  destruct (find p s); [discriminate|]. intros _ [|j]; simpl; [exact E | now apply IH].
Qed.

Lemma find_unfold (p s : string) :
find p s = if starts_with p s then Some 0
           else match s with
                | EmptyString => None
                | String _ s' => option_map S (find p s')
                end.
Proof. destruct s; reflexivity. Qed.

Lemma find_first (p pre post : string) :
(forall j, j < String.length pre -> starts_with p (drop j (pre ++ p ++ post)) = false) ->
find p (pre ++ p ++ post) = Some (String.length pre).
Proof.
induction pre as [|c pre IH]; intros H.
- simpl. rewrite find_unfold. now rewrite starts_with_app.
- pose proof (H 0 ltac:(simpl; lia)) as H0. simpl in H0. simpl. rewrite H0.
  rewrite IH; [reflexivity|].
  intros j Hj. apply (H (S j)). simpl. lia.
Qed.

End StringFacts.

(** ** Searching *)

Lemma search_unfold (attempt : string -> option nat) (s : string) :
  Re.search attempt s =
  match attempt s with
  | Some n => Some (0, n)
  | None =>
      match s with
      | EmptyString => None
      | String _ s' =>
          match Re.search attempt s' with
          | Some (a, b) => Some (S a, S b)
          | None => None
          end
      end
  end.
Proof. destruct s; reflexivity. Qed.

(** A successful search returns the leftmost position at which an attempt
    succeeds, with the end of that attempt. *)
Lemma search_Some (attempt : string -> option nat) (s : string) (a b : nat) :
  Re.search attempt s = Some (a, b) ->
  a <= b /\ a <= String.length s
  /\ attempt (drop a s) = Some (b - a)
  /\ forall j, j < a -> attempt (drop j s) = None.
Proof.
  revert a b; induction s as [|c s IH]; intros a b; rewrite search_unfold.
  - destruct (attempt "") as [n|] eqn:E; [|discriminate].
    intros [= <- <-]. simpl. rewrite E, Nat.sub_0_r. repeat split; lia.
  - destruct (attempt (String c s)) as [n|] eqn:E.
    + intros [= <- <-]. simpl. rewrite E, Nat.sub_0_r. repeat split; lia.
    + destruct (Re.search attempt s) as [[a' b']|]; [|discriminate].
      intros [= <- <-]. destruct (IH a' b' eq_refl) as (H1 & H2 & H3 & H4).
      simpl. repeat split; [lia | lia | assumption |].
      intros [|j] Hj; simpl; [assumption | apply H4; lia].
Qed.

Lemma search_None (attempt : string -> option nat) (s : string) :
  Re.search attempt s = None -> forall j, attempt (drop j s) = None.
Proof.
  induction s as [|c s IH]; rewrite search_unfold.
  - destruct (attempt "") eqn:E; [discriminate|]. intros _ [|j]; exact E.
  - destruct (attempt (String c s)) eqn:E; [discriminate|].
    destruct (Re.search attempt s) as [[a b]|]; [discriminate|].
    intros _ [|j]; simpl; [exact E | now apply IH].
Qed.

(** The search finds a match that nothing precedes. *)
Lemma search_first (attempt : string -> option nat) (s : string) (a n : nat) :
  a <= String.length s ->
  attempt (drop a s) = Some n ->
  (forall j, j < a -> attempt (drop j s) = None) ->
  Re.search attempt s = Some (a, a + n).
Proof.
  revert s; induction a as [|a IH]; intros s Ha Hm Hnone; rewrite search_unfold.
  - simpl in Hm. destruct s; simpl in Hm; now rewrite Hm.
  - destruct s as [|c s]; [simpl in Ha; lia|].
    pose proof (Hnone 0 ltac:(lia)) as H0. simpl in H0. rewrite H0.
    rewrite (IH s); [reflexivity | simpl in Ha; lia | exact Hm |].
    intros j Hj. apply (Hnone (S j)). lia.
Qed.

(** ** The template anchors *)

Lemma length_lstrip_with (sp : ascii -> bool) (s : string) :
  String.length (lstrip_with sp s) <= String.length s.
Proof.
  induction s as [|c s IH]; simpl; [lia|]. destruct (sp c); simpl; lia.
Qed.

(** A match of an anchor lies inside the text, starts with [<div] and ends
    with the first [>] after the attribute. *)
Lemma match_div_bound (ident s : string) (n : nat) :
  match_div ident s = Some n -> 0 < n <= String.length s.
Proof.
  unfold match_div.
  destruct (starts_with "<div" s) eqn:E1; [|discriminate].
  set (s1 := drop 4 s). set (s2 := lstrip s1).
  destruct (String.length s1 - String.length s2 =? 0)%nat eqn:E2; [discriminate|].
  destruct (starts_with ("id=" ++ q ident) s2) eqn:E3; [|discriminate].
  destruct (find ">" (drop (String.length ("id=" ++ q ident)) s2)) as [k|] eqn:E4;
    [|discriminate].
  intros [= <-].
  apply find_Some in E4 as (_ & Hk & _). rewrite length_drop in Hk. simpl in Hk.
  apply starts_with_length in E1, E3. simpl in E1.
  pose proof (length_lstrip_with is_space s1) as Hl. fold lstrip in Hl. fold s2 in Hl.
  assert (String.length s1 = String.length s - 4) by (unfold s1; apply length_drop).
  apply Nat.eqb_neq in E2. lia.
Qed.

Lemma search_div_bound (ident s : string) (a b : nat) :
  search_div ident s = Some (a, b) ->
  a < b <= String.length s /\ match_div ident (drop a s) = Some (b - a).
Proof.
  intros H. apply search_Some in H as (H1 & H2 & H3 & _).
  pose proof (match_div_bound _ _ _ H3) as Hb. rewrite length_drop in Hb.
  split; [lia | assumption].
Qed.

Lemma drop_split (a b : nat) (s : string) :
  a <= b -> drop a s = take (b - a) (drop a s) ++ drop b s.
Proof.
  intros H. replace (drop b s) with (drop (b - a) (drop a s)).
  - symmetry. apply take_drop.
  - rewrite drop_drop. f_equal. lia.
Qed.

(** C3. For every template in which both anchors are found, the meet-grid
    opening tag ending before the performance-panel tag starts,
    [inject_cards_into_template] keeps the template up to the end of the
    meet-grid opening tag, puts the cards right after it (between two line
    feeds), and continues with the template from the performance-panel tag
    to the end, unchanged.  The function is pure: the template it is given
    is a value and stays what it was. *)
Theorem inject_cards_keeps_panel (template_html cards_html : string) (s1 e1 s2 e2 : nat) :
  search_div "meet-grid" template_html = Some (s1, e1) ->
  search_div "performance-panel" template_html = Some (s2, e2) ->
  e1 <= s2 ->
  exists pre tag mid ptag post : string,
    template_html = pre ++ tag ++ mid ++ ptag ++ post
    /\ String.length pre = s1
    /\ String.length (pre ++ tag) = e1
    /\ String.length (pre ++ tag ++ mid) = s2
    /\ match_div "meet-grid" (tag ++ mid ++ ptag ++ post) = Some (String.length tag)
    /\ match_div "performance-panel" (ptag ++ post) = Some (String.length ptag)
    /\ inject_cards_into_template template_html cards_html
       = Ok (pre ++ tag ++ nl ++ cards_html ++ nl ++ ptag ++ post).
Proof.
  intros Hg Hp Hord.
  destruct (search_div_bound _ _ _ _ Hg) as ((Hg1 & Hg2) & Hgm).
  destruct (search_div_bound _ _ _ _ Hp) as ((Hp1 & Hp2) & Hpm).
  set (t := template_html) in *.
  assert (Hpanel : drop s2 t = take (e2 - s2) (drop s2 t) ++ drop e2 t)
    by (apply drop_split; lia).
  assert (Hmid : drop e1 t = take (s2 - e1) (drop e1 t) ++ drop s2 t)
    by (apply drop_split; lia).
  assert (Htag : drop s1 t = take (e1 - s1) (drop s1 t) ++ drop e1 t)
    by (apply drop_split; lia).
  assert (Lpre : String.length (take s1 t) = s1) by (apply length_take; lia).
  assert (Ltag : String.length (take (e1 - s1) (drop s1 t)) = e1 - s1)
    by (apply length_take; rewrite length_drop; lia).
  assert (Lmid : String.length (take (s2 - e1) (drop e1 t)) = s2 - e1)
    by (apply length_take; rewrite length_drop; lia).
  assert (Lptag : String.length (take (e2 - s2) (drop s2 t)) = e2 - s2)
    by (apply length_take; rewrite length_drop; lia).
  exists (take s1 t), (take (e1 - s1) (drop s1 t)), (take (s2 - e1) (drop e1 t)),
    (take (e2 - s2) (drop s2 t)), (drop e2 t).
  rewrite <- Hpanel, <- Hmid, <- Htag.
  repeat split.
  - symmetry. apply take_drop.
  - exact Lpre.
  - rewrite length_append. lia.
  - rewrite !length_append. lia.
  - rewrite Ltag. exact Hgm.
  - rewrite Lptag. exact Hpm.
  - unfold inject_cards_into_template. fold t. rewrite Hg, Hp.
    replace e1 with (s1 + (e1 - s1)) at 1 by lia.
    rewrite take_add, append_assoc. reflexivity.
Qed.

Lemma inject_cards_keeps_panel_witness :
  exists pre tag mid ptag post : string,
    sample_template = pre ++ tag ++ mid ++ ptag ++ post
    /\ String.length pre = 6
    /\ String.length (pre ++ tag) = 39
    /\ String.length (pre ++ tag ++ mid) = 48
    /\ match_div "meet-grid" (tag ++ mid ++ ptag ++ post) = Some (String.length tag)
    /\ match_div "performance-panel" (ptag ++ post) = Some (String.length ptag)
    /\ inject_cards_into_template sample_template "CARDS"
       = Ok (pre ++ tag ++ nl ++ "CARDS" ++ nl ++ ptag ++ post).
Proof.
  apply (inject_cards_keeps_panel sample_template "CARDS" 6 39 48 76).
  - vm_compute. reflexivity.
  - vm_compute. reflexivity.
  - lia.
Defined.

(** ** CSV sections *)

Lemma find_marker_None (name : string) (rows : list row) :
  find_marker name rows = None <-> Forall (fun r => is_marker name r = false) rows.
Proof.
  induction rows as [|r rows IH]; simpl.
  - split; [constructor | reflexivity].
  - destruct (is_marker name r) eqn:E.
    + split; [discriminate | intros H; inversion H; congruence].
    + destruct (find_marker name rows); simpl.
      * split; [discriminate|]. intros H. inversion H as [|? ? _ Hr]; subst.
        apply IH in Hr. discriminate.
      * split; [|reflexivity]. intros _. constructor; [exact E | now apply IH].
Qed.

(** A marker that is found is the first row whose first cell, trimmed, is
    the marker's name. *)
Lemma find_marker_Some (name : string) (rows : list row) (i : nat) :
  find_marker name rows = Some i ->
  (exists r, nth_error rows i = Some r /\ is_marker name r = true)
  /\ forall j r, j < i -> nth_error rows j = Some r -> is_marker name r = false.
Proof.
  revert i; induction rows as [|r0 rows IH]; intros i; simpl; [discriminate|].
  destruct (is_marker name r0) eqn:E.
  - intros [= <-]. split; [exists r0; auto | intros j r Hj; lia].
  - destruct (find_marker name rows) as [k|]; [|discriminate]. simpl. intros [= <-].
    destruct (IH k eq_refl) as (H1 & H2). split; [exact H1|].
    intros [|j] r Hj; simpl; [now intros [= <-] | apply H2; lia].
Qed.

Lemma index_row_Some (rows : list row) (i : nat) :
  i < List.length rows -> exists r, nth_error rows i = Some r /\ index_row rows i = Ok r.
Proof.
  intros H. unfold index_row. destruct (nth_error rows i) as [r|] eqn:E.
  - exists r. auto.
  - apply nth_error_None in E. lia.
Qed.

(** [read_sections] raises [ValueError] exactly when a marker is missing. *)
Lemma read_sections_ValueError (rows : list row) :
  (exists msg, read_sections rows = Raise (ValueError msg))
  <-> find_marker "Bio" rows = None \/ find_marker "Results" rows = None.
Proof.
  unfold read_sections.
  destruct (find_marker "Bio" rows) as [b|], (find_marker "Results" rows) as [r|].
  - split; [|intros [?|?]; discriminate]. intros [msg H]. exfalso. revert H.
    unfold index_row.
    destruct (nth_error rows (b + 1)); simpl; [|discriminate].
    destruct (nth_error rows (r + 1)); simpl; discriminate.
  - split; eauto.
  - split; eauto.
  - split; eauto.
Qed.

Lemma read_sections_Ok (rows : list row) (b r : nat) :
  find_marker "Bio" rows = Some b ->
  find_marker "Results" rows = Some r ->
  b + 1 < List.length rows ->
  r + 1 < List.length rows ->
  exists bio_header results_header,
    nth_error rows (b + 1) = Some bio_header
    /\ nth_error rows (r + 1) = Some results_header
    /\ read_sections rows
       = Ok (bio_header, slice rows (b + 2) r, results_header, slice_from rows (r + 2)).
Proof.
  intros Hb Hr Lb Lr. unfold read_sections. rewrite Hb, Hr.
  destruct (index_row_Some rows (b + 1) Lb) as (bh & Eb & ->).
  destruct (index_row_Some rows (r + 1) Lr) as (rh & Er & ->).
  exists bh, rh. auto.
Qed.

(** ** Injection fails only for a missing anchor *)

Lemma inject_ValueError (template_html cards_html : string) :
  (exists msg, inject_cards_into_template template_html cards_html = Raise (ValueError msg))
  <-> search_div "meet-grid" template_html = None
      \/ search_div "performance-panel" template_html = None.
Proof.
  unfold inject_cards_into_template.
  destruct (search_div "meet-grid" template_html) as [[a b]|],
           (search_div "performance-panel" template_html) as [[c d]|].
  - split; [intros [? ?]; discriminate | intros [?|?]; discriminate].
  - split; eauto.
  - split; eauto.
  - split; eauto.
Qed.

Lemma inject_raises_only_ValueError (template_html cards_html : string) (e : exn) :
  inject_cards_into_template template_html cards_html = Raise e ->
  exists msg, e = ValueError msg.
Proof.
  unfold inject_cards_into_template.
  destruct (search_div "meet-grid" template_html) as [[a b]|];
    [destruct (search_div "performance-panel" template_html) as [[c d]|]|];
    intros [= <-]; eauto.
Qed.

(** ** The default placeholder *)

Lemma rstrip_with_empty (sp : ascii -> bool) (s : string) :
  rstrip_with sp s = "" <-> (fix all (s : string) : bool :=
                               match s with
                               | EmptyString => true
                               | String c s' => sp c && all s'
                               end) s = true.
Proof.
  induction s as [|c s IH]; simpl; [tauto|].
  destruct (sp c); simpl.
  - destruct (rstrip_with sp s) eqn:E; simpl.
    + split; [intros _; now apply IH | reflexivity].
    + split; [discriminate|]. intros H. apply IH in H. discriminate.
  - split; discriminate.
Qed.

(** A string is blank (its trimmed form is empty) when all its characters
    are white space. *)
Lemma strip_empty (s : string) : strip s = "" <-> all_space s = true.
Proof.
  unfold strip, strip_with. rewrite rstrip_with_empty.
  induction s as [|c s IH]; simpl; [tauto|].
  destruct (is_space c) eqn:E; simpl; [exact IH|].
  rewrite E. simpl. tauto.
Qed.

Lemma safe_absent : safe None = "N/A".
Proof. reflexivity. Qed.

Lemma safe_blank (s : string) : all_space s = true -> safe (Some s) = "N/A".
Proof.
  intros H. apply strip_empty in H. unfold safe, safe_default. simpl. now rewrite H.
Qed.

Lemma safe_value (s : string) : all_space s = false -> safe (Some s) = strip s.
Proof.
  intros H. unfold safe, safe_default. simpl.
  destruct (is_empty (strip s)) eqn:E; [|reflexivity].
  apply is_empty_true, strip_empty in E. congruence.
Qed.

(** ** The failure kinds of the program *)

(** C4, as the code has it.  [read_sections] raises [ValueError] (the
    format error of the specification) exactly when the "Bio" or the
    "Results" marker row is absent, and returns when both are there and
    each is followed by a row; [inject_cards_into_template] raises
    [ValueError] exactly when an anchor is absent, and nothing else; [safe]
    never fails and puts "N/A" in the place of an absent or blank value. *)
Theorem failure_kinds :
  (forall rows : list row,
     (exists msg, read_sections rows = Raise (ValueError msg))
     <-> (Forall (fun r => is_marker "Bio" r = false) rows
          \/ Forall (fun r => is_marker "Results" r = false) rows))
  /\ (forall (rows : list row) (b r : nat),
        find_marker "Bio" rows = Some b ->
        find_marker "Results" rows = Some r ->
        b + 1 < List.length rows ->
        r + 1 < List.length rows ->
        exists sections, read_sections rows = Ok sections)
  /\ (forall template_html cards_html : string,
        (exists msg,
           inject_cards_into_template template_html cards_html = Raise (ValueError msg))
        <-> (search_div "meet-grid" template_html = None
             \/ search_div "performance-panel" template_html = None))
  /\ (forall (template_html cards_html : string) (e : exn),
        inject_cards_into_template template_html cards_html = Raise e ->
        exists msg, e = ValueError msg)
  /\ safe None = "N/A"
  /\ (forall s : string, all_space s = true -> safe (Some s) = "N/A")
  /\ (forall s : string, all_space s = false -> safe (Some s) = strip s).
Proof.
  split; [|split; [|split; [|split; [|split; [|split]]]]].
  - intros rows. rewrite read_sections_ValueError, !find_marker_None. reflexivity.
  - intros rows b r Hb Hr Lb Lr.
    destruct (read_sections_Ok rows b r Hb Hr Lb Lr) as (bh & rh & _ & _ & H).
    eexists. exact H.
  - apply inject_ValueError.
  - apply inject_raises_only_ValueError.
  - exact safe_absent.
  - exact safe_blank.
  - exact safe_value.
Qed.

Lemma failure_kinds_witness :
  (exists sections, read_sections sample_rows = Ok sections)
  /\ safe (Some "   ") = "N/A"
  /\ safe (Some " 5:23.4 ") = "5:23.4".
Proof.
  destruct failure_kinds as (_ & Hok & _ & _ & _ & Hblank & Hvalue).
  split; [|split].
  - apply (Hok sample_rows 0 3); [reflexivity | reflexivity | simpl; lia | simpl; lia].
  - apply (Hblank "   "). reflexivity.
  - apply (Hvalue " 5:23.4 "). reflexivity.
Defined.

(** C4 as stated fails: with both markers present, a "Results" marker in
    the last row makes [read_sections] raise [IndexError], a third kind
    of failure. *)
Lemma failure_kinds_counterexample :
  find_marker "Bio" [["Bio"]; ["Results"]] = Some 0
  /\ find_marker "Results" [["Bio"]; ["Results"]] = Some 1
  /\ read_sections [["Bio"]; ["Results"]] = Raise (IndexError "list index out of range").
Proof. repeat split. Qed.

(** ** Markers in reverse order *)

(** C10, as the code has it.  When the first "Results" marker row comes
    before the first "Bio" marker row and a row follows the "Bio" marker,
    [read_sections] returns: there are no bio rows, and the results rows are
    all the rows after the results header.  When a row separates the two
    markers, the "Bio" marker row is one of the results rows. *)
Theorem read_sections_reversed (rows : list row) (b r : nat) :
  find_marker "Bio" rows = Some b ->
  find_marker "Results" rows = Some r ->
  r < b ->
  b + 1 < List.length rows ->
  exists bio_header results_header results_rows,
    read_sections rows = Ok (bio_header, [], results_header, results_rows)
    /\ nth_error rows (b + 1) = Some bio_header
    /\ nth_error rows (r + 1) = Some results_header
    /\ (forall i, nth_error results_rows i = nth_error rows (r + 2 + i))
    /\ List.length results_rows = List.length rows - (r + 2)
    /\ (r + 1 < b ->
        exists bio_row, nth_error results_rows (b - (r + 2)) = Some bio_row
                        /\ is_marker "Bio" bio_row = true).
Proof.
  intros Hb Hr Hlt Lb.
  destruct (read_sections_Ok rows b r Hb Hr Lb ltac:(lia)) as (bh & rh & Eb & Er & H).
  exists bh, rh, (slice_from rows (r + 2)).
  assert (Hnth : forall i, nth_error (slice_from rows (r + 2)) i = nth_error rows (r + 2 + i)).
  { intros i. unfold slice_from. apply nth_error_skipn. }
  split; [|split; [|split; [|split; [|split]]]]; auto.
  - rewrite H. unfold slice. replace (r - (b + 2)) with 0 by lia. reflexivity.
  - unfold slice_from. apply length_skipn.
  - intros Hsep. apply find_marker_Some in Hb as ((bio_row & Hrow & Hm) & _).
    exists bio_row. split; [|exact Hm].
    rewrite Hnth. replace (r + 2 + (b - (r + 2))) with b by lia. exact Hrow.
Qed.

Lemma read_sections_reversed_witness :
  exists bio_header results_header results_rows,
    read_sections reversed_rows = Ok (bio_header, [], results_header, results_rows)
    /\ nth_error reversed_rows (3 + 1) = Some bio_header
    /\ nth_error reversed_rows (0 + 1) = Some results_header
    /\ (forall i, nth_error results_rows i = nth_error reversed_rows (0 + 2 + i))
    /\ List.length results_rows = List.length reversed_rows - (0 + 2)
    /\ (0 + 1 < 3 ->
        exists bio_row, nth_error results_rows (3 - (0 + 2)) = Some bio_row
                        /\ is_marker "Bio" bio_row = true).
Proof.
  apply (read_sections_reversed reversed_rows 3 0);
    [reflexivity | reflexivity | lia | simpl; lia].
Defined.

(** C10 as stated fails: with "Results" first and the "Bio" marker in the
    last row, [read_sections] raises [IndexError]. *)
Lemma read_sections_reversed_counterexample :
  find_marker "Results" [["Results"]; ["Place"]; ["Bio"]] = Some 0
  /\ find_marker "Bio" [["Results"]; ["Place"]; ["Bio"]] = Some 2
  /\ read_sections [["Results"]; ["Place"]; ["Bio"]]
     = Raise (IndexError "list index out of range").
Proof. repeat split. Qed.

(** ** Image URLs *)

(** The characters whose upper-case form starts a given text. *)
Lemma upper_char_head (c x : ascii) (r y : string) :
  upper_char c ++ r = String x y ->
  (x = "N"%char -> (c = "N"%char \/ c = "n"%char) /\ r = y)
  /\ (x = "/"%char -> c = "/"%char /\ r = y)
  /\ (x = "A"%char -> (c = "A"%char \/ c = "a"%char) /\ r = y).
Proof.
  destruct c as [[] [] [] [] [] [] [] []]; vm_compute; intros [= <- <-];
    (split; [|split]); intros; try discriminate; auto.
Qed.

(** [upper fn = "N/A"] singles out the four spellings of N/A. *)
Lemma upper_NA (s : string) :
  upper s = "N/A" <-> s = "N/A" \/ s = "n/a" \/ s = "N/a" \/ s = "n/A".
Proof.
  split.
  - destruct s as [|c1 s1]; [discriminate|]. simpl. intros H.
    apply upper_char_head in H as (H & _ & _). destruct (H eq_refl) as (Hc1 & H1).
    destruct s1 as [|c2 s2]; [discriminate|]. simpl in H1.
    apply upper_char_head in H1 as (_ & H1 & _). destruct (H1 eq_refl) as (Hc2 & H2).
    destruct s2 as [|c3 s3]; [discriminate|]. simpl in H2.
    apply upper_char_head in H2 as (_ & _ & H2). destruct (H2 eq_refl) as (Hc3 & H3).
    destruct s3 as [|c4 s4].
    + subst c2. destruct Hc1 as [-> | ->], Hc3 as [-> | ->]; auto.
    + exfalso. simpl in H3. destruct (upper_char c4) eqn:E; [|discriminate].
      revert E. unfold upper_char.
      repeat match goal with |- context [if ?b then _ else _] => destruct b end;
        discriminate.
  - intros [-> | [-> | [-> | ->]]]; reflexivity.
Qed.

(** C8, as the code has it.  With [fn] the trimmed file name: when [fn] is
    not empty and is not N/A in any letter case, [image_url] is the base URL
    followed by [fn]; when [fn] is empty or is N/A in some letter case, it
    is the trimmed fallback URL, which is the empty string when no fallback
    is configured, and then the card shows no image. *)
Theorem image_url_policy (cfg : config) (photo_filename : string) :
  let fn := strip photo_filename in
  let is_na := fn = "N/A" \/ fn = "n/a" \/ fn = "N/a" \/ fn = "n/A" in
  (fn <> "" -> ~ is_na -> image_url cfg photo_filename = IMAGE_BASE cfg ++ fn)
  /\ (fn = "" \/ is_na ->
      image_url cfg photo_filename = strip (DEFAULT_IMAGE_URL cfg))
  /\ (forall r : record,
        image_url cfg (strip (or_empty (r !! "PhotoFileName"))) = "" ->
        img_html cfg r = "<p>No image available.</p>").
Proof.
  intros fn is_na.
  assert (Hfb : (if is_empty (strip (DEFAULT_IMAGE_URL cfg)) then ""
                 else strip (DEFAULT_IMAGE_URL cfg)) = strip (DEFAULT_IMAGE_URL cfg)).
  { destruct (is_empty (strip (DEFAULT_IMAGE_URL cfg))) eqn:E; [|reflexivity].
    now apply is_empty_true in E. }
  split; [|split].
  - intros Hne Hna. unfold image_url. fold fn.
    apply is_empty_false in Hne. rewrite Hne. simpl.
    destruct (String.eqb_spec (upper fn) "N/A") as [E|E]; [|reflexivity].
    apply upper_NA in E. contradiction.
  - unfold image_url. fold fn. intros [He | Hna].
    + rewrite He. simpl. exact Hfb.
    + apply upper_NA in Hna. rewrite Hna. rewrite orb_true_r. exact Hfb.
  - intros r H. unfold img_html. rewrite H. reflexivity.
Qed.

Lemma image_url_policy_witness :
  image_url source_config " foo.jpg " = IMAGE_BASE source_config ++ "foo.jpg"
  /\ image_url source_config "N/A" = strip (DEFAULT_IMAGE_URL source_config)
  /\ image_url no_fallback_config "" = "".
Proof.
  split; [|split].
  - apply (image_url_policy source_config " foo.jpg ").
    + discriminate.
    + intros [H | [H | [H | H]]]; discriminate H.
  - apply (image_url_policy source_config "N/A"). right. left. reflexivity.
  - apply (image_url_policy no_fallback_config ""). left. reflexivity.
Defined.

(** C8 as stated fails: the file name n/a is not empty and is not the
    literal N/A, yet the fallback URL is returned instead of the base URL
    followed by the name. *)
Lemma image_url_policy_counterexample :
  strip "n/a" <> "" /\ strip "n/a" <> "N/A"
  /\ image_url source_config "n/a" = DEFAULT_IMAGE_URL source_config
  /\ image_url source_config "n/a" <> IMAGE_BASE source_config ++ "n/a".
Proof. repeat split; discriminate. Qed.

(** ** Meet cards *)

Lemma append_inj_r (s t u : string) : s ++ u = t ++ u -> s = t.
Proof.
  intros H. assert (L : String.length s = String.length t).
  { apply (f_equal String.length) in H. rewrite !length_append in H. lia. }
  rewrite <- (take_app_length s u), H, L. apply take_app_length.
Qed.

Lemma append_inj_l (s t u : string) : u ++ s = u ++ t -> s = t.
Proof. induction u as [|c u IH]; simpl; [auto | intros [= H]; auto]. Qed.

Lemma str_of_nat_inj (i j : nat) : str_of_nat i = str_of_nat j -> i = j.
Proof.
  unfold str_of_nat. intros H. apply DecimalNat.Unsigned.to_uint_inj.
  apply (f_equal NilEmpty.uint_of_string) in H.
  rewrite !NilEmpty.usu in H. congruence.
Qed.

Lemma details_id_inj (i j : nat) : details_id i = details_id j -> i = j.
Proof. unfold details_id. intros H. apply append_inj_l in H. now apply str_of_nat_inj. Qed.

Lemma title_id_inj (i j : nat) : title_id i = title_id j -> i = j.
Proof.
  unfold title_id. intros H. apply append_inj_l, append_inj_r in H.
  now apply str_of_nat_inj.
Qed.

Lemma length_cards_from (cfg : config) (i : nat) (l : list record) :
  List.length (cards_from cfg i l) = List.length l.
Proof. revert i; induction l as [|r l IH]; intros i; simpl; [reflexivity | now rewrite IH]. Qed.

Lemma nth_cards_from (cfg : config) (i k : nat) (l : list record) (r : record) :
  nth_error l k = Some r -> nth_error (cards_from cfg i l) k = Some (card cfg (i + k) r).
Proof.
  revert i k; induction l as [|r0 l IH]; intros i [|k]; simpl; try discriminate.
  - intros [= ->]. now rewrite Nat.add_0_r.
  - intros H. rewrite (IH (S i) k H). do 2 f_equal. lia.
Qed.

(** Where the two identifiers of a card stand in its markup. *)
Lemma card_identifiers (cfg : config) (k : nat) (r : record) :
  exists a b c d e : string,
    card cfg k r
    = a ++ " aria-labelledby=" ++ q (title_id k)
        ++ b ++ "<h3 id=" ++ q (title_id k)
        ++ c ++ " aria-controls=" ++ q (details_id k)
        ++ d ++ "<div id=" ++ q (details_id k) ++ e.
Proof.
  exists (nl ++ "        <article class=" ++ q "meet-card"),
         (">" ++ nl ++ "          "),
         (">" ++ escape (safe (r !! "Meet Name")) ++ "</h3>" ++ nl ++ nl
          ++ "          <div class=" ++ q "spacer" ++ ">" ++ nl
          ++ "            " ++ img_html cfg r ++ nl
          ++ "          </div>" ++ nl ++ nl
          ++ "          <button type=" ++ q "button" ++ " class=" ++ q "open-panel"
          ++ " aria-expanded=" ++ q "false"),
         (">" ++ nl ++ "            More info" ++ nl ++ "          </button>" ++ nl
          ++ nl ++ "          ").
  eexists. unfold card. repeat rewrite append_assoc. reflexivity.
Qed.

(** ["".join(cards)] is the texts of [cards] one after the other. *)
Lemma join_concat (l : list string) : join l = fold_right String.append "" l.
Proof. induction l as [|s l IH]; simpl; [reflexivity | now rewrite IH]. Qed.

Lemma join_app (l1 l2 : list string) : join (l1 ++ l2)%list = join l1 ++ join l2.
Proof.
  induction l1 as [|s l1 IH]; simpl; [reflexivity|].
  now rewrite IH, append_assoc.
Qed.

Lemma length_join (l : list string) :
  String.length (join l) = list_sum (map String.length l).
Proof.
  induction l as [|s l IH]; simpl; [reflexivity|]. now rewrite length_append, IH.
Qed.

Lemma nth_error_split_at {A : Type} (l : list A) (i : nat) (x : A) :
  nth_error l i = Some x -> l = (firstn i l ++ x :: skipn (S i) l)%list.
Proof.
  revert i; induction l as [|y l IH]; intros [|i]; simpl; try discriminate.
  - now intros [= ->].
  - intros H. f_equal. now apply IH.
Qed.

(** C5. With [n] the number of records that pass the season filter:
    [build_meet_cards] makes [n] cards; the card of the [i]-th of them
    (counting from 1) carries the identifiers [meet-i-title] and
    [race-details-i], in its heading and panel and in the attributes that
    refer to them; different cards have different identifiers.  The text
    returned is the placeholder alone when [n] is 0, and otherwise the
    cards one after the other: the card of the [i]-th record stands in it
    right after the cards of the records before it. *)
Theorem meet_cards_identifiers (cfg : config) (records : list record) :
  let filtered := filtered_records cfg records in
  let n := List.length filtered in
  List.length (meet_cards cfg records) = n
  /\ (n = 0 -> meet_cards cfg records = []
               /\ build_meet_cards cfg records = "<p>No meets found.</p>")
  /\ (1 <= n -> build_meet_cards cfg records = join (meet_cards cfg records))
  /\ (forall (i : nat) (r : record),
        nth_error filtered i = Some r ->
        nth_error (meet_cards cfg records) i = Some (card cfg (i + 1) r)
        /\ title_id (i + 1) = "meet-" ++ str_of_nat (i + 1) ++ "-title"
        /\ details_id (i + 1) = "race-details-" ++ str_of_nat (i + 1)
        /\ exists a b c d e : string,
             card cfg (i + 1) r
             = a ++ " aria-labelledby=" ++ q (title_id (i + 1))
                 ++ b ++ "<h3 id=" ++ q (title_id (i + 1))
                 ++ c ++ " aria-controls=" ++ q (details_id (i + 1))
                 ++ d ++ "<div id=" ++ q (details_id (i + 1)) ++ e)
  /\ (forall i j : nat, title_id i = title_id j -> i = j)
  /\ (forall i j : nat, details_id i = details_id j -> i = j)
  /\ (1 <= n ->
      build_meet_cards cfg records
      = fold_right String.append "" (meet_cards cfg records))
  /\ (forall (i : nat) (r : record),
        nth_error filtered i = Some r ->
        exists pre post : string,
          build_meet_cards cfg records = pre ++ card cfg (i + 1) r ++ post
          /\ pre = fold_right String.append "" (firstn i (meet_cards cfg records))
          /\ String.length pre
             = list_sum (map String.length (firstn i (meet_cards cfg records)))).
Proof.
  intros filtered n.
  assert (Hlen : List.length (meet_cards cfg records) = n)
    by apply length_cards_from.
  assert (Hnth : forall i r, nth_error filtered i = Some r ->
            nth_error (meet_cards cfg records) i = Some (card cfg (i + 1) r)).
  { intros i r Hr. unfold meet_cards. fold filtered.
    rewrite (nth_cards_from cfg 1 i filtered r Hr). do 2 f_equal. lia. }
  assert (Hjoin : 1 <= n -> build_meet_cards cfg records = join (meet_cards cfg records)).
  { intros Hn. unfold build_meet_cards.
    destruct (meet_cards cfg records); [simpl in Hlen; lia | reflexivity]. }
  split; [exact Hlen|]. split; [|split; [|split; [|split; [|split; [|split]]]]].
  - intros Hn. unfold build_meet_cards.
    destruct (meet_cards cfg records); [auto | simpl in Hlen; lia].
  - intros Hn. unfold build_meet_cards.
    destruct (meet_cards cfg records); [simpl in Hlen; lia | reflexivity].
  - intros i r Hr. split; [|split; [|split]]; try reflexivity.
    + unfold meet_cards. fold filtered. rewrite (nth_cards_from cfg 1 i filtered r Hr).
      do 2 f_equal. lia.
    + apply card_identifiers.
  - exact title_id_inj.
  - exact details_id_inj.
  - intros Hn. now rewrite (Hjoin Hn), join_concat.
  - intros i r Hr.
    assert (Hn : 1 <= n).
    { assert (i < List.length filtered) by (apply nth_error_Some; congruence).
      unfold n. lia. }
    pose proof (nth_error_split_at _ _ _ (Hnth i r Hr)) as Hs.
    exists (join (firstn i (meet_cards cfg records))),
           (join (skipn (S i) (meet_cards cfg records))).
    split; [|split].
    + rewrite (Hjoin Hn). rewrite Hs at 1. now rewrite join_app.
    + apply join_concat.
    + apply length_join.
Qed.

Lemma meet_cards_identifiers_witness :
  build_meet_cards source_config [] = "<p>No meets found.</p>"
  /\ build_meet_cards source_config two_records
     = join (meet_cards source_config two_records)
  /\ nth_error (meet_cards source_config two_records) 1
     = Some (card source_config 2 (dated "3/1/2025"))
  /\ build_meet_cards source_config two_records
     = card source_config 1 (dated "3/1/2024")
       ++ card source_config 2 (dated "3/1/2025") ++ ""
  /\ exists pre post : string,
       build_meet_cards source_config two_records
       = pre ++ card source_config (1 + 1) (dated "3/1/2025") ++ post
       /\ pre = fold_right String.append ""
                  (firstn 1 (meet_cards source_config two_records))
       /\ String.length pre
          = list_sum (map String.length (firstn 1 (meet_cards source_config two_records))).
Proof.
  destruct (meet_cards_identifiers source_config []) as (_ & H0 & _).
  destruct (meet_cards_identifiers source_config two_records)
    as (_ & _ & H1 & H2 & _ & _ & H3 & H4).
  split; [|split; [|split; [|split]]].
  - apply H0. reflexivity.
  - apply H1. simpl. lia.
  - apply (H2 1 (dated "3/1/2025")). reflexivity.
  - rewrite H3 by (simpl; lia). reflexivity.
  - apply (H4 1 (dated "3/1/2025")). reflexivity.
Defined.

Example identifiers_sample :
  details_id 1 = "race-details-1" /\ title_id 1 = "meet-1-title"
  /\ details_id 12 = "race-details-12" /\ title_id 12 = "meet-12-title".
Proof. repeat split. Qed.

(** ** Escaping *)

Lemma count_append (c : ascii) (s t : string) : count c (s ++ t) = count c s + count c t.
Proof. induction s as [|a s IH]; simpl; [reflexivity | rewrite IH; lia]. Qed.

Lemma count_replace (d c : ascii) (r s : string) :
  count d (replace c r s)
  = (if Ascii.eqb d c then 0 else count d s) + count c s * count d r.
Proof.
  induction s as [|a s IH]; simpl; [now destruct (Ascii.eqb d c)|].
  destruct (Ascii.eqb a c) eqn:Eac; simpl; [rewrite count_append|]; rewrite IH;
    repeat match goal with
           | H : Ascii.eqb _ _ = true |- _ => apply Ascii.eqb_eq in H; subst
           | H : Ascii.eqb _ _ = false |- _ => apply Ascii.eqb_neq in H
           | |- context [Ascii.eqb ?x ?y] => destruct (Ascii.eqb_spec x y); subst
           end; try congruence; lia.
Qed.

(** What [escape] returns holds none of the characters [<], [>], the double
    quote and the apostrophe. *)
Lemma escape_no_markup (s : string) :
  count "<" (escape s) = 0 /\ count ">" (escape s) = 0
  /\ count (ascii_of_nat 34) (escape s) = 0 /\ count "'" (escape s) = 0.
Proof.
  unfold escape. repeat split; repeat (rewrite count_replace; simpl); lia.
Qed.

(** C1 fails on the alternative text.  The image URL goes through [escape],
    the alternative text does not: a double quote in the AltText column, or
    in the meet name the generated text is made from, reaches the markup as
    it is. *)
Theorem alt_text_not_escaped :
  escape quoted_alt <> quoted_alt
  /\ img_html source_config alt_record
     = "<img src=" ++ q (escape (DEFAULT_IMAGE_URL source_config))
       ++ " alt=" ++ q quoted_alt
       ++ " loading=" ++ q "lazy" ++ " decoding=" ++ q "async" ++ ">"
  /\ contains (" alt=" ++ q quoted_alt) (build_meet_cards source_config [alt_record]) = true
  /\ contains (escape quoted_alt) (build_meet_cards source_config [alt_record]) = false
  /\ contains (" alt=" ++ q ("Photo from The " ++ dq ++ "Big" ++ dq ++ " Meet."))
       (build_meet_cards source_config [quoted_meet_record]) = true.
Proof. repeat split; try discriminate; vm_compute; reflexivity. Qed.

(** ** The season filter *)

(** What [year_here] accepts: a number 20dd that no word character
    follows. *)
Lemma year_here_Some (s y : string) :
  year_here s = Some y ->
  exists (d1 d2 : ascii) (post : string),
    y = String "2" (String "0" (String d1 (String d2 "")))
    /\ s = y ++ post
    /\ is_digit d1 = true /\ is_digit d2 = true
    /\ ends_word false (take 1 post) = false.
Proof.
  unfold year_here.
  destruct s as [|c1 s]; [discriminate|].
  destruct (Ascii.eqb_spec c1 "2") as [->|Hc1];
    [|destruct c1 as [[] [] [] [] [] [] [] []]; try discriminate; congruence].
  destruct s as [|c2 s]; [discriminate|].
  destruct (Ascii.eqb_spec c2 "0") as [->|Hc2];
    [|destruct c2 as [[] [] [] [] [] [] [] []]; try discriminate; congruence].
  destruct s as [|d1 [|d2 post]]; try discriminate.
  destruct (is_digit d1) eqn:E1; simpl; [|discriminate].
  destruct (is_digit d2) eqn:E2; simpl; [|discriminate].
  destruct post as [|c post]; simpl.
  - intros [= <-]. exists d1, d2, "". auto.
  - destruct (is_word c) eqn:Ew; simpl; [discriminate|].
    intros [= <-]. exists d1, d2, (String c post). simpl. rewrite Ew. auto.
Qed.

Lemma search_year_unfold (prev_word : bool) (c : ascii) (s : string) :
  search_year prev_word (String c s)
  = match (if prev_word then None else year_here (String c s)) with
    | Some y => Some y
    | None => search_year (is_word c) s
    end.
Proof. reflexivity. Qed.

(** The search returns the first number 20dd that stands alone: no word
    character before it, none after it. *)
Lemma search_year_Some (prev_word : bool) (s y : string) :
  search_year prev_word s = Some y ->
  exists pre post : string,
    s = pre ++ y ++ post
    /\ ends_word prev_word pre = false
    /\ year_here (y ++ post) = Some y
    /\ forall j, j < String.length pre ->
         ends_word prev_word (take j s) = true \/ year_here (drop j s) = None.
Proof.
  revert prev_word; induction s as [|c s IH]; intros pw; [discriminate|].
  rewrite search_year_unfold. destruct pw.
  - intros H. destruct (IH _ H) as (pre & post & -> & Hw & Hy & Hfirst).
    exists (String c pre), post. simpl. repeat split; auto.
    intros [|j] Hj; simpl; [now left | apply Hfirst; lia].
  - destruct (year_here (String c s)) as [y'|] eqn:E.
    + intros [= ->].
      destruct (year_here_Some _ _ E) as (d1 & d2 & post & Hy & Hs & _).
      exists "", post. split; [exact Hs|]. split; [reflexivity|].
      split; [rewrite <- Hs; exact E|]. intros j Hj; simpl in Hj; lia.
    + intros H. destruct (IH _ H) as (pre & post & -> & Hw & Hy & Hfirst).
      exists (String c pre), post. simpl. repeat split; auto.
      intros [|j] Hj; simpl; [now right | apply Hfirst; lia].
Qed.

Lemma year_from_date_Some (s y : string) :
  year_from_date s = y -> y <> "" ->
  exists (pre post : string) (d1 d2 : ascii),
    s = pre ++ y ++ post
    /\ y = String "2" (String "0" (String d1 (String d2 "")))
    /\ is_digit d1 = true /\ is_digit d2 = true
    /\ ends_word false pre = false
    /\ ends_word false (take 1 post) = false
    /\ forall j, j < String.length pre ->
         ends_word false (take j s) = true \/ year_here (drop j s) = None.
Proof.
  unfold year_from_date. destruct (is_empty s); [congruence|].
  destruct (search_year false s) as [y'|] eqn:E; [|congruence].
  intros -> _. destruct (search_year_Some _ _ _ E) as (pre & post & Hs & Hw & Hy & Hf).
  destruct (year_here_Some _ _ Hy) as (d1 & d2 & post' & Hy' & Hs' & Hd1 & Hd2 & Hp).
  apply append_inj_l in Hs'. subst post'.
  exists pre, post, d1, d2. auto 10.
Qed.

Lemma filtered_records_unset (cfg : config) (records : list record) :
  YEAR_FILTER cfg = None -> filtered_records cfg records = records.
Proof.
  intros H. unfold filtered_records, passes_year_filter. rewrite H.
  induction records as [|r l IH]; simpl; [reflexivity | now rewrite IH].
Qed.

Lemma filtered_records_set (cfg : config) (records : list record) (y : string) :
  YEAR_FILTER cfg = Some y ->
  filtered_records cfg records
  = List.filter
      (fun r => String.eqb (year_from_date (strip (or_empty (r !! "Date")))) y) records.
Proof. intros H. unfold filtered_records, passes_year_filter. now rewrite H. Qed.

Lemma card_unfiltered (cfg : config) (i : nat) (r : record) :
  card (unfiltered cfg) i r = card cfg i r.
Proof. reflexivity. Qed.

Lemma cards_from_unfiltered (cfg : config) (i : nat) (l : list record) :
  cards_from (unfiltered cfg) i l = cards_from cfg i l.
Proof. revert i; induction l as [|r l IH]; intros i; simpl; [reflexivity | now rewrite IH]. Qed.

Section SeasonFilter.
Variable strptime : string -> string -> option Dt.date.

Lemma race_points_filter (cfg : config) (records : list record) :
  race_points strptime cfg records
  = race_points strptime (unfiltered cfg)
      (List.filter (fun r => negb (skipped cfg r)) records).
Proof.
  induction records as [|r l IH]; simpl; [reflexivity|].
  destruct (skipped cfg r) eqn:E; simpl; [exact IH|].
  try change (skipped (unfiltered cfg) r) with false. cbn iota. now rewrite IH.
Qed.
End SeasonFilter.

Lemma year_here_iff (s y : string) :
  year_here s = Some y
  <-> exists (d1 d2 : ascii) (post : string),
        y = String "2" (String "0" (String d1 (String d2 "")))
        /\ s = y ++ post
        /\ is_digit d1 = true /\ is_digit d2 = true
        /\ ends_word false (take 1 post) = false.
Proof.
  split; [apply year_here_Some|].
  intros (d1 & d2 & post & -> & -> & H1 & H2 & Hp).
  simpl. rewrite H1, H2. simpl.
  destruct post as [|c post]; [reflexivity|].
  simpl in Hp. now rewrite Hp.
Qed.

Lemma standalone_year_iff (s : string) (j : nat) (y : string) :
  standalone_year s j y
  <-> ends_word false (take j s) = false /\ year_here (drop j s) = Some y.
Proof.
  unfold standalone_year. rewrite year_here_iff. split.
  - intros (d1 & d2 & post & Hy & H1 & H2 & Hd & Hw & Hp). split; [exact Hw|].
    exists d1, d2, post. auto.
  - intros (Hw & d1 & d2 & post & Hy & Hd & H1 & H2 & Hp).
    exists d1, d2, post. auto 10.
Qed.

(** The search returns the number at the first position where one stands
    alone. *)
Lemma search_year_first (prev_word : bool) (s : string) (j : nat) (y : string) :
  ends_word prev_word (take j s) = false ->
  year_here (drop j s) = Some y ->
  (forall j', j' < j ->
     ends_word prev_word (take j' s) = true \/ year_here (drop j' s) = None) ->
  search_year prev_word s = Some y.
Proof.
  revert prev_word j; induction s as [|c s IH]; intros pw j Hw Hy Hfirst.
  - destruct j; discriminate Hy.
  - rewrite search_year_unfold. destruct j as [|j].
    + simpl in Hw. change (drop 0 (String c s)) with (String c s) in Hy.
      subst pw. now rewrite Hy.
    + assert (H0 : (if pw then None else year_here (String c s)) = None).
      { destruct (Hfirst 0 ltac:(lia)) as [H | H].
        - simpl in H. now rewrite H.
        - change (drop 0 (String c s)) with (String c s) in H.
          rewrite H. now destruct pw. }
      rewrite H0. apply (IH (is_word c) j); [exact Hw | exact Hy|].
      intros j' Hj'. apply (Hfirst (S j')). lia.
Qed.

Lemma search_year_None (prev_word : bool) (s : string) :
  search_year prev_word s = None ->
  forall j, ends_word prev_word (take j s) = true \/ year_here (drop j s) = None.
Proof.
  revert prev_word; induction s as [|c s IH]; intros pw H j.
  - right. now destruct j.
  - rewrite search_year_unfold in H.
    destruct (if pw then None else year_here (String c s)) as [y|] eqn:E; [discriminate|].
    destruct j as [|j].
    + change (drop 0 (String c s)) with (String c s).
      change (take 0 (String c s)) with "". simpl ends_word.
      destruct pw; [now left | now right].
    + change (drop (S j) (String c s)) with (drop j s).
      change (ends_word pw (take (S j) (String c s)))
        with (ends_word (is_word c) (take j s)).
      apply (IH _ H).
Qed.

(** [year_from_date] returns the first number 20dd of the text that stands
    alone, and the empty text when there is none. *)
Lemma year_from_date_first (s y : string) :
  y <> "" ->
  (year_from_date s = y
   <-> exists j, standalone_year s j y
                 /\ forall j' y', j' < j -> ~ standalone_year s j' y').
Proof.
  intros Hne. split.
  - intros H. unfold year_from_date in H. destruct (is_empty s); [congruence|].
    destruct (search_year false s) as [y0|] eqn:E; [|congruence]. subst y0.
    destruct (search_year_Some _ _ _ E) as (pre & post & Hs & Hw & Hy & Hf).
    exists (String.length pre). split.
    + apply standalone_year_iff. rewrite Hs, take_app_length, drop_app_length. auto.
    + intros j' y' Hj (Hw' & Hy')%standalone_year_iff.
      destruct (Hf j' Hj) as [H | H]; congruence.
  - intros (j & (Hw & Hy)%standalone_year_iff & Hfirst).
    assert (Hs : search_year false s = Some y).
    { apply (search_year_first false s j y Hw Hy). intros j' Hj.
      destruct (ends_word false (take j' s)) eqn:Ew; [now left|]. right.
      destruct (year_here (drop j' s)) as [y'|] eqn:Ey; [|reflexivity].
      exfalso. apply (Hfirst j' y' Hj). apply standalone_year_iff. auto. }
    unfold year_from_date. rewrite Hs.
    destruct s; [destruct j; discriminate Hy | reflexivity].
Qed.

Lemma year_from_date_none (s : string) :
  year_from_date s = "" <-> forall j y, ~ standalone_year s j y.
Proof.
  split.
  - intros H j y (Hw & Hy)%standalone_year_iff.
    unfold year_from_date in H. destruct s as [|c s]; [destruct j; discriminate Hy|].
    simpl is_empty in H. cbv iota in H.
    destruct (search_year false (String c s)) as [y0|] eqn:E.
    + subst y0. apply search_year_Some in E as (_ & post & _ & _ & E & _).
      apply year_here_Some in E as (? & ? & ? & E & _). discriminate E.
    + destruct (search_year_None _ _ E j); congruence.
  - intros H. destruct (year_from_date s) as [|c y] eqn:E; [reflexivity|]. exfalso.
    apply year_from_date_first in E as (j & Hj & _); [|discriminate].
    apply (H j _ Hj).
Qed.

(** C7, as the code has it.  With the filter set to [y], both builders work
    on exactly the records for which [year_from_date] of the trimmed date
    is [y]; that function returns the first number 20dd of the date with no
    word character next to it (so [y] is such a number, or nothing
    passes).  A record passes exactly when the first such number of its
    trimmed date is [y]: a date that names 2024 and then 2025 passes the
    filter 2024 and not the filter 2025.  With the filter unset every
    record passes. *)
Theorem year_filter_selects (strptime : string -> string -> option Dt.date)
    (cfg : config) (records : list record) :
  let in_season (y : string) (r : record) :=
    String.eqb (year_from_date (strip (or_empty (r !! "Date")))) y in
  (forall y : string,
     YEAR_FILTER cfg = Some y ->
     build_meet_cards cfg records
     = build_meet_cards (unfiltered cfg) (List.filter (in_season y) records)
     /\ build_race_series strptime cfg records
        = build_race_series strptime (unfiltered cfg) (List.filter (in_season y) records))
  /\ (YEAR_FILTER cfg = None ->
      filtered_records cfg records = records
      /\ forall r, skipped cfg r = false)
  /\ (forall (y : string) (r : record),
        y <> "" -> in_season y r = true ->
        exists (pre post : string) (d1 d2 : ascii),
          strip (or_empty (r !! "Date")) = pre ++ y ++ post
          /\ y = String "2" (String "0" (String d1 (String d2 "")))
          /\ is_digit d1 = true /\ is_digit d2 = true
          /\ ends_word false pre = false
          /\ ends_word false (take 1 post) = false)
  /\ (forall (y : string) (r : record),
        y <> "" ->
        (in_season y r = true
         <-> exists j : nat,
               standalone_year (strip (or_empty (r !! "Date"))) j y
               /\ forall (j' : nat) (y' : string),
                    j' < j -> ~ standalone_year (strip (or_empty (r !! "Date"))) j' y'))
  /\ (forall r : record,
        in_season "" r = true
        <-> forall (j : nat) (y' : string),
              ~ standalone_year (strip (or_empty (r !! "Date"))) j y')
  /\ year_from_date "2024-2025 season" = "2024"
  /\ filtered_records (season "2025") [two_year_record] = []
  /\ filtered_records (season "2024") [two_year_record] = [two_year_record].
Proof.
  intros in_season. split; [|split; [|split; [|split; [|split]]]].
  - intros y Hy. split.
    + unfold build_meet_cards, meet_cards.
      rewrite cards_from_unfiltered, (filtered_records_set cfg records y Hy).
      rewrite (filtered_records_unset (unfiltered cfg)) by reflexivity. reflexivity.
    + unfold build_race_series. rewrite race_points_filter.
      replace (List.filter (fun r => negb (skipped cfg r)) records)
        with (List.filter (in_season y) records); [reflexivity|].
      apply filter_ext. intros r. unfold skipped, in_season.
      now rewrite Hy, negb_involutive.
  - intros Hn. split; [now apply filtered_records_unset|].
    intros r. unfold skipped. now rewrite Hn.
  - intros y r Hne H. apply String.eqb_eq in H.
    destruct (year_from_date_Some _ _ H Hne) as (pre & post & d1 & d2 & H1 & H2 & H3 & H4 & H5 & H6 & _).
    exists pre, post, d1, d2. auto 10.
  - intros y r Hne. unfold in_season. rewrite String.eqb_eq.
    now apply year_from_date_first.
  - intros r. unfold in_season. rewrite String.eqb_eq. apply year_from_date_none.
  - repeat split; vm_compute; reflexivity.
Qed.

Lemma year_filter_selects_witness :
  build_meet_cards (season "2025") two_records
  = build_meet_cards source_config [dated "3/1/2025"]
  /\ build_race_series Dt.strptime (season "2025") two_records
     = build_race_series Dt.strptime source_config [dated "3/1/2025"]
  /\ filtered_records source_config two_records = two_records
  /\ String.eqb (year_from_date (strip (or_empty (two_year_record !! "Date")))) "2024"
     = true.
Proof.
  destruct (year_filter_selects Dt.strptime (season "2025") two_records)
    as (H1 & _ & _ & H3 & _).
  destruct (year_filter_selects Dt.strptime source_config two_records) as (_ & H2 & _).
  split; [|split; [|split]].
  - apply (H1 "2025"). reflexivity.
  - apply (H1 "2025"). reflexivity.
  - apply H2. reflexivity.
  - apply (H3 "2024" two_year_record); [discriminate|].
    exists 0. split; [|intros j' y' Hj; lia].
    exists "2"%char, "4"%char, "-2025 season".
    repeat split; vm_compute; reflexivity.
Defined.

(** The example of C7: dates 3/1/2024 and 3/1/2025, filter 2025. *)
Example year_filter_example :
  filtered_records (season "2025") two_records = [dated "3/1/2025"]
  /\ meet_cards (season "2025") two_records = [card (season "2025") 1 (dated "3/1/2025")]
  /\ build_race_series Dt.strptime (season "2025") two_records
     = Ok [{| sp_date := "3/1/2025"; sp_meet := "City Meet"; sp_time := "5:23.4";
              sp_seconds := Some (float_of_decimal false 3234 (-1)) |}].
Proof. repeat split; vm_compute; reflexivity. Qed.

(** C7 as stated fails: with the filter set to the four-digit year 1999, a
    record dated 3/1/1999 holds that year in its date and is left out of
    both outputs. *)
Lemma year_filter_selects_counterexample :
  contains "1999" (or_empty (dated "3/1/1999" !! "Date")) = true
  /\ build_meet_cards (season "1999") [dated "3/1/1999"] = "<p>No meets found.</p>"
  /\ build_race_series Dt.strptime (season "1999") [dated "3/1/1999"] = Ok [].
Proof. repeat split; vm_compute; reflexivity. Qed.

(** ** Sorting *)

Section SortFacts.
Context {A K : Type} (key : A -> K) (lt : K -> K -> bool).

Hypothesis lt_asym : forall a b, lt a b = true -> lt b a = false.
Hypothesis le_trans : forall a b c, lt b a = false -> lt c b = false -> lt c a = false.

Lemma insert_sorted_perm (x : A) (l : list A) :
  Permutation (insert_sorted key lt x l) (x :: l).
Proof.
  induction l as [|y l IH]; simpl; [reflexivity|].
  destruct (lt (key y) (key x)); [|reflexivity].
  rewrite IH. apply perm_swap.
Qed.

Lemma py_sort_perm (l : list A) : Permutation (py_sort key lt l) l.
Proof.
  induction l as [|x l IH]; simpl; [reflexivity|].
  rewrite insert_sorted_perm. now constructor.
Qed.

Lemma insert_sorted_Forall (P : A -> Prop) (x : A) (l : list A) :
  P x -> Forall P l -> Forall P (insert_sorted key lt x l).
Proof.
  intros Hx Hl. induction Hl as [|y l Hy Hl IH]; simpl; [auto|].
  destruct (lt (key y) (key x)); auto.
Qed.

Lemma insert_sorted_sorted (x : A) (l : list A) :
  StronglySorted (not_after key lt) l -> StronglySorted (not_after key lt) (insert_sorted key lt x l).
Proof.
  induction 1 as [|y l Hs IH Hy]; simpl; [repeat constructor|].
  destruct (lt (key y) (key x)) eqn:E.
  - constructor; [exact IH|].
    apply insert_sorted_Forall; [|exact Hy]. unfold not_after. now apply lt_asym.
  - constructor; [now constructor|]. constructor; [exact E|].
    eapply List.Forall_impl; [|exact Hy]. intros z Hz. unfold not_after in *. eauto.
Qed.

Lemma py_sort_Forall (P : A -> Prop) (l : list A) :
  Forall P l -> Forall P (py_sort key lt l).
Proof.
  induction 1 as [|x l Hx Hl IH]; simpl; [constructor|].
  now apply insert_sorted_Forall.
Qed.

Lemma py_sort_sorted (l : list A) : StronglySorted (not_after key lt) (py_sort key lt l).
Proof.
  induction l as [|x l IH]; simpl; [constructor | now apply insert_sorted_sorted].
Qed.

(** Stability: the elements of a class in which no key is smaller than
    another keep their order. *)
Lemma insert_sorted_filter (p : A -> bool) (x : A) (l : list A) :
  (forall a b, p a = true -> p b = true -> lt (key a) (key b) = false) ->
  List.filter p (insert_sorted key lt x l) = List.filter p (x :: l).
Proof.
  intros Hp. induction l as [|y l IH]; simpl; [reflexivity|].
  destruct (lt (key y) (key x)) eqn:E; [|reflexivity].
  simpl in *. rewrite IH.
  destruct (p x) eqn:Px, (p y) eqn:Py; try reflexivity.
  rewrite (Hp y x Py Px) in E. discriminate.
Qed.

Lemma py_sort_filter (p : A -> bool) (l : list A) :
  (forall a b, p a = true -> p b = true -> lt (key a) (key b) = false) ->
  List.filter p (py_sort key lt l) = List.filter p l.
Proof.
  intros Hp. induction l as [|x l IH]; simpl; [reflexivity|].
  rewrite insert_sorted_filter by exact Hp. simpl. now rewrite IH.
Qed.

Lemma insert_sorted_app_l (x : A) (l1 l2 : list A) :
  Forall (fun y => lt (key y) (key x) = false) l2 ->
  insert_sorted key lt x (l1 ++ l2)%list = (insert_sorted key lt x l1 ++ l2)%list.
Proof.
  intros H. induction l1 as [|y l1 IH]; simpl.
  - destruct H as [|y l2 Hy _]; simpl; [reflexivity | now rewrite Hy].
  - destruct (lt (key y) (key x)); simpl; [now rewrite IH | reflexivity].
Qed.

Lemma insert_sorted_app_r (x : A) (l1 l2 : list A) :
  Forall (fun y => lt (key y) (key x) = true) l1 ->
  Forall (fun y => lt (key y) (key x) = false) l2 ->
  insert_sorted key lt x (l1 ++ l2)%list = (l1 ++ x :: l2)%list.
Proof.
  intros H1 H2. induction H1 as [|y l1 Hy _ IH]; simpl.
  - destruct H2 as [|y l2 Hy _]; simpl; [reflexivity | now rewrite Hy].
  - now rewrite Hy, IH.
Qed.
End SortFacts.

(** ** The order of the sort keys *)

Lemma ltb_irrefl (s : string) : String.ltb s s = false.
Proof.
  unfold String.ltb. pose proof (String.compare_antisym s s) as H.
  destruct (String.compare s s); simpl in H; congruence.
Qed.

Lemma ltb_leb (s t : string) : String.ltb t s = false <-> String.le s t.
Proof.
  unfold String.le, String.leb, String.ltb. rewrite (String.compare_antisym s t).
  destruct (String.compare t s); simpl; split; intros H;
    try reflexivity; try exact I; try discriminate H; try contradiction.
Qed.

Lemma ltb_asym (s t : string) : String.ltb s t = true -> String.ltb t s = false.
Proof.
  unfold String.ltb. rewrite (String.compare_antisym s t).
  destruct (String.compare t s); simpl; auto; discriminate.
Qed.

Lemma ltb_le_trans (a b c : string) :
  String.ltb b a = false -> String.ltb c b = false -> String.ltb c a = false.
Proof. rewrite !ltb_leb. intros H1 H2. now transitivity b. Qed.

Lemma key_lt_asym (a b : bool * string) : key_lt a b = true -> key_lt b a = false.
Proof.
  destruct a as [[] s], b as [[] t]; unfold key_lt; simpl;
    try discriminate; try reflexivity; apply ltb_asym.
Qed.

Lemma key_le_trans (a b c : bool * string) :
  key_lt b a = false -> key_lt c b = false -> key_lt c a = false.
Proof.
  destruct a as [[] s], b as [[] t], c as [[] u]; unfold key_lt; simpl;
    try discriminate; try reflexivity; apply ltb_le_trans.
Qed.

Lemma key_lt_irrefl (a : bool * string) : key_lt a a = false.
Proof. destruct a as [[] s]; unfold key_lt; simpl; apply ltb_irrefl. Qed.

(** ** The race series *)

Lemma isoformat_nonempty (d : Dt.date) : Dt.isoformat d <> "".
Proof.
  unfold Dt.isoformat. destruct (Dt.zero_pad 4 (Dt.year d)); discriminate.
Qed.

Lemma sort_key_of_parsed (p : point) :
  parsed p = true -> sort_key_of p = (false, pt_sort p).
Proof.
  unfold parsed, sort_key_of. destruct (String.eqb (pt_sort p) ""); [discriminate | reflexivity].
Qed.

Lemma sort_key_of_unparsed (p : point) :
  parsed p = false -> sort_key_of p = (true, "").
Proof.
  unfold parsed, sort_key_of. destruct (String.eqb_spec (pt_sort p) "") as [->|];
    [reflexivity | discriminate].
Qed.

(** The points with a parsed date come first, in the order of their keys;
    the others follow in the order of the input. *)
Lemma py_sort_parsed_first (l : list point) :
  py_sort sort_key_of key_lt l
  = (py_sort sort_key_of key_lt (List.filter parsed l)
     ++ List.filter (fun p => negb (parsed p)) l)%list.
Proof.
  induction l as [|x l IH]; simpl; [reflexivity|].
  rewrite IH. destruct (parsed x) eqn:Px; simpl.
  - apply insert_sorted_app_l. apply List.Forall_forall. intros y Hy.
    apply filter_In in Hy as (_ & Hy). apply negb_true_iff in Hy.
    now rewrite (sort_key_of_unparsed y Hy), (sort_key_of_parsed x Px).
  - apply insert_sorted_app_r.
    + apply py_sort_Forall. apply List.Forall_forall. intros y Hy.
      apply filter_In in Hy as (_ & Hy).
      now rewrite (sort_key_of_parsed y Hy), (sort_key_of_unparsed x Px).
    + apply List.Forall_forall. intros y Hy.
      apply filter_In in Hy as (_ & Hy). apply negb_true_iff in Hy.
      now rewrite (sort_key_of_unparsed y Hy), (sort_key_of_unparsed x Px).
Qed.

Section RaceSeriesFacts.
Variable strptime : string -> string -> option Dt.date.

Lemma first_format_empty (ds : string) (fmts : list string) :
  first_format strptime ds fmts = ""
  <-> Forall (fun fmt => strptime ds fmt = None) fmts.
Proof.
  induction fmts as [|f fmts IH]; simpl.
  - split; [constructor | reflexivity].
  - destruct (strptime ds f) as [d|] eqn:E.
    + split.
      * intros H. now apply isoformat_nonempty in H.
      * intros H. inversion H; congruence.
    + split.
      * intros H. constructor; [exact E | now apply IH].
      * intros H. inversion H; subst. now apply IH.
Qed.

(** The key of a date that parses is the ISO form of the date that the
    first successful format gives. *)
Lemma first_format_parsed (ds : string) (fmts : list string) :
  first_format strptime ds fmts <> "" ->
  exists (before after : list string) (fmt : string) (d : Dt.date),
    fmts = (before ++ fmt :: after)%list
    /\ Forall (fun f => strptime ds f = None) before
    /\ strptime ds fmt = Some d
    /\ first_format strptime ds fmts = Dt.isoformat d.
Proof.
  induction fmts as [|f fmts IH]; simpl; [congruence|].
  destruct (strptime ds f) as [d|] eqn:E.
  - intros _. exists [], fmts, f, d. auto.
  - intros H. destruct (IH H) as (b & a & fmt & d & -> & Hb & Hd & Hk).
    exists (f :: b), a, fmt, d. auto.
Qed.

Lemma make_point_Ok (r : record) :
  is_Raise (parse_time_to_seconds (safe (r !! "Time"))) = false ->
  exists p, make_point strptime r = Ok p /\ is_point_of strptime r p.
Proof.
  unfold make_point. destruct (parse_time_to_seconds (safe (r !! "Time"))) as [sec|e] eqn:E;
    [|discriminate].
  intros _. eexists. split; [reflexivity|]. unfold is_point_of. simpl. auto.
Qed.

Lemma race_points_Ok (cfg : config) (records : list record) :
  Forall (fun r => is_Raise (parse_time_to_seconds (safe (r !! "Time"))) = false)
    (List.filter (fun r => negb (skipped cfg r)) records) ->
  exists points,
    race_points strptime cfg records = Ok points
    /\ Forall2 (is_point_of strptime)
         (List.filter (fun r => negb (skipped cfg r)) records) points.
Proof.
  induction records as [|r l IH]; simpl.
  - intros _. exists []. split; [reflexivity | constructor].
  - destruct (skipped cfg r) eqn:E; simpl; [exact IH|].
    intros H. inversion H as [|? ? Hr Hl]; subst.
    destruct (make_point_Ok r Hr) as (p & -> & Hp).
    destruct (IH Hl) as (ps & -> & Hps).
    exists (p :: ps). split; [reflexivity | now constructor].
Qed.
End RaceSeriesFacts.

Section SortRelated.
Context {A B K : Type} (keyA : A -> K) (keyB : B -> K) (lt : K -> K -> bool).
Variable R : A -> B -> Prop.
Hypothesis same_key : forall a b, R a b -> keyA a = keyB b.

Lemma insert_sorted_Forall2 (x : A) (y : B) (l1 : list A) (l2 : list B) :
  R x y -> Forall2 R l1 l2 ->
  Forall2 R (insert_sorted keyA lt x l1) (insert_sorted keyB lt y l2).
Proof.
  intros Hxy H. induction H as [|a b l1 l2 Hab Hl IH]; simpl.
  - repeat constructor. exact Hxy.
  - rewrite (same_key _ _ Hab), (same_key _ _ Hxy).
    destruct (lt (keyB b) (keyB y)); repeat (constructor; try assumption).
Qed.

(** Sorting two lists that are related element by element, by keys that
    agree, leaves them related element by element. *)
Lemma py_sort_Forall2 (l1 : list A) (l2 : list B) :
  Forall2 R l1 l2 -> Forall2 R (py_sort keyA lt l1) (py_sort keyB lt l2).
Proof.
  induction 1 as [|a b l1 l2 Hab Hl IH]; simpl; [constructor|].
  now apply insert_sorted_Forall2.
Qed.
End SortRelated.

Lemma is_point_of_shows (strptime : string -> string -> option Dt.date)
  (r : record) (p : point) :
  is_point_of strptime r p -> shows r (public p).
Proof. intros (H1 & H2 & H3 & H4 & _). unfold shows. simpl. auto. Qed.

Lemma is_point_of_key (strptime : string -> string -> option Dt.date)
  (r : record) (p : point) :
  is_point_of strptime r p -> record_key strptime r = sort_key_of p.
Proof. intros (_ & _ & _ & _ & H). unfold record_key, sort_key_of. now rewrite H. Qed.

(** C6.  When no race time overflows, [build_race_series] returns the
    points of the records that pass the season filter, sorted by their
    key.  The key of a point is the ISO form of its date under the first
    format of the list that parses it, and the empty text when none does.
    The result is in ascending order of the keys, the points without a key
    after all the others; points with the same key keep the order of the
    input.  Of the returned list itself: it shows, point by point, the
    records that pass the filter put in that order, each point holding the
    date, the meet and the time of its record under [safe] and the seconds
    of that time. *)
Theorem race_series_order (strptime : string -> string -> option Dt.date)
    (cfg : config) (records : list record) :
  Forall (fun r => is_Raise (parse_time_to_seconds (safe (r !! "Time"))) = false)
    (List.filter (fun r => negb (skipped cfg r)) records) ->
  exists points sorted : list point,
    race_points strptime cfg records = Ok points
    /\ Forall2 (is_point_of strptime)
         (List.filter (fun r => negb (skipped cfg r)) records) points
    /\ build_race_series strptime cfg records = Ok (map public sorted)
    /\ Permutation sorted points
    /\ StronglySorted (not_after sort_key_of key_lt) sorted
    /\ (forall p1 p2 : point,
          not_after sort_key_of key_lt p1 p2
          <-> (parsed p1 = true /\ parsed p2 = false)
              \/ (parsed p1 = parsed p2 /\ String.ltb (pt_sort p2) (pt_sort p1) = false))
    /\ sorted = (py_sort sort_key_of key_lt (List.filter parsed points)
                 ++ List.filter (fun p => negb (parsed p)) points)%list
    /\ (forall k : string,
          List.filter (fun p => String.eqb (pt_sort p) k) sorted
          = List.filter (fun p => String.eqb (pt_sort p) k) points)
    /\ (forall r : record,
          sort_key strptime r = ""
          <-> Forall (fun fmt => strptime (strip (or_empty (r !! "Date"))) fmt = None)
                date_formats)
    /\ (forall r : record,
          sort_key strptime r <> "" ->
          exists (before after : list string) (fmt : string) (d : Dt.date),
            date_formats = (before ++ fmt :: after)%list
            /\ Forall (fun f => strptime (strip (or_empty (r !! "Date"))) f = None) before
            /\ strptime (strip (or_empty (r !! "Date"))) fmt = Some d
            /\ sort_key strptime r = Dt.isoformat d)
    /\ Forall2 (fun p sp => sp_date sp = pt_date p /\ sp_meet sp = pt_meet p
                            /\ sp_time sp = pt_time p /\ sp_seconds sp = pt_seconds p)
         sorted (map public sorted)
    /\ exists (ordered : list record) (series : list series_point),
         build_race_series strptime cfg records = Ok series
         /\ Forall2 shows ordered series
         /\ ordered = py_sort (record_key strptime) key_lt
                        (List.filter (fun r => negb (skipped cfg r)) records)
         /\ Permutation ordered (List.filter (fun r => negb (skipped cfg r)) records)
         /\ StronglySorted (not_after (record_key strptime) key_lt) ordered
         /\ (forall k : string,
               List.filter (fun r => String.eqb (sort_key strptime r) k) ordered
               = List.filter (fun r => String.eqb (sort_key strptime r) k)
                   (List.filter (fun r => negb (skipped cfg r)) records)).
Proof.
  intros H. destruct (race_points_Ok strptime cfg records H) as (points & Hpts & Hrel).
  exists points, (py_sort sort_key_of key_lt points).
  split; [exact Hpts|]. split; [exact Hrel|].
  split; [unfold build_race_series; now rewrite Hpts|].
  split; [apply py_sort_perm|].
  split; [apply py_sort_sorted; [exact key_lt_asym | exact key_le_trans]|].
  split.
  { intros p1 p2. unfold not_after.
    destruct (parsed p1) eqn:P1, (parsed p2) eqn:P2;
      rewrite ?(sort_key_of_parsed _ P1), ?(sort_key_of_parsed _ P2),
              ?(sort_key_of_unparsed _ P1), ?(sort_key_of_unparsed _ P2);
      unfold key_lt; simpl.
    - split; [auto | intros [[_ ?]|[_ ?]]; [discriminate | assumption]].
    - split; [auto | reflexivity].
    - split; [discriminate | intros [[? _]|[? _]]; discriminate].
    - unfold parsed in P1, P2. apply negb_false_iff, String.eqb_eq in P1, P2.
      rewrite P1, P2. split; [auto | reflexivity]. }
  split; [apply py_sort_parsed_first|].
  split.
  { intros k. apply py_sort_filter. intros a b Ha Hb.
    apply String.eqb_eq in Ha, Hb. unfold sort_key_of. rewrite Ha, Hb.
    apply key_lt_irrefl. }
  split; [intros r; apply first_format_empty|].
  split; [intros r; apply first_format_parsed|].
  split.
  { induction (py_sort sort_key_of key_lt points) as [|p l IH]; simpl;
      constructor; auto. }
  exists (py_sort (record_key strptime) key_lt
            (List.filter (fun r => negb (skipped cfg r)) records)),
         (map public (py_sort sort_key_of key_lt points)).
  split; [unfold build_race_series; now rewrite Hpts|].
  split.
  { apply Forall2_fmap_r.
    eapply Forall2_impl;
      [apply (py_sort_Forall2 (record_key strptime) sort_key_of key_lt
                (is_point_of strptime) (is_point_of_key strptime) _ _ Hrel)|].
    intros r p. apply is_point_of_shows. }
  split; [reflexivity|].
  split; [apply py_sort_perm|].
  split; [apply py_sort_sorted; [exact key_lt_asym | exact key_le_trans]|].
  intros k. apply py_sort_filter. intros a b Ha Hb.
  apply String.eqb_eq in Ha, Hb. unfold record_key. rewrite Ha, Hb.
  apply key_lt_irrefl.
Qed.

Lemma race_series_order_witness :
  exists points sorted : list point,
    race_points Dt.strptime source_config dated_records = Ok points
    /\ build_race_series Dt.strptime source_config dated_records = Ok (map public sorted)
    /\ map pt_sort sorted
       = ["2023-12-31"; "2024-01-05"; "2024-03-02"; "2025-03-01"; "2025-03-01"; ""]
    /\ map pt_date sorted
       = ["12/31/23"; "2024-01-05"; "March 2 2024"; "3/1/2025"; "Mar 1 2025"; "sometime"]
    /\ exists (ordered : list record) (series : list series_point),
         build_race_series Dt.strptime source_config dated_records = Ok series
         /\ Forall2 shows ordered series
         /\ ordered
            = [dated "12/31/23"; dated "2024-01-05"; dated "March 2 2024";
               dated "3/1/2025"; dated "Mar 1 2025"; dated "sometime"].
Proof.
  destruct (race_series_order Dt.strptime source_config dated_records)
    as (points & sorted & Hp & _ & Hb & _ & _ & _ & Hs & _ & _ & _ & _
        & ordered & series & Hseries & Hshows & Hord & _).
  - change (List.filter (fun r => negb (skipped source_config r)) dated_records)
      with dated_records.
    unfold dated_records. repeat (constructor; [vm_compute; reflexivity|]). constructor.
  - exists points, sorted. split; [exact Hp|]. split; [exact Hb|].
    assert (Hpoints : race_points Dt.strptime source_config dated_records
                      = Ok (map sample_point dated_records))
      by (vm_compute; reflexivity).
    rewrite Hpoints in Hp. injection Hp as <-. rewrite Hs.
    split; [vm_compute; reflexivity|]. split; [vm_compute; reflexivity|].
    exists ordered, series. split; [exact Hseries|]. split; [exact Hshows|].
    rewrite Hord.
    change (List.filter (fun r => negb (skipped source_config r)) dated_records)
      with dated_records.
    vm_compute. reflexivity.
Defined.

(** ** The heading *)

Lemma search_all_None (attempt : string -> option nat) (s : string) :
  (forall j, attempt (drop j s) = None) -> Re.search attempt s = None.
Proof.
  induction s as [|c s IH]; intros H; rewrite search_unfold.
  - pose proof (H 0) as H0. simpl in H0. now rewrite H0.
  - pose proof (H 0) as H0. simpl in H0. rewrite H0.
    rewrite IH; [reflexivity|]. intros j. exact (H (S j)).
Qed.

Lemma find_None_later (p s : string) (a b : nat) :
  find p (drop a s) = None -> a <= b -> find p (drop b s) = None.
Proof.
  intros H Hab. destruct (find p (drop b s)) as [k|] eqn:E; [|reflexivity].
  apply find_Some in E as (E & _). rewrite drop_drop in E.
  pose proof (find_None _ _ H (b + k - a)) as Hn. rewrite drop_drop in Hn.
  replace (a + (b + k - a)) with (b + k) in Hn by lia. congruence.
Qed.

Lemma match_h1_at (s : string) (i k : nat) :
  starts_with "<h1>" (drop i s) = true ->
  find "</h1>" (drop (i + 4) s) = Some k ->
  match_h1 (drop i s) = Some (4 + k + 5).
Proof.
  intros H1 H2. unfold match_h1. now rewrite H1, drop_drop, H2.
Qed.

Lemma match_h1_not_at (s : string) (j : nat) :
  starts_with "<h1>" (drop j s) = false -> match_h1 (drop j s) = None.
Proof. intros H. unfold match_h1. now rewrite H. Qed.

(** The search for the heading in terms of [find]: the first [<h1>], and
    the first [</h1>] after it. *)
Lemma search_h1_found (s : string) (i k : nat) :
  find "<h1>" s = Some i ->
  find "</h1>" (drop (i + 4) s) = Some k ->
  search_h1 s = Some (i, i + (4 + k + 5)).
Proof.
  intros H1 H2. apply find_Some in H1 as (Hs & Hl & Hfirst).
  apply search_first.
  - lia.
  - now apply match_h1_at.
  - intros j Hj. apply match_h1_not_at, Hfirst, Hj.
Qed.

Lemma search_h1_no_open (s : string) : find "<h1>" s = None -> search_h1 s = None.
Proof.
  intros H. apply search_all_None. intros j. apply match_h1_not_at.
  now apply find_None.
Qed.

Lemma search_h1_no_close (s : string) (i : nat) :
  find "<h1>" s = Some i ->
  find "</h1>" (drop (i + 4) s) = None ->
  search_h1 s = None.
Proof.
  intros H1 H2. apply find_Some in H1 as (_ & _ & Hfirst).
  apply search_all_None. intros j. unfold match_h1.
  destruct (starts_with "<h1>" (drop j s)) eqn:E; [|reflexivity].
  assert (i <= j).
  { destruct (Nat.le_gt_cases i j) as [?|Hlt]; [assumption|].
    rewrite (Hfirst j Hlt) in E. discriminate. }
  rewrite drop_drop, (find_None_later _ s (i + 4) (j + 4) H2); [reflexivity | lia].
Qed.

(** *** Templates without a backslash *)

Lemma expand_literals (s matched : string) : Re.expand (literals s) matched = s.
Proof.
  unfold literals. induction s as [|c s IH]; simpl; [reflexivity | now rewrite IH].
Qed.

Lemma parse_template_plain (s : string) :
  count bs s = 0 -> Re.parse_template s = Ok (literals s).
Proof.
  unfold Re.parse_template, literals.
  induction s as [|c s IH]; [reflexivity|].
  simpl count. destruct (Ascii.eqb_spec c bs) as [->|Hc]; [discriminate|].
  intros H. simpl in H. simpl.
  destruct (Ascii.eqb_spec c bs) as [?|_]; [contradiction|]. simpl.
  now rewrite (IH H).
Qed.

Lemma count_lstrip_with (sp : ascii -> bool) (c : ascii) (s : string) :
  count c (lstrip_with sp s) <= count c s.
Proof.
  induction s as [|a s IH]; simpl; [lia|]. destruct (sp a); simpl; lia.
Qed.

Lemma count_rstrip_with (sp : ascii -> bool) (c : ascii) (s : string) :
  count c (rstrip_with sp s) <= count c s.
Proof.
  induction s as [|a s IH]; simpl; [lia|].
  destruct (sp a && is_empty (rstrip_with sp s)); simpl; lia.
Qed.

Lemma count_strip (c : ascii) (s : string) : count c (strip s) <= count c s.
Proof.
  unfold strip, strip_with.
  pose proof (count_rstrip_with is_space c (lstrip_with is_space s)).
  pose proof (count_lstrip_with is_space c s). lia.
Qed.

Lemma count_bs_escape (s : string) : count bs (escape s) = count bs s.
Proof.
  unfold escape. repeat (rewrite count_replace; simpl). lia.
Qed.

Lemma heading_template_plain (name : string) :
  count bs name = 0 ->
  Re.parse_template ("<h1>" ++ escape (strip name) ++ "</h1>")
  = Ok (literals ("<h1>" ++ escape (strip name) ++ "</h1>")).
Proof.
  intros H. apply parse_template_plain.
  rewrite !count_append, count_bs_escape. pose proof (count_strip bs name).
  simpl. lia.
Qed.

(** C9, as the code has it.  A blank name leaves the document as it is.
    For a name that is not blank and holds no backslash: the text from the
    first [<h1>] (the tag written without attributes) to the end of the
    first [</h1>] after it becomes [<h1>], the escaped trimmed name,
    [</h1>], and the text before and after stays; a document without such
    a span is returned as it is. *)
Theorem replace_first_h1_spec (html_text new_name : string) :
  (all_space new_name = true -> replace_first_h1 html_text new_name = Ok html_text)
  /\ (all_space new_name = false ->
      count bs new_name = 0 ->
      (forall i k : nat,
         find "<h1>" html_text = Some i ->
         find "</h1>" (drop (i + 4) html_text) = Some k ->
         replace_first_h1 html_text new_name
         = Ok (take i html_text
               ++ "<h1>" ++ escape (strip new_name) ++ "</h1>"
               ++ drop (i + 4 + k + 5) html_text))
      /\ (find "<h1>" html_text = None ->
          replace_first_h1 html_text new_name = Ok html_text)
      /\ (forall i : nat,
            find "<h1>" html_text = Some i ->
            find "</h1>" (drop (i + 4) html_text) = None ->
            replace_first_h1 html_text new_name = Ok html_text)).
Proof.
  split.
  - intros H. apply strip_empty in H. unfold replace_first_h1. now rewrite H.
  - intros Hname Hbs.
    assert (Hrun : replace_first_h1 html_text new_name
                   = sub_first_h1 ("<h1>" ++ escape (strip new_name) ++ "</h1>") html_text).
    { unfold replace_first_h1. destruct (is_empty (strip new_name)) eqn:E; [|reflexivity].
      apply is_empty_true, strip_empty in E. congruence. }
    rewrite Hrun. unfold sub_first_h1. rewrite (heading_template_plain _ Hbs).
    change (Ok (literals ("<h1>" ++ escape (strip new_name) ++ "</h1>")) ≫= ?f)
      with (f (literals ("<h1>" ++ escape (strip new_name) ++ "</h1>"))).
    cbv beta. split; [|split].
    + intros i k H1 H2. rewrite (search_h1_found _ _ _ H1 H2).
      replace (i + (4 + k + 5)) with (i + 4 + k + 5) by lia.
      rewrite expand_literals, !append_assoc. reflexivity.
    + intros H. now rewrite (search_h1_no_open _ H).
    + intros i H1 H2. now rewrite (search_h1_no_close _ _ H1 H2).
Qed.

Lemma replace_first_h1_spec_witness :
  replace_first_h1 "<body><h1>Old Name</h1><h1>Other</h1></body>" "   " 
  = Ok "<body><h1>Old Name</h1><h1>Other</h1></body>"
  /\ replace_first_h1 "<body><h1>Old Name</h1><h1>Other</h1></body>" " Bo & Co "
     = Ok ("<body>" ++ "<h1>" ++ escape (strip " Bo & Co ") ++ "</h1>"
           ++ "<h1>Other</h1></body>")
  /\ replace_first_h1 "<body><h2>Old Name</h2></body>" "Bob"
     = Ok "<body><h2>Old Name</h2></body>".
Proof.
  split; [|split].
  - apply (proj1 (replace_first_h1_spec _ "   ")). reflexivity.
  - destruct (proj2 (replace_first_h1_spec
                       "<body><h1>Old Name</h1><h1>Other</h1></body>" " Bo & Co ")
                eq_refl eq_refl) as (H & _ & _).
    apply (H 6 8); reflexivity.
  - destruct (proj2 (replace_first_h1_spec "<body><h2>Old Name</h2></body>" "Bob")
                eq_refl eq_refl) as (_ & H & _).
    apply H. reflexivity.
Defined.

(** C9 as stated fails.  The first heading of a document may carry an
    attribute, and then it is not the one rewritten: with no plain [<h1>]
    in the document nothing changes.  (A backslash in the name is read as
    an escape sequence of the replacement template: it changes the name
    that is written or makes [re.sub] raise.) *)
Lemma replace_first_h1_spec_counterexample :
  all_space "Bob" = false
  /\ replace_first_h1 attributed_heading "Bob" = Ok attributed_heading
  /\ replace_first_h1 "<h1>Old</h1>" name_with_newline_escape
     = Ok ("<h1>Jo" ++ nl ++ "es</h1>")
  /\ Ok (A := string) ("<h1>Jo" ++ nl ++ "es</h1>")
     <> Ok ("<h1>" ++ escape (strip name_with_newline_escape) ++ "</h1>")
  /\ replace_first_h1 "<h1>Old</h1>" name_with_bad_escape = Raise (ReError "bad escape").
Proof. repeat split; try discriminate; vm_compute; reflexivity. Qed.

(** ** Race times *)

Lemma all_in_app (p : ascii -> bool) (s t : string) :
  all_in p (s ++ t) = all_in p s && all_in p t.
Proof. induction s as [|c s IH]; simpl; [reflexivity | now rewrite IH, andb_assoc]. Qed.

Lemma all_in_impl (p p' : ascii -> bool) (s : string) :
  (forall c, p c = true -> p' c = true) -> all_in p s = true -> all_in p' s = true.
Proof.
  intros H. induction s as [|c s IH]; simpl; [reflexivity|].
  intros [Hc Hs]%andb_true_iff. now rewrite (H c Hc), IH.
Qed.

Lemma lstrip_with_id (sp : ascii -> bool) (s : string) :
  all_in (fun c => negb (sp c)) s = true -> lstrip_with sp s = s.
Proof.
  destruct s as [|c s]; simpl; [reflexivity|].
  intros [Hc _]%andb_true_iff. apply negb_true_iff in Hc. now rewrite Hc.
Qed.

Lemma rstrip_with_id (sp : ascii -> bool) (s : string) :
  all_in (fun c => negb (sp c)) s = true -> rstrip_with sp s = s.
Proof.
  induction s as [|c s IH]; simpl; [reflexivity|].
  intros [Hc Hs]%andb_true_iff. apply negb_true_iff in Hc. now rewrite Hc, IH.
Qed.

Lemma strip_with_id (sp : ascii -> bool) (s : string) :
  all_in (fun c => negb (sp c)) s = true -> strip_with sp s = s.
Proof.
  intros H. unfold strip_with. rewrite lstrip_with_id by exact H. now apply rstrip_with_id.
Qed.

Lemma count_absent (d : ascii) (s : string) :
  all_in (fun c => negb (Ascii.eqb c d)) s = true -> count d s = 0.
Proof.
  induction s as [|c s IH]; simpl; [reflexivity|].
  intros [Hc Hs]%andb_true_iff. apply negb_true_iff in Hc. now rewrite Hc, IH.
Qed.

(** What the characters of a time are not. *)
Lemma time_char_other (c : ascii) :
  time_char c = true ->
  is_space c = false /\ is_num_space c = false /\ Ascii.eqb c "_" = false.
Proof.
  destruct c as [[] [] [] [] [] [] [] []]; vm_compute; intros H;
    try discriminate H; auto.
Qed.

Lemma digit_other (c : ascii) :
  is_digit c = true ->
  time_char c = true
  /\ Ascii.eqb c ":" = false /\ Ascii.eqb c "." = false
  /\ Ascii.eqb c "-" = false /\ Ascii.eqb c "+" = false
  /\ lower_char c = c
  /\ Ascii.eqb c "i" = false /\ Ascii.eqb c "n" = false
  /\ Ascii.eqb c "N" = false.
Proof.
  destruct c as [[] [] [] [] [] [] [] []]; vm_compute; intros H;
    try discriminate H; auto 10.
Qed.

Lemma digits_time_chars (s : string) :
  all_in is_digit s = true -> all_in time_char s = true.
Proof. apply all_in_impl. intros c H. now apply digit_other. Qed.

Lemma digits_no_colon (s : string) : all_in is_digit s = true -> count ":" s = 0.
Proof.
  intros H. apply count_absent. revert H. apply all_in_impl.
  intros c H. apply digit_other in H as (_ & H & _). now rewrite H.
Qed.

Lemma time_chars_strip (s : string) : all_in time_char s = true -> strip s = s.
Proof.
  intros H. apply strip_with_id. revert H. apply all_in_impl.
  intros c H. apply time_char_other in H as (H & _). now rewrite H.
Qed.

Lemma time_chars_num_strip (s : string) :
  all_in time_char s = true -> strip_with is_num_space s = s.
Proof.
  intros H. apply strip_with_id. revert H. apply all_in_impl.
  intros c H. apply time_char_other in H as (_ & H & _). now rewrite H.
Qed.

Lemma time_chars_no_underscore (s : string) :
  all_in time_char s = true -> count "_" s = 0.
Proof.
  intros H. apply count_absent. revert H. apply all_in_impl.
  intros c H. apply time_char_other in H as (_ & _ & H). now rewrite H.
Qed.

(** *** Splitting at the colons *)

Lemma split_nonempty (c : ascii) (s : string) : split c s <> [].
Proof.
  destruct s as [|a s]; simpl; [discriminate|].
  destruct (Ascii.eqb a c); [discriminate|]. destruct (split c s); discriminate.
Qed.

Lemma split_no_sep (c : ascii) (s : string) : count c s = 0 -> split c s = [s].
Proof.
  induction s as [|a s IH]; simpl; [reflexivity|].
  destruct (Ascii.eqb a c); [discriminate|]. simpl. intros H. now rewrite (IH H).
Qed.

Lemma split_app (c : ascii) (s t : string) :
  count c s = 0 -> split c (s ++ String c t) = s :: split c t.
Proof.
  induction s as [|a s IH]; simpl.
  - intros _. now rewrite Ascii.eqb_refl.
  - destruct (Ascii.eqb a c); [discriminate|]. simpl. intros H. now rewrite (IH H).
Qed.

Lemma split1_app (c : ascii) (s t : string) :
  count c s = 0 -> split1 c (s ++ String c t) = [s; t].
Proof.
  induction s as [|a s IH]; simpl.
  - intros _. now rewrite Ascii.eqb_refl.
  - destruct (Ascii.eqb a c); [discriminate|]. simpl. intros H. now rewrite (IH H).
Qed.

Lemma length_split (c : ascii) (s : string) : List.length (split c s) = S (count c s).
Proof.
  induction s as [|a s IH]; simpl; [reflexivity|].
  destruct (Ascii.eqb a c); simpl; [now rewrite IH|].
  destruct (split c s) eqn:E; simpl in *; [discriminate | exact IH].
Qed.

Lemma length_split1 (c : ascii) (s : string) :
  0 < count c s -> List.length (split1 c s) = 2.
Proof.
  induction s as [|a s IH]; simpl; [lia|].
  destruct (Ascii.eqb a c); simpl; [reflexivity|]. intros H.
  specialize (IH H). destruct (split1 c s); simpl in *; [discriminate | exact IH].
Qed.

(** *** The fields *)

Lemma span_digits_spec (s ip r : string) :
  span_digits s = (ip, r) -> s = ip ++ r /\ all_in is_digit ip = true.
Proof.
  revert ip r; induction s as [|c s IH]; simpl; intros ip r.
  - intros [= <- <-]. auto.
  - destruct (is_digit c) eqn:E.
    + destruct (span_digits s) as [d r']. intros [= <- <-].
      destruct (IH d r' eq_refl) as (-> & Hd). simpl. now rewrite E, Hd.
    + intros [= <- <-]. auto.
Qed.

Lemma span_digits_all (s : string) : all_in is_digit s = true -> span_digits s = (s, "").
Proof.
  induction s as [|c s IH]; simpl; [reflexivity|].
  intros [Hc Hs]%andb_true_iff. now rewrite Hc, (IH Hs).
Qed.

Lemma read_sign_digit (c : ascii) (s : string) :
  is_digit c = true -> read_sign (String c s) = (false, String c s).
Proof.
  destruct c as [[] [] [] [] [] [] [] []]; vm_compute; intros H;
    try discriminate H; reflexivity.
Qed.

Lemma int_digits_all (s : string) :
  all_in is_digit s = true -> int_digits true s = Some s.
Proof.
  induction s as [|c s IH]; simpl; [reflexivity|].
  intros [Hc Hs]%andb_true_iff. now rewrite Hc, (IH Hs).
Qed.

(** [int()] reads a field of digits as the number it denotes. *)
Lemma int_of_str_number (s : string) :
  is_number s = true ->
  String.length s <= max_str_digits ->
  int_of_str s = Ok (digits_value s).
Proof.
  unfold is_number. intros [Hne Hd]%andb_true_iff Hlen.
  unfold int_of_str. rewrite time_chars_num_strip by now apply digits_time_chars.
  destruct s as [|c s]; [discriminate|]. simpl in Hd.
  apply andb_true_iff in Hd as [Hc Hs].
  rewrite (read_sign_digit c s Hc). cbn [int_digits]. rewrite Hc, (int_digits_all s Hs).
  cbn [option_map]. apply Nat.ltb_ge in Hlen. now rewrite Hlen.
Qed.

Lemma float_underscores_none (prev : ascii) (s : string) :
  Ascii.eqb prev "_" = false -> count "_" s = 0 -> float_underscores prev s = Some s.
Proof.
  revert prev; induction s as [|c s IH]; intros prev Hp; simpl.
  - now rewrite Hp.
  - destruct (Ascii.eqb c "_") eqn:E; [discriminate|]. simpl. intros H.
    now rewrite Hp, (IH c E H).
Qed.

Lemma spec_seconds_parts (s : string) :
  spec_seconds s = true ->
  exists (c : ascii) (ip r : string),
    span_digits s = (String c ip, r)
    /\ s = String c ip ++ r
    /\ is_digit c = true /\ all_in is_digit ip = true
    /\ (r = "" \/ exists fp, r = String "." fp /\ all_in is_digit fp = true).
Proof.
  unfold spec_seconds. destruct (span_digits s) as [ip r] eqn:E.
  destruct (span_digits_spec _ _ _ E) as (Hs & Hip).
  destruct ip as [|c ip]; [discriminate|]. simpl. simpl in Hip.
  apply andb_true_iff in Hip as [Hc Hip]. intros H.
  exists c, ip, r. repeat split; auto.
  destruct r as [|d fp]; [now left|].
  apply andb_true_iff in H as [Hd Hfp]. apply Ascii.eqb_eq in Hd as ->.
  right. now exists fp.
Qed.

Lemma spec_seconds_chars (s : string) :
  spec_seconds s = true -> all_in time_char s = true /\ count ":" s = 0.
Proof.
  intros H. destruct (spec_seconds_parts s H) as (c & ip & r & _ & -> & Hc & Hip & Hr).
  assert (Hd : all_in is_digit (String c ip) = true) by (simpl; now rewrite Hc, Hip).
  rewrite all_in_app, count_append, (digits_no_colon _ Hd), (digits_time_chars _ Hd).
  destruct Hr as [-> | (fp & -> & Hfp)]; [auto|].
  simpl. rewrite (digits_time_chars _ Hfp), (digits_no_colon _ Hfp). auto.
Qed.

(** [float()] reads a seconds field as the float nearest to its decimal
    value. *)
Lemma float_of_str_seconds (s : string) :
  spec_seconds s = true -> float_of_str s = Ok (seconds_value s).
Proof.
  intros H. destruct (spec_seconds_chars s H) as (Hchars & _).
  destruct (spec_seconds_parts s H) as (c & ip & r & Hspan & Hs & Hc & Hip & Hr).
  unfold float_of_str, seconds_value.
  rewrite (time_chars_num_strip _ Hchars).
  rewrite float_underscores_none;
    [|reflexivity | now apply time_chars_no_underscore].
  rewrite Hs at 1. simpl String.append. rewrite (read_sign_digit c _ Hc).
  change (String c (ip ++ r)) with (String c ip ++ r). rewrite <- Hs.
  unfold float_body. rewrite Hspan.
  destruct (digit_other c Hc) as (_ & _ & _ & _ & _ & Hl & Hi & Hn & _).
  assert (Hlow : forall w, String.eqb (lower_ascii s) (String "i" w) = false
                           /\ String.eqb (lower_ascii s) (String "n" w) = false).
  { intros w. rewrite Hs. simpl. rewrite Hl, Hi, Hn. auto. }
  rewrite (proj1 (Hlow "nf")), (proj1 (Hlow "nfinity")), (proj2 (Hlow "an")). simpl orb.
  cbv iota.
  destruct Hr as [-> | (fp & -> & Hfp)].
  - simpl. rewrite append_nil_r. reflexivity.
  - rewrite (span_digits_all fp Hfp). simpl.
    destruct fp; reflexivity.
Qed.

(** *** The exceptions of the conversions *)

Lemma int_of_str_raises (s : string) (e : exn) :
  int_of_str s = Raise e -> exists msg, e = ValueError msg.
Proof.
  unfold int_of_str. destruct (read_sign (strip_with is_num_space s)) as [neg body].
  destruct (int_digits false body) as [ds|]; [|intros [= <-]; eauto].
  destruct (max_str_digits <? String.length ds)%nat; [intros [= <-]; eauto | discriminate].
Qed.

Lemma float_of_str_raises (s : string) (e : exn) :
  float_of_str s = Raise e -> exists msg, e = ValueError msg.
Proof.
  unfold float_of_str.
  destruct (float_underscores "000" (strip_with is_num_space s)) as [t|];
    [|intros [= <-]; eauto].
  destruct (read_sign t) as [neg body].
  destruct (float_body neg body); [discriminate | intros [= <-]; eauto].
Qed.

Lemma int_add_float_raises (n : Z) (f : float) (e : exn) :
  int_add_float n f = Raise e -> exists msg, e = OverflowError msg.
Proof.
  unfold int_add_float, float_of_int.
  destruct (binary_normalize prec emax n 0 false); try discriminate.
  intros [= <-]. eauto.
Qed.

(** What is left of a failure after [except ValueError]. *)
Lemma catch_fields3 (a b c : string) (e : exn) :
  catch_ValueError
    (x ← int_of_str a; y ← int_of_str b; z ← float_of_str c;
     f ← int_add_float (x * 3600 + y * 60) z; Ok (Some f))
    (Ok None) = Raise e ->
  exists msg, e = OverflowError msg.
Proof.
  destruct (int_of_str a) as [x|e1] eqn:Ea;
    [|destruct (int_of_str_raises _ _ Ea) as (m1 & ->); discriminate].
  destruct (int_of_str b) as [y|e2] eqn:Eb;
    [|destruct (int_of_str_raises _ _ Eb) as (m2 & ->); discriminate].
  destruct (float_of_str c) as [z|e3] eqn:Ec;
    [|destruct (float_of_str_raises _ _ Ec) as (m3 & ->); discriminate].
  change (catch_ValueError (f ← int_add_float (x * 3600 + y * 60) z; Ok (Some f)) (Ok None)
          = Raise e -> exists msg, e = OverflowError msg).
  destruct (int_add_float (x * 3600 + y * 60) z) as [f|e4] eqn:Ef; [discriminate|].
  destruct (int_add_float_raises _ _ _ Ef) as (m4 & ->). intros [= <-]. eauto.
Qed.

Lemma catch_fields2 (a b : string) (e : exn) :
  catch_ValueError
    (x ← int_of_str a; z ← float_of_str b;
     f ← int_add_float (x * 60) z; Ok (Some f))
    (Ok None) = Raise e ->
  exists msg, e = OverflowError msg.
Proof.
  destruct (int_of_str a) as [x|e1] eqn:Ea;
    [|destruct (int_of_str_raises _ _ Ea) as (m1 & ->); discriminate].
  destruct (float_of_str b) as [z|e3] eqn:Ec;
    [|destruct (float_of_str_raises _ _ Ec) as (m3 & ->); discriminate].
  change (catch_ValueError (f ← int_add_float (x * 60) z; Ok (Some f)) (Ok None)
          = Raise e -> exists msg, e = OverflowError msg).
  destruct (int_add_float (x * 60) z) as [f|e4] eqn:Ef; [discriminate|].
  destruct (int_add_float_raises _ _ _ Ef) as (m4 & ->). intros [= <-]. eauto.
Qed.

Lemma catch_fields1 (t : string) (e : exn) :
  catch_ValueError (f ← float_of_str t; Ok (Some f)) (Ok None) <> Raise e.
Proof.
  destruct (float_of_str t) as [z|e3] eqn:Ec;
    [|destruct (float_of_str_raises _ _ Ec) as (m3 & ->)]; discriminate.
Qed.

(** No [ValueError] leaves [parse_time_to_seconds]: the only exception it
    can raise is the [OverflowError] of the addition. *)
Lemma parse_time_raises (s : string) (e : exn) :
  parse_time_to_seconds s = Raise e -> exists msg, e = OverflowError msg.
Proof.
  unfold parse_time_to_seconds. set (t := strip s).
  destruct (is_empty t || String.eqb (upper t) "N/A"); [discriminate|].
  destruct (count ":" t =? 2)%nat eqn:E2.
  - apply Nat.eqb_eq in E2. pose proof (length_split ":" t) as L. rewrite E2 in L.
    destruct (split ":" t) as [|a [|b [|c [|d l]]]]; try discriminate L.
    apply catch_fields3.
  - destruct (count ":" t =? 1)%nat eqn:E1.
    + apply Nat.eqb_eq in E1. pose proof (length_split1 ":" t ltac:(lia)) as L.
      destruct (split1 ":" t) as [|a [|b [|c l]]]; try discriminate L.
      apply catch_fields2.
    + intros H. now apply catch_fields1 in H.
Qed.

(** *** The three formats *)

Lemma bind_Ok {A B : Type} (v : A) (k : A -> result B) : (Ok v ≫= k) = k v.
Proof. reflexivity. Qed.

Lemma not_NA_digit (c : ascii) (s : string) :
  is_digit c = true -> String.eqb (upper (String c s)) "N/A" = false.
Proof.
  intros Hc. apply String.eqb_neq. intros H. apply upper_NA in H.
  apply digit_other in Hc as (_ & _ & _ & _ & _ & _ & _ & Hn & HN).
  destruct H as [H | [H | [H | H]]]; injection H as -> _;
    discriminate.
Qed.

Lemma not_blank_or_NA (t t' : string) (c : ascii) :
  t = String c t' -> is_digit c = true ->
  is_empty t || String.eqb (upper t) "N/A" = false.
Proof. intros -> Hc. simpl is_empty. now rewrite (not_NA_digit c t' Hc). Qed.

Lemma number_first (s : string) :
  is_number s = true ->
  exists c s', s = String c s' /\ is_digit c = true /\ all_in is_digit s = true.
Proof.
  unfold is_number. intros [Hne Hd]%andb_true_iff.
  destruct s as [|c s']; [discriminate|]. exists c, s'. simpl in *.
  apply andb_true_iff in Hd as [Hc Hs]. now rewrite Hc, Hs.
Qed.

Lemma parse_seconds_only (sec : string) :
  spec_seconds sec = true ->
  parse_time_to_seconds sec = Ok (Some (seconds_value sec)).
Proof.
  intros H. destruct (spec_seconds_chars sec H) as (Hchars & Hcolon).
  destruct (spec_seconds_parts sec H) as (c & ip & r & _ & Hs & Hc & _).
  unfold parse_time_to_seconds. rewrite (time_chars_strip _ Hchars).
  rewrite (not_blank_or_NA sec (ip ++ r) c Hs Hc).
  rewrite Hcolon. simpl. now rewrite (float_of_str_seconds sec H).
Qed.

Lemma parse_minutes_seconds (m sec : string) (x : float) :
  is_number m = true ->
  String.length m <= max_str_digits ->
  spec_seconds sec = true ->
  float_of_int (digits_value m * 60) = Ok x ->
  parse_time_to_seconds (m ++ ":" ++ sec)
  = Ok (Some (SFadd prec emax x (seconds_value sec))).
Proof.
  intros Hm Lm Hsec Hx.
  destruct (spec_seconds_chars sec Hsec) as (Hchars & Hcolon).
  destruct (number_first m Hm) as (c & m' & Em & Hc & Hd).
  assert (Ht : all_in time_char (m ++ ":" ++ sec) = true).
  { rewrite all_in_app, (digits_time_chars _ Hd). simpl. exact Hchars. }
  unfold parse_time_to_seconds. rewrite (time_chars_strip _ Ht).
  rewrite (not_blank_or_NA (m ++ ":" ++ sec) (m' ++ ":" ++ sec) c)
    by (rewrite ?Em; auto).
  assert (Hcount : count ":" (m ++ ":" ++ sec) = 1).
  { rewrite count_append, (digits_no_colon _ Hd). simpl. now rewrite Hcolon. }
  rewrite Hcount. simpl Nat.eqb. cbv iota.
  change (m ++ ":" ++ sec) with (m ++ String ":" sec).
  rewrite (split1_app ":" m sec (digits_no_colon _ Hd)). simpl unpack2.
  change (Ok (m, sec) ≫= ?k) with (k (m, sec)). cbv beta iota.
  rewrite (int_of_str_number m Hm Lm), (float_of_str_seconds sec Hsec).
  repeat (rewrite bind_Ok; cbv beta).
  unfold int_add_float. rewrite Hx. reflexivity.
Qed.

Lemma parse_hours_minutes_seconds (h m sec : string) (x : float) :
  is_number h = true ->
  String.length h <= max_str_digits ->
  is_number m = true ->
  String.length m <= max_str_digits ->
  spec_seconds sec = true ->
  float_of_int (digits_value h * 3600 + digits_value m * 60) = Ok x ->
  parse_time_to_seconds (h ++ ":" ++ m ++ ":" ++ sec)
  = Ok (Some (SFadd prec emax x (seconds_value sec))).
Proof.
  intros Hh Lh Hm Lm Hsec Hx.
  destruct (spec_seconds_chars sec Hsec) as (Hchars & Hcolon).
  destruct (number_first h Hh) as (c & h' & Eh & Hc & Hdh).
  destruct (number_first m Hm) as (_ & _ & _ & _ & Hdm).
  assert (Ht : all_in time_char (h ++ ":" ++ m ++ ":" ++ sec) = true).
  { rewrite all_in_app, (digits_time_chars _ Hdh). simpl.
    rewrite all_in_app, (digits_time_chars _ Hdm). simpl. exact Hchars. }
  unfold parse_time_to_seconds. rewrite (time_chars_strip _ Ht).
  rewrite (not_blank_or_NA (h ++ ":" ++ m ++ ":" ++ sec) (h' ++ ":" ++ m ++ ":" ++ sec) c)
    by (rewrite ?Eh; auto).
  assert (Hcount : count ":" (h ++ ":" ++ m ++ ":" ++ sec) = 2).
  { rewrite count_append, (digits_no_colon _ Hdh). simpl.
    rewrite count_append, (digits_no_colon _ Hdm). simpl. now rewrite Hcolon. }
  rewrite Hcount. simpl Nat.eqb. cbv iota.
  change (h ++ ":" ++ m ++ ":" ++ sec) with (h ++ String ":" (m ++ String ":" sec)).
  rewrite (split_app ":" h _ (digits_no_colon _ Hdh)).
  rewrite (split_app ":" m _ (digits_no_colon _ Hdm)).
  rewrite (split_no_sep ":" sec Hcolon). simpl unpack3.
  change (Ok (h, m, sec) ≫= ?k) with (k (h, m, sec)). cbv beta iota.
  rewrite (int_of_str_number h Hh Lh), (int_of_str_number m Hm Lm),
          (float_of_str_seconds sec Hsec).
  repeat (rewrite bind_Ok; cbv beta).
  unfold int_add_float. rewrite Hx. reflexivity.
Qed.

(** The float literals of the examples: 323.4, 3900.0 and 45.0. *)
Example float_literals :
  float_of_str "323.4" = Ok (float_of_decimal false 3234 (-1))
  /\ float_of_str "3900.0" = Ok (float_of_decimal false 3900 0)
  /\ float_of_str "45.0" = Ok (float_of_decimal false 45 0)
  /\ float_of_decimal false 3234 (-1) = S754_finite false 5689312966764134 (-44).
Proof. repeat split; vm_compute; reflexivity. Qed.

(** *** What [int()] and [float()] reject and accept *)

Lemma span_digits_colon (s d r : string) :
  span_digits s = (d, r) -> count ":" r = count ":" s.
Proof.
  revert d r; induction s as [|c s IH]; intros d r; simpl.
  - intros [= <- <-]. reflexivity.
  - destruct (is_digit c) eqn:Hc.
    + destruct (span_digits s) as [d' r'] eqn:E. intros [= <- <-].
      rewrite (IH _ _ eq_refl).
      destruct (Ascii.eqb_spec c ":") as [->|]; [discriminate Hc | reflexivity].
    + intros [= <- <-]. reflexivity.
Qed.

Lemma read_sign_colon (s : string) (neg : bool) (body : string) :
  read_sign s = (neg, body) -> count ":" body = count ":" s.
Proof.
  unfold read_sign. destruct s as [|c s]; [intros [= <- <-]; reflexivity|].
  destruct (Ascii.eqb_spec c "-") as [->|Hm]; [intros [= <- <-]; reflexivity|].
  destruct (Ascii.eqb_spec c "+") as [->|Hp]; [intros [= <- <-]; reflexivity|].
  destruct c as [[] [] [] [] [] [] [] []];
    try (intros [= <- <-]; reflexivity); congruence.
Qed.

Lemma read_exponent_colon (s : string) (ex : Z) (r : string) :
  read_exponent s = (ex, r) -> count ":" r = count ":" s.
Proof.
  unfold read_exponent. destruct s as [|c s]; [intros [= <- <-]; reflexivity|].
  destruct (Ascii.eqb c "e" || Ascii.eqb c "E") eqn:Ec; [|intros [= <- <-]; reflexivity].
  destruct (read_sign s) as [neg s''] eqn:Es.
  destruct (span_digits s'') as [ds r'] eqn:Ed.
  destruct (is_empty ds); [intros [= <- <-]; reflexivity|].
  intros [= <- <-].
  rewrite (span_digits_colon _ _ _ Ed), (read_sign_colon _ _ _ Es). simpl.
  destruct (Ascii.eqb_spec c ":") as [->|]; [discriminate Ec | reflexivity].
Qed.

Lemma lower_ascii_colon (s : string) : count ":" (lower_ascii s) = count ":" s.
Proof.
  induction s as [|c s IH]; simpl; [reflexivity|]. rewrite IH. f_equal.
  unfold lower_char. destruct (in_range 65 90 c) eqn:E; [|reflexivity].
  destruct c as [[] [] [] [] [] [] [] []]; try discriminate E; reflexivity.
Qed.

Lemma float_body_colon (neg : bool) (s : string) :
  0 < count ":" s -> float_body neg s = None.
Proof.
  intros H. unfold float_body.
  assert (Hl : 0 < count ":" (lower_ascii s)) by now rewrite lower_ascii_colon.
  destruct (String.eqb_spec (lower_ascii s) "inf") as [E|_];
    [rewrite E in Hl; simpl in Hl; lia|].
  destruct (String.eqb_spec (lower_ascii s) "infinity") as [E|_];
    [rewrite E in Hl; simpl in Hl; lia|].
  destruct (String.eqb_spec (lower_ascii s) "nan") as [E|_];
    [rewrite E in Hl; simpl in Hl; lia|].
  simpl orb. cbv iota.
  destruct (span_digits s) as [ip r1] eqn:E1.
  pose proof (span_digits_colon _ _ _ E1) as C1.
  assert (C2 : forall fp r2,
            match r1 with
            | String "." r => span_digits r
            | _ => (EmptyString, r1)
            end = (fp, r2) -> count ":" r2 = count ":" r1).
  { intros fp r2. destruct r1 as [|c r]; [intros [= <- <-]; reflexivity|].
    destruct (Ascii.eqb_spec c ".") as [->|Hc].
    - intros E. now rewrite (span_digits_colon _ _ _ E).
    - destruct c as [[] [] [] [] [] [] [] []];
        try (intros [= <- <-]; reflexivity); now contradiction Hc. }
  destruct (match r1 with
            | String "." r => span_digits r
            | _ => (EmptyString, r1)
            end) as [fp r2] eqn:E2.
  specialize (C2 _ _ eq_refl).
  destruct (is_empty ip && is_empty fp); [reflexivity|].
  destruct (read_exponent r2) as [ex r3] eqn:E3.
  pose proof (read_exponent_colon _ _ _ E3) as C3.
  destruct r3; [simpl in C3; lia | reflexivity].
Qed.

Lemma float_underscores_colon (prev : ascii) (s t : string) :
  float_underscores prev s = Some t -> count ":" t = count ":" s.
Proof.
  revert prev t; induction s as [|c s IH]; intros prev t; simpl.
  - destruct (Ascii.eqb prev "_"); [discriminate | intros [= <-]; reflexivity].
  - destruct (Ascii.eqb_spec c "_") as [->|Hc].
    + destruct (is_digit prev); [|discriminate]. intros H. now rewrite (IH _ _ H).
    + destruct (Ascii.eqb prev "_" && negb (is_digit c)); [discriminate|].
      destruct (float_underscores c s) as [t'|] eqn:E; [|discriminate].
      intros [= <-]. simpl. now rewrite (IH _ _ E).
Qed.

Lemma count_lstrip_other (sp : ascii -> bool) (c : ascii) (s : string) :
  sp c = false -> count c (lstrip_with sp s) = count c s.
Proof.
  intros Hc. induction s as [|a s IH]; simpl; [reflexivity|].
  destruct (sp a) eqn:Ea; [|reflexivity].
  rewrite IH. destruct (Ascii.eqb_spec a c) as [->|]; [congruence | reflexivity].
Qed.

Lemma count_rstrip_other (sp : ascii -> bool) (c : ascii) (s : string) :
  sp c = false -> count c (rstrip_with sp s) = count c s.
Proof.
  intros Hc. induction s as [|a s IH]; simpl; [reflexivity|].
  destruct (sp a && is_empty (rstrip_with sp s)) eqn:E; simpl.
  - apply andb_true_iff in E as (Ea & Er).
    destruct (rstrip_with sp s); [|discriminate]. simpl in IH. rewrite <- IH.
    destruct (Ascii.eqb_spec a c) as [->|]; [congruence | reflexivity].
  - now rewrite IH.
Qed.

Lemma count_strip_other (sp : ascii -> bool) (c : ascii) (s : string) :
  sp c = false -> count c (strip_with sp s) = count c s.
Proof.
  intros Hc. unfold strip_with.
  now rewrite (count_rstrip_other sp c _ Hc), (count_lstrip_other sp c _ Hc).
Qed.

(** [float()] rejects a text with a colon in it. *)
Lemma float_of_str_colon (s : string) :
  0 < count ":" s -> is_Raise (float_of_str s) = true.
Proof.
  intros H. unfold float_of_str.
  destruct (float_underscores "000" (strip_with is_num_space s)) as [t|] eqn:E;
    [|reflexivity].
  apply float_underscores_colon in E.
  rewrite (count_strip_other is_num_space ":" s eq_refl) in E.
  destruct (read_sign t) as [neg body] eqn:Es.
  apply read_sign_colon in Es.
  rewrite (float_body_colon neg body) by lia. reflexivity.
Qed.

Lemma not_NA_colon (t : string) :
  0 < count ":" t -> is_empty t || String.eqb (upper t) "N/A" = false.
Proof.
  intros H. destruct t as [|c t]; [simpl in H; lia|]. simpl is_empty.
  apply String.eqb_neq. intros E. apply upper_NA in E.
  destruct E as [E | [E | [E | E]]]; rewrite E in H; simpl in H; lia.
Qed.

Lemma fields3 (t a b c : string) :
  t = a ++ ":" ++ b ++ ":" ++ c ->
  count ":" a = 0 -> count ":" b = 0 -> count ":" c = 0 ->
  count ":" t = 2 /\ split ":" t = [a; b; c].
Proof.
  intros -> Ha Hb Hc. split.
  - rewrite !count_append, Ha, Hb, Hc. reflexivity.
  - change (a ++ ":" ++ b ++ ":" ++ c) with (a ++ String ":" (b ++ String ":" c)).
    now rewrite (split_app ":" a _ Ha), (split_app ":" b _ Hb), (split_no_sep ":" c Hc).
Qed.

Lemma fields2 (t a b : string) :
  t = a ++ ":" ++ b ->
  count ":" a = 0 -> count ":" b = 0 ->
  count ":" t = 1 /\ split1 ":" t = [a; b].
Proof.
  intros -> Ha Hb. split.
  - rewrite !count_append, Ha, Hb. reflexivity.
  - change (a ++ ":" ++ b) with (a ++ String ":" b). now rewrite (split1_app ":" a _ Ha).
Qed.

(** The three branches of [parse_time_to_seconds], for every text. *)
Lemma parse_time_three_fields (s a b c : string) :
  strip s = a ++ ":" ++ b ++ ":" ++ c ->
  count ":" a = 0 -> count ":" b = 0 -> count ":" c = 0 ->
  parse_time_to_seconds s
  = match int_of_str a, int_of_str b, float_of_str c with
    | Ok x, Ok y, Ok z =>
        match int_add_float (x * 3600 + y * 60) z with
        | Ok f => Ok (Some f)
        | Raise e => Raise e
        end
    | _, _, _ => Ok None
    end.
Proof.
  intros Ht Ha Hb Hc. destruct (fields3 _ _ _ _ Ht Ha Hb Hc) as (Hn & Hs).
  unfold parse_time_to_seconds. rewrite (not_NA_colon (strip s)) by lia.
  rewrite Hn, Hs. simpl Nat.eqb. cbv iota. simpl unpack3.
  change (Ok (a, b, c) ≫= ?k) with (k (a, b, c)). cbv beta iota.
  destruct (int_of_str a) as [x|e1] eqn:Ea;
    [|destruct (int_of_str_raises _ _ Ea) as (m1 & ->); reflexivity].
  destruct (int_of_str b) as [y|e2] eqn:Eb;
    [|destruct (int_of_str_raises _ _ Eb) as (m2 & ->); reflexivity].
  destruct (float_of_str c) as [z|e3] eqn:Ec;
    [|destruct (float_of_str_raises _ _ Ec) as (m3 & ->); reflexivity].
  repeat (rewrite bind_Ok; cbv beta).
  destruct (int_add_float (x * 3600 + y * 60) z) as [f|e4] eqn:Ef; [reflexivity|].
  destruct (int_add_float_raises _ _ _ Ef) as (m4 & ->). reflexivity.
Qed.

Lemma parse_time_two_fields (s a b : string) :
  strip s = a ++ ":" ++ b ->
  count ":" a = 0 -> count ":" b = 0 ->
  parse_time_to_seconds s
  = match int_of_str a, float_of_str b with
    | Ok x, Ok z =>
        match int_add_float (x * 60) z with
        | Ok f => Ok (Some f)
        | Raise e => Raise e
        end
    | _, _ => Ok None
    end.
Proof.
  intros Ht Ha Hb. destruct (fields2 _ _ _ Ht Ha Hb) as (Hn & Hs).
  unfold parse_time_to_seconds. rewrite (not_NA_colon (strip s)) by lia.
  rewrite Hn, Hs. simpl Nat.eqb. cbv iota. simpl unpack2.
  change (Ok (a, b) ≫= ?k) with (k (a, b)). cbv beta iota.
  destruct (int_of_str a) as [x|e1] eqn:Ea;
    [|destruct (int_of_str_raises _ _ Ea) as (m1 & ->); reflexivity].
  destruct (float_of_str b) as [z|e3] eqn:Ec;
    [|destruct (float_of_str_raises _ _ Ec) as (m3 & ->); reflexivity].
  repeat (rewrite bind_Ok; cbv beta).
  destruct (int_add_float (x * 60) z) as [f|e4] eqn:Ef; [reflexivity|].
  destruct (int_add_float_raises _ _ _ Ef) as (m4 & ->). reflexivity.
Qed.

Lemma parse_time_one_field (s : string) :
  count ":" (strip s) = 0 ->
  parse_time_to_seconds s
  = if is_empty (strip s) || String.eqb (upper (strip s)) "N/A" then Ok None
    else match float_of_str (strip s) with
         | Ok z => Ok (Some z)
         | Raise _ => Ok None
         end.
Proof.
  intros Hn. unfold parse_time_to_seconds.
  destruct (is_empty (strip s) || String.eqb (upper (strip s)) "N/A") eqn:E;
    [reflexivity|].
  rewrite Hn. simpl Nat.eqb. cbv iota.
  destruct (float_of_str (strip s)) as [z|e3] eqn:Ec; [reflexivity|].
  destruct (float_of_str_raises _ _ Ec) as (m3 & ->). reflexivity.
Qed.

Lemma parse_time_many_colons (s : string) :
  3 <= count ":" (strip s) -> parse_time_to_seconds s = Ok None.
Proof.
  intros Hn. unfold parse_time_to_seconds.
  rewrite (not_NA_colon (strip s)) by lia.
  destruct (count ":" (strip s) =? 2)%nat eqn:E2; [apply Nat.eqb_eq in E2; lia|].
  destruct (count ":" (strip s) =? 1)%nat eqn:E1; [apply Nat.eqb_eq in E1; lia|].
  pose proof (float_of_str_colon (strip s) ltac:(lia)) as Hr.
  destruct (float_of_str (strip s)) as [z|e3] eqn:Ec; [discriminate|].
  destruct (float_of_str_raises _ _ Ec) as (m3 & ->). reflexivity.
Qed.

(** C2, as the code has it.  The examples hold, with 323.4, 3900.0 and 45.0
    the floats nearest to these numbers.  A blank text and N/A in any
    letter case give an absent value.  A text in one of the formats
    H:MM:SS, MM:SS and seconds (fields of digits, the seconds with an
    optional fraction) gives the float sum of the whole seconds of the
    hours and minutes and of the float nearest to the seconds field, as
    long as that whole number converts to a float.  For every text, by the
    number of its colons: with more than two the value is absent; with two
    or one the fields go to [int()], the last one to [float()], and the
    value is absent as soon as one of them is rejected, the float sum when
    all are accepted, whatever their form; with none the text goes to
    [float()], absent when rejected.  So abc, 5:, 1:2:3:4 and 1.5:30 give
    an absent value, and a sign, an exponent, inf, nan, underscores between
    digits and white space around a field are accepted.  No [ValueError]
    of a conversion leaves the function. *)
Theorem parse_time_to_seconds_spec :
  parse_time_to_seconds "5:23.4" = Ok (Some (float_of_decimal false 3234 (-1)))
  /\ parse_time_to_seconds "1:05:00" = Ok (Some (float_of_decimal false 3900 0))
  /\ parse_time_to_seconds "45" = Ok (Some (float_of_decimal false 45 0))
  /\ parse_time_to_seconds "" = Ok None
  /\ parse_time_to_seconds "N/A" = Ok None
  /\ (forall s : string, all_space s = true -> parse_time_to_seconds s = Ok None)
  /\ (forall s : string,
        strip s = "N/A" \/ strip s = "n/a" \/ strip s = "N/a" \/ strip s = "n/A" ->
        parse_time_to_seconds s = Ok None)
  /\ (forall (h m sec : string) (x : float),
        is_number h = true -> String.length h <= max_str_digits ->
        is_number m = true -> String.length m <= max_str_digits ->
        spec_seconds sec = true ->
        float_of_int (digits_value h * 3600 + digits_value m * 60) = Ok x ->
        parse_time_to_seconds (h ++ ":" ++ m ++ ":" ++ sec)
        = Ok (Some (SFadd prec emax x (seconds_value sec))))
  /\ (forall (m sec : string) (x : float),
        is_number m = true -> String.length m <= max_str_digits ->
        spec_seconds sec = true ->
        float_of_int (digits_value m * 60) = Ok x ->
        parse_time_to_seconds (m ++ ":" ++ sec)
        = Ok (Some (SFadd prec emax x (seconds_value sec))))
  /\ (forall sec : string,
        spec_seconds sec = true ->
        parse_time_to_seconds sec = Ok (Some (seconds_value sec)))
  /\ (forall (s : string) (e : exn),
        parse_time_to_seconds s = Raise e -> exists msg, e = OverflowError msg)
  /\ (forall s : string,
        3 <= count ":" (strip s) -> parse_time_to_seconds s = Ok None)
  /\ (forall s a b c : string,
        strip s = a ++ ":" ++ b ++ ":" ++ c ->
        count ":" a = 0 -> count ":" b = 0 -> count ":" c = 0 ->
        parse_time_to_seconds s
        = match int_of_str a, int_of_str b, float_of_str c with
          | Ok x, Ok y, Ok z =>
              match int_add_float (x * 3600 + y * 60) z with
              | Ok f => Ok (Some f)
              | Raise e => Raise e
              end
          | _, _, _ => Ok None
          end)
  /\ (forall s a b : string,
        strip s = a ++ ":" ++ b ->
        count ":" a = 0 -> count ":" b = 0 ->
        parse_time_to_seconds s
        = match int_of_str a, float_of_str b with
          | Ok x, Ok z =>
              match int_add_float (x * 60) z with
              | Ok f => Ok (Some f)
              | Raise e => Raise e
              end
          | _, _ => Ok None
          end)
  /\ (forall s : string,
        count ":" (strip s) = 0 ->
        parse_time_to_seconds s
        = if is_empty (strip s) || String.eqb (upper (strip s)) "N/A" then Ok None
          else match float_of_str (strip s) with
               | Ok z => Ok (Some z)
               | Raise _ => Ok None
               end)
  /\ (forall s a b c : string,
        strip s = a ++ ":" ++ b ++ ":" ++ c ->
        count ":" a = 0 -> count ":" b = 0 -> count ":" c = 0 ->
        is_Raise (int_of_str a) || is_Raise (int_of_str b) || is_Raise (float_of_str c)
        = true ->
        parse_time_to_seconds s = Ok None)
  /\ (forall s a b : string,
        strip s = a ++ ":" ++ b ->
        count ":" a = 0 -> count ":" b = 0 ->
        is_Raise (int_of_str a) || is_Raise (float_of_str b) = true ->
        parse_time_to_seconds s = Ok None)
  /\ (forall s : string,
        count ":" (strip s) = 0 -> is_Raise (float_of_str (strip s)) = true ->
        parse_time_to_seconds s = Ok None)
  /\ parse_time_to_seconds "abc" = Ok None
  /\ parse_time_to_seconds "5:" = Ok None
  /\ parse_time_to_seconds "1:2:3:4" = Ok None
  /\ parse_time_to_seconds "1.5:30" = Ok None
  /\ parse_time_to_seconds "-5" = Ok (Some (float_of_decimal true 5 0))
  /\ parse_time_to_seconds "1e3" = Ok (Some (float_of_decimal false 1000 0))
  /\ parse_time_to_seconds "inf" = Ok (Some (S754_infinity false))
  /\ parse_time_to_seconds "nan" = Ok (Some S754_nan)
  /\ parse_time_to_seconds "1_0:3_0" = Ok (Some (float_of_decimal false 630 0))
  /\ parse_time_to_seconds " 1 : 30 " = Ok (Some (float_of_decimal false 90 0)).
Proof.
  split; [vm_compute; reflexivity|]. split; [vm_compute; reflexivity|].
  split; [vm_compute; reflexivity|]. split; [reflexivity|]. split; [reflexivity|].
  split; [|split; [|split; [|split; [|split; [|split]]]]].
  - intros s H. apply strip_empty in H. unfold parse_time_to_seconds. now rewrite H.
  - intros s H. apply upper_NA in H. unfold parse_time_to_seconds.
    rewrite H. simpl. now rewrite orb_true_r.
  - exact parse_hours_minutes_seconds.
  - exact parse_minutes_seconds.
  - exact parse_seconds_only.
  - exact parse_time_raises.
  - split; [exact parse_time_many_colons|].
    split; [exact parse_time_three_fields|].
    split; [exact parse_time_two_fields|].
    split; [exact parse_time_one_field|].
    split; [|split; [|split]].
    + intros s a b c Ht Ha Hb Hc H.
      rewrite (parse_time_three_fields s a b c Ht Ha Hb Hc).
      destruct (int_of_str a); [|reflexivity].
      destruct (int_of_str b); [|reflexivity].
      destruct (float_of_str c); [discriminate H | reflexivity].
    + intros s a b Ht Ha Hb H.
      rewrite (parse_time_two_fields s a b Ht Ha Hb).
      destruct (int_of_str a); [|reflexivity].
      destruct (float_of_str b); [discriminate H | reflexivity].
    + intros s Hn H. rewrite (parse_time_one_field s Hn).
      destruct (is_empty (strip s) || String.eqb (upper (strip s)) "N/A"); [reflexivity|].
      destruct (float_of_str (strip s)); [discriminate H | reflexivity].
    + repeat split; vm_compute; reflexivity.
Qed.

Lemma parse_time_to_seconds_spec_witness :
  parse_time_to_seconds "   " = Ok None
  /\ parse_time_to_seconds " n/a " = Ok None
  /\ (exists x : float,
        float_of_int (digits_value "1" * 3600 + digits_value "05" * 60) = Ok x
        /\ parse_time_to_seconds ("1" ++ ":" ++ "05" ++ ":" ++ "00")
           = Ok (Some (SFadd prec emax x (seconds_value "00"))))
  /\ (exists x : float,
        float_of_int (digits_value "5" * 60) = Ok x
        /\ parse_time_to_seconds ("5" ++ ":" ++ "23.4")
           = Ok (Some (SFadd prec emax x (seconds_value "23.4"))))
  /\ parse_time_to_seconds "45" = Ok (Some (seconds_value "45"))
  /\ parse_time_to_seconds "1:2:3:4" = Ok None
  /\ parse_time_to_seconds " 1:xx:30 " = Ok None
  /\ parse_time_to_seconds "5:2x" = Ok None
  /\ parse_time_to_seconds "fast" = Ok None.
Proof.
  destruct parse_time_to_seconds_spec
    as (_ & _ & _ & _ & _ & Hblank & Hna & Hhms & Hms & Hs & _ & Hmany & _ & _ & _
        & Hr3 & Hr2 & Hr1 & _).
  split; [|split; [|split; [|split; [|split; [|split; [|split; [|split]]]]]]].
  - apply Hblank. reflexivity.
  - apply Hna. right. left. reflexivity.
  - eexists. split; [vm_compute; reflexivity|].
    apply Hhms; try reflexivity; unfold max_str_digits; simpl; lia.
  - eexists. split; [vm_compute; reflexivity|].
    apply Hms; try reflexivity; unfold max_str_digits; simpl; lia.
  - apply Hs. reflexivity.
  - apply Hmany. vm_compute. lia.
  - apply (Hr3 " 1:xx:30 " "1" "xx" "30"); reflexivity.
  - apply (Hr2 "5:2x" "5" "2x"); reflexivity.
  - apply Hr1; reflexivity.
Defined.

(** C2 as stated fails: the texts inf and 1e3 are in none of the three
    formats, and [float()] reads them, so the result is not absent. *)
Lemma parse_time_to_seconds_spec_counterexample :
  spec_time_format "inf" = false
  /\ parse_time_to_seconds "inf" = Ok (Some (S754_infinity false))
  /\ spec_time_format "1e3" = false
  /\ parse_time_to_seconds "1e3" = Ok (Some (float_of_decimal false 1000 0)).
Proof. repeat split; vm_compute; reflexivity. Qed.

(** A minutes field of 401 digits: the text is in the format MM:SS, and the
    addition of the minutes to the seconds raises [OverflowError], which
    [except ValueError] does not catch. *)
Example parse_time_overflow :
  spec_time_format (one_and_zeros 400 ++ ":00") = true
  /\ parse_time_to_seconds (one_and_zeros 400 ++ ":00")
     = Raise (OverflowError "int too large to convert to float").
Proof. split; vm_compute; reflexivity. Qed.

(** * Further properties *)

(** ** White space around a cell *)

Lemma lstrip_with_head (sp : ascii -> bool) (s : string) :
  lstrip_with sp s = ""
  \/ exists c t, lstrip_with sp s = String c t /\ sp c = false.
Proof.
  induction s as [|c s IH]; simpl; [now left|].
  destruct (sp c) eqn:E; [exact IH | right; eauto].
Qed.

Lemma rstrip_with_idempotent (sp : ascii -> bool) (s : string) :
  rstrip_with sp (rstrip_with sp s) = rstrip_with sp s.
Proof.
  induction s as [|c s IH]; simpl; [reflexivity|].
  destruct (sp c && is_empty (rstrip_with sp s)) eqn:E; [reflexivity|].
  simpl. now rewrite IH, E.
Qed.

Lemma strip_with_head (sp : ascii -> bool) (s : string) :
  strip_with sp s = ""
  \/ exists c t, strip_with sp s = String c t /\ sp c = false.
Proof.
  unfold strip_with. destruct (lstrip_with_head sp s) as [-> | (c & t & -> & Hc)].
  - now left.
  - right. simpl. rewrite Hc. simpl. eauto.
Qed.

Lemma strip_with_idempotent (sp : ascii -> bool) (s : string) :
  strip_with sp (strip_with sp s) = strip_with sp s.
Proof.
  destruct (strip_with_head sp s) as [E | (c & t & E & Hc)].
  - now rewrite E.
  - unfold strip_with at 1. rewrite E. simpl lstrip_with. rewrite Hc, <- E.
    unfold strip_with. apply rstrip_with_idempotent.
Qed.

Lemma strip_idempotent (s : string) : strip (strip s) = strip s.
Proof. apply strip_with_idempotent. Qed.

(** X1.  The white space around a cell never matters: [safe],
    [parse_time_to_seconds] and [image_url] give the same result for a text
    and for the text trimmed. *)
Theorem surrounding_space_ignored (cfg : config) (s : string) :
  safe (Some (strip s)) = safe (Some s)
  /\ parse_time_to_seconds (strip s) = parse_time_to_seconds s
  /\ image_url cfg (strip s) = image_url cfg s.
Proof.
  unfold safe, safe_default, parse_time_to_seconds, image_url. simpl or_empty.
  now rewrite !strip_idempotent.
Qed.

Lemma safe_cases (v : option string) :
  safe v = "N/A" \/ (safe v = strip (or_empty v) /\ strip (or_empty v) <> "").
Proof.
  unfold safe, safe_default. destruct (is_empty (strip (or_empty v))) eqn:E.
  - now left.
  - right. split; [reflexivity | now apply is_empty_false].
Qed.

(** X2.  What [safe] returns is never empty, carries no white space at its
    ends, and is left as it is by a second call. *)
Theorem safe_normal_form (v : option string) :
  safe v <> ""
  /\ strip (safe v) = safe v
  /\ safe (Some (safe v)) = safe v.
Proof.
  assert (Hs : strip (safe v) = safe v).
  { destruct (safe_cases v) as [-> | (-> & _)]; [reflexivity | apply strip_idempotent]. }
  assert (Hne : safe v <> "").
  { destruct (safe_cases v) as [-> | (-> & H)]; [discriminate | exact H]. }
  split; [exact Hne|]. split; [exact Hs|].
  unfold safe at 1. unfold safe_default. simpl or_empty. rewrite Hs.
  apply is_empty_false in Hne. now rewrite Hne.
Qed.

(** X3.  A record whose time is absent or blank gives a point whose time
    reads N/A and whose seconds are absent; no exception is raised. *)
Theorem blank_time_point (strptime : string -> string -> option Dt.date) (r : record) :
  all_space (or_empty (r !! "Time")) = true ->
  exists p : point,
    make_point strptime r = Ok p /\ pt_time p = "N/A" /\ pt_seconds p = None.
Proof.
  intros H. unfold make_point.
  assert (Ht : safe (r !! "Time") = "N/A").
  { apply strip_empty in H. unfold safe, safe_default. now rewrite H. }
  rewrite Ht. eexists. split; [reflexivity|]. auto.
Qed.

Lemma blank_time_point_witness :
  (exists p : point,
     make_point Dt.strptime untimed_record = Ok p
     /\ pt_time p = "N/A" /\ pt_seconds p = None)
  /\ (exists p : point,
        make_point Dt.strptime blank_time_record = Ok p
        /\ pt_time p = "N/A" /\ pt_seconds p = None).
Proof.
  split.
  - apply (blank_time_point Dt.strptime untimed_record). reflexivity.
  - apply (blank_time_point Dt.strptime blank_time_record). reflexivity.
Defined.

(** ** The year of a date *)

(** X4.  [year_from_date] returns the empty text or a year of four
    characters, 20 and two digits, and returns its own result when it is
    given that result. *)
Theorem year_from_date_shape (s : string) :
  (year_from_date s = ""
   \/ exists d1 d2 : ascii,
        year_from_date s = String "2" (String "0" (String d1 (String d2 "")))
        /\ is_digit d1 = true /\ is_digit d2 = true)
  /\ year_from_date (year_from_date s) = year_from_date s.
Proof.
  assert (H : year_from_date s = ""
              \/ exists d1 d2 : ascii,
                   year_from_date s = String "2" (String "0" (String d1 (String d2 "")))
                   /\ is_digit d1 = true /\ is_digit d2 = true).
  { destruct (year_from_date s) as [|c y] eqn:E; [now left|]. right.
    destruct (year_from_date_Some s _ E ltac:(discriminate))
      as (_ & _ & d1 & d2 & _ & Hy & H1 & H2 & _).
    exists d1, d2. auto. }
  split; [exact H|].
  destruct H as [-> | (d1 & d2 & -> & H1 & H2)]; [reflexivity|].
  unfold year_from_date. simpl is_empty. cbv iota.
  rewrite search_year_unfold. cbv iota.
  unfold year_here. rewrite H1, H2. reflexivity.
Qed.

(** ** Records *)

Lemma zip_record_absent (header r : row) (acc : record) (k : string) :
  ~ In k header -> zip_record header r acc !! k = acc !! k.
Proof.
  revert r acc; induction header as [|k0 header IH]; intros r acc Hk; simpl; [reflexivity|].
  rewrite IH by (intros H; apply Hk; now right).
  apply lookup_insert_ne. intros ->. apply Hk. now left.
Qed.

Lemma nth_tl (i : nat) (r : row) : nth i (tl r) "" = nth (S i) r "".
Proof. destruct r; [now destruct i | reflexivity]. Qed.

Lemma zip_record_last (header r : row) (acc : record) (k : string) (i : nat) :
  nth_error header i = Some k ->
  (forall j, i < j -> nth_error header j <> Some k) ->
  zip_record header r acc !! k = Some (nth i r "").
Proof.
  revert r acc i; induction header as [|k0 header IH]; intros r acc i Hi Hlast.
  - now destruct i.
  - destruct i as [|i]; simpl in Hi.
    + injection Hi as ->. simpl. rewrite zip_record_absent.
      * rewrite lookup_insert_eq. now destruct r.
      * intros H. apply In_nth_error in H as (j & Hj).
        apply (Hlast (S j)); [lia | exact Hj].
    + simpl. rewrite (IH (tl r) _ i Hi).
      * now rewrite nth_tl.
      * intros j Hj. apply (Hlast (S j)). lia.
Qed.

(** X5.  The record made of a header and a row maps each column name to
    the cell below it; a cell the row does not have reads as the empty
    text; of two columns with the same name the later one counts; a name
    that is not in the header is not in the record. *)
Theorem zip_record_lookup (header r : row) (k : string) :
  (forall i : nat,
     nth_error header i = Some k ->
     (forall j, i < j -> nth_error header j <> Some k) ->
     zip_record header r ∅ !! k = Some (nth i r ""))
  /\ (~ In k header -> zip_record header r ∅ !! k = None).
Proof.
  split.
  - intros i. apply zip_record_last.
  - intros H. now rewrite zip_record_absent.
Qed.

Lemma zip_record_lookup_witness :
  zip_record ["Meet Name"; "Date"; "Time"; "Date"] ["City Meet"; "3/1/2024"; "5:23.4"] ∅
    !! "Date" = Some (nth 3 ["City Meet"; "3/1/2024"; "5:23.4"] "")
  /\ zip_record ["Meet Name"; "Date"] ["City Meet"] ∅ !! "Grade" = None.
Proof.
  split.
  - apply (zip_record_lookup ["Meet Name"; "Date"; "Time"; "Date"]
             ["City Meet"; "3/1/2024"; "5:23.4"] "Date"); [reflexivity|].
    intros [|[|[|[|[|j]]]]] Hj; try lia; discriminate.
  - apply (zip_record_lookup ["Meet Name"; "Date"] ["City Meet"] "Grade").
    intros [H | [H | []]]; discriminate H.
Defined.

Lemma any_nonblank_false (r : row) :
  any_nonblank r = false <-> Forall (fun cell => all_space cell = true) r.
Proof.
  unfold any_nonblank. induction r as [|c r IH]; simpl.
  - split; [constructor | reflexivity].
  - rewrite orb_false_iff, IH, negb_false_iff, is_empty_true, strip_empty.
    split; [intros [? ?]; now constructor | intros H; inversion H; auto].
Qed.

(** X6.  [parse_results] makes one record of every row that has a cell
    with something else than white space, in the order of the rows, and
    none of the other rows: as many records as there are such rows. *)
Theorem parse_results_rows (results_header : row) (results_rows : list row) :
  parse_results results_header results_rows
  = map (fun r => zip_record results_header r ∅) (List.filter any_nonblank results_rows)
  /\ List.length (parse_results results_header results_rows)
     = List.length (List.filter any_nonblank results_rows)
  /\ (forall r : row,
        any_nonblank r = false <-> Forall (fun cell => all_space cell = true) r).
Proof.
  assert (H : parse_results results_header results_rows
              = map (fun r => zip_record results_header r ∅)
                  (List.filter any_nonblank results_rows)).
  { induction results_rows as [|r l IH]; simpl; [reflexivity|].
    destruct (any_nonblank r); simpl; now rewrite IH. }
  split; [exact H|]. split; [now rewrite H, length_map|]. exact any_nonblank_false.
Qed.

(** X7.  Only the first bio row is read.  Without a bio row, or without an
    "Athlete Name" column, the name the page is given is empty and
    [replace_first_h1] leaves the document as it is. *)
Theorem bio_without_name (bio_header : row) (bio_rows : list row) (html_text : string) :
  bio_rows = [] \/ ~ In "Athlete Name" bio_header ->
  parse_primary_bio bio_header bio_rows !! "Athlete Name" = None
  /\ replace_first_h1 html_text
       (strip (or_empty (parse_primary_bio bio_header bio_rows !! "Athlete Name")))
     = Ok html_text.
Proof.
  intros H.
  assert (E : parse_primary_bio bio_header bio_rows !! "Athlete Name" = None).
  { destruct H as [-> | H]; [reflexivity|].
    unfold parse_primary_bio. destruct bio_rows; [reflexivity|].
    now rewrite zip_record_absent. }
  split; [exact E|]. now rewrite E.
Qed.

Lemma bio_without_name_witness :
  parse_primary_bio ["Athlete Name"] [] !! "Athlete Name" = None
  /\ replace_first_h1 "<h1>Old</h1>"
       (strip (or_empty (parse_primary_bio ["Athlete Name"] [] !! "Athlete Name")))
     = Ok "<h1>Old</h1>".
Proof. apply (bio_without_name ["Athlete Name"] [] "<h1>Old</h1>"). now left. Defined.

(** ** Sections in the expected order *)

Lemma find_marker_app (name : string) (l1 l2 : list row) (r : row) :
  Forall (fun x => is_marker name x = false) l1 ->
  is_marker name r = true ->
  find_marker name (l1 ++ r :: l2)%list = Some (List.length l1).
Proof.
  intros H Hr. induction H as [|x l1 Hx _ IH]; simpl.
  - now rewrite Hr.
  - now rewrite Hx, IH.
Qed.

Lemma skipn_app_exact {A : Type} (l1 l2 : list A) :
  skipn (List.length l1) (l1 ++ l2)%list = l2.
Proof. induction l1 as [|x l1 IH]; simpl; [reflexivity | exact IH]. Qed.

Lemma firstn_app_exact {A : Type} (l1 l2 : list A) :
  firstn (List.length l1) (l1 ++ l2)%list = l1.
Proof. induction l1 as [|x l1 IH]; simpl; [reflexivity | now rewrite IH]. Qed.

(** X8.  A CSV laid out as the docstring says is read back as it was
    written: rows before the "Bio" marker row are ignored, the row after
    the marker is the bio header, the rows up to the first "Results" marker
    row are the bio rows, the row after that marker is the results header
    and all the rows after it are the results rows. *)
Theorem read_sections_layout
    (before bio_rows results_rows : list row)
    (bio_marker bio_header results_marker results_header : row) :
  Forall (fun x => is_marker "Bio" x = false) before ->
  is_marker "Bio" bio_marker = true ->
  Forall (fun x => is_marker "Results" x = false)
    (before ++ bio_marker :: bio_header :: bio_rows)%list ->
  is_marker "Results" results_marker = true ->
  read_sections
    (before ++ bio_marker :: bio_header :: bio_rows
     ++ results_marker :: results_header :: results_rows)%list
  = Ok (bio_header, bio_rows, results_header, results_rows).
Proof.
  intros Hb Hbm Hr Hrm. unfold read_sections.
  rewrite (find_marker_app "Bio" before _ bio_marker Hb Hbm).
  set (rest := (results_marker :: results_header :: results_rows)%list).
  set (rows := (before ++ bio_marker :: bio_header :: bio_rows ++ rest)%list).
  assert (R1 : rows = ((before ++ bio_marker :: bio_header :: bio_rows) ++ rest)%list)
    by (unfold rows; rewrite <- app_assoc; reflexivity).
  assert (R2 : rows = ((before ++ [bio_marker]) ++ bio_header :: bio_rows ++ rest)%list)
    by (unfold rows; rewrite <- app_assoc; reflexivity).
  assert (R3 : rows = ((before ++ [bio_marker; bio_header]) ++ bio_rows ++ rest)%list)
    by (unfold rows; rewrite <- app_assoc; reflexivity).
  assert (R4 : rows = ((before ++ bio_marker :: bio_header :: bio_rows ++ [results_marker])
                       ++ results_header :: results_rows)%list).
  { unfold rows, rest. rewrite <- !app_assoc. simpl. rewrite <- app_assoc. reflexivity. }
  assert (R5 : rows = ((before ++ bio_marker :: bio_header :: bio_rows
                        ++ [results_marker; results_header]) ++ results_rows)%list).
  { unfold rows, rest. rewrite <- !app_assoc. simpl. rewrite <- app_assoc. reflexivity. }
  assert (F : find_marker "Results" rows
              = Some (List.length (before ++ bio_marker :: bio_header :: bio_rows)%list)).
  { rewrite R1. unfold rest. now apply find_marker_app. }
  rewrite F.
  assert (E1 : index_row rows (List.length before + 1) = Ok bio_header).
  { unfold index_row. rewrite R2.
    replace (List.length before + 1) with (List.length (before ++ [bio_marker])%list)
      by (rewrite length_app; reflexivity).
    now rewrite nth_error_app2, Nat.sub_diag by lia. }
  assert (E2 : index_row rows (List.length (before ++ bio_marker :: bio_header :: bio_rows)%list + 1)
               = Ok results_header).
  { unfold index_row. rewrite R4.
    replace (List.length (before ++ bio_marker :: bio_header :: bio_rows)%list + 1)
      with (List.length (before ++ bio_marker :: bio_header :: bio_rows
                         ++ [results_marker])%list)
      by (rewrite !length_app; simpl; rewrite length_app; simpl; lia).
    now rewrite nth_error_app2, Nat.sub_diag by lia. }
  assert (S1 : slice rows (List.length before + 2)
                 (List.length (before ++ bio_marker :: bio_header :: bio_rows)%list)
               = bio_rows).
  { unfold slice. rewrite R3.
    replace (List.length before + 2)
      with (List.length (before ++ [bio_marker; bio_header])%list)
      by (rewrite length_app; reflexivity).
    rewrite skipn_app_exact.
    replace (List.length (before ++ bio_marker :: bio_header :: bio_rows)%list
             - List.length (before ++ [bio_marker; bio_header])%list)
      with (List.length bio_rows)
      by (rewrite !length_app; simpl; lia).
    apply firstn_app_exact. }
  assert (S2 : slice_from rows
                 (List.length (before ++ bio_marker :: bio_header :: bio_rows)%list + 2)
               = results_rows).
  { unfold slice_from. rewrite R5.
    replace (List.length (before ++ bio_marker :: bio_header :: bio_rows)%list + 2)
      with (List.length (before ++ bio_marker :: bio_header :: bio_rows
                         ++ [results_marker; results_header])%list)
      by (rewrite !length_app; simpl; rewrite length_app; simpl; lia).
    apply skipn_app_exact. }
  rewrite E1, E2, S1, S2. reflexivity.
Qed.

Lemma read_sections_layout_witness :
  read_sections
    ([["Exported"; "2025"]] ++ ["Bio"] :: ["Athlete Name"] :: [["Garrett Comer"]]
     ++ [" Results "] :: ["Meet Name"; "Date"] :: [["City Meet"; "3/1/2025"]; ["Bio"]])%list
  = Ok (["Athlete Name"], [["Garrett Comer"]], ["Meet Name"; "Date"],
        [["City Meet"; "3/1/2025"]; ["Bio"]]).
Proof.
  apply (read_sections_layout [["Exported"; "2025"]] [["Garrett Comer"]]
           [["City Meet"; "3/1/2025"]; ["Bio"]]
           ["Bio"] ["Athlete Name"] [" Results "] ["Meet Name"; "Date"]).
  - repeat constructor.
  - reflexivity.
  - repeat constructor.
  - reflexivity.
Defined.

(** ** The points of the series *)

Lemma skipped_passes (cfg : config) (r : record) :
  skipped cfg r = negb (passes_year_filter cfg r).
Proof.
  unfold skipped, passes_year_filter. destruct (YEAR_FILTER cfg); reflexivity.
Qed.

Lemma filter_not_skipped (cfg : config) (records : list record) :
  List.filter (fun r => negb (skipped cfg r)) records = filtered_records cfg records.
Proof.
  unfold filtered_records. apply filter_ext. intros r.
  now rewrite skipped_passes, negb_involutive.
Qed.

Section SeriesPoints.
Variable strptime : string -> string -> option Dt.date.

Lemma make_point_inv (r : record) (p : point) :
  make_point strptime r = Ok p -> is_point_of strptime r p.
Proof.
  unfold make_point. destruct (parse_time_to_seconds (safe (r !! "Time"))) as [sec|e] eqn:E;
    [|discriminate].
  intros [= <-]. unfold is_point_of. simpl. auto.
Qed.

Lemma make_point_raises (r : record) (e : exn) :
  make_point strptime r = Raise e ->
  parse_time_to_seconds (safe (r !! "Time")) = Raise e.
Proof.
  unfold make_point. destruct (parse_time_to_seconds (safe (r !! "Time"))) as [sec|e'];
    [discriminate | now intros [= ->]].
Qed.

Lemma race_points_inv (cfg : config) (records : list record) (points : list point) :
  race_points strptime cfg records = Ok points ->
  Forall2 (is_point_of strptime) (filtered_records cfg records) points.
Proof.
  rewrite <- filter_not_skipped.
  revert points; induction records as [|r l IH]; intros points; simpl.
  - intros [= <-]. constructor.
  - destruct (skipped cfg r) eqn:E; simpl; [apply IH|].
    destruct (make_point strptime r) as [p|e] eqn:Ep; [|discriminate].
    destruct (race_points strptime cfg l) as [ps|e] eqn:Eps; [|discriminate].
    intros [= <-]. constructor; [now apply make_point_inv | now apply IH].
Qed.

Lemma race_points_raises (cfg : config) (records : list record) (e : exn) :
  race_points strptime cfg records = Raise e ->
  exists r, In r (filtered_records cfg records)
            /\ parse_time_to_seconds (safe (r !! "Time")) = Raise e.
Proof.
  rewrite <- filter_not_skipped.
  induction records as [|r l IH]; simpl; [discriminate|].
  destruct (skipped cfg r) eqn:E; simpl; [exact IH|].
  destruct (make_point strptime r) as [p|e'] eqn:Ep.
  - destruct (race_points strptime cfg l) as [ps|e''] eqn:Eps; [discriminate|].
    intros [= ->]. destruct (IH eq_refl) as (r' & Hin & Hr'). exists r'. auto.
  - intros [= ->]. exists r. split; [now left | now apply make_point_raises].
Qed.

(** X9.  The two builders work on the same records: when the series is
    returned it has as many points as there are meet cards. *)
Theorem series_and_cards_agree (cfg : config) (records : list record)
    (series : list series_point) :
  build_race_series strptime cfg records = Ok series ->
  List.length series = List.length (meet_cards cfg records)
  /\ List.length series = List.length (filtered_records cfg records).
Proof.
  unfold build_race_series.
  destruct (race_points strptime cfg records) as [points|e] eqn:E; [|discriminate].
  intros [= <-]. apply race_points_inv in E. apply Forall2_length in E.
  rewrite length_map, (Permutation_length (py_sort_perm sort_key_of key_lt points)).
  unfold meet_cards. rewrite length_cards_from. auto.
Qed.

(** X10.  Every point of the returned series is made of one of the records
    that pass the season filter: its date, meet and time are the values of
    that record under [safe] (so none of them is empty), and its seconds
    are what [parse_time_to_seconds] makes of its time. *)
Theorem series_points_origin (cfg : config) (records : list record)
    (series : list series_point) :
  build_race_series strptime cfg records = Ok series ->
  Forall (fun sp =>
            (exists r, In r records /\ passes_year_filter cfg r = true
                       /\ sp_date sp = safe (r !! "Date")
                       /\ sp_meet sp = safe (r !! "Meet Name")
                       /\ sp_time sp = safe (r !! "Time"))
            /\ sp_date sp <> "" /\ sp_meet sp <> "" /\ sp_time sp <> ""
            /\ parse_time_to_seconds (sp_time sp) = Ok (sp_seconds sp))
    series.
Proof.
  unfold build_race_series.
  destruct (race_points strptime cfg records) as [points|e] eqn:E; [|discriminate].
  intros [= <-]. apply race_points_inv in E.
  apply List.Forall_forall. intros sp Hsp.
  apply in_map_iff in Hsp as (p & <- & Hp).
  apply (Permutation_in _ (py_sort_perm sort_key_of key_lt points)) in Hp.
  assert (Hr : exists r, In r (filtered_records cfg records) /\ is_point_of strptime r p).
  { clear -E Hp. induction E as [|r q l l' Hrq _ IH]; [contradiction|].
    destruct Hp as [<- | Hp].
    - exists r. split; [now left | exact Hrq].
    - destruct (IH Hp) as (r' & Hin & Hr'). exists r'. split; [now right | exact Hr']. }
  destruct Hr as (r & Hin & Hd & Hm & Ht & Hs & _).
  unfold filtered_records in Hin. apply filter_In in Hin as (Hin & Hpass).
  simpl. rewrite Hd, Hm, Ht.
  split; [exists r; auto 10|].
  split; [apply safe_normal_form|]. split; [apply safe_normal_form|].
  split; [apply safe_normal_form | exact Hs].
Qed.

Lemma make_point_raise (r : record) (e : exn) :
  parse_time_to_seconds (safe (r !! "Time")) = Raise e -> make_point strptime r = Raise e.
Proof. intros H. unfold make_point. now rewrite H. Qed.

(** The loop stops at the first record whose time raises. *)
Lemma race_points_first_raise (cfg : config) (before after : list record)
  (r : record) (e : exn) :
  Forall (fun x => passes_year_filter cfg x = true ->
                   is_Raise (parse_time_to_seconds (safe (x !! "Time"))) = false) before ->
  passes_year_filter cfg r = true ->
  parse_time_to_seconds (safe (r !! "Time")) = Raise e ->
  race_points strptime cfg (before ++ r :: after)%list = Raise e.
Proof.
  intros Hb Hp Hr. induction Hb as [|x before Hx Hb IH]; simpl.
  - rewrite skipped_passes, Hp. simpl. now rewrite (make_point_raise r e Hr).
  - rewrite skipped_passes. destruct (passes_year_filter cfg x) eqn:Ex; simpl; [|exact IH].
    destruct (make_point_Ok strptime x (Hx eq_refl)) as (p & -> & _).
    simpl. now rewrite IH.
Qed.

Lemma first_raising_record (cfg : config) (records : list record) (r : record) :
  In r records -> passes_year_filter cfg r = true ->
  is_Raise (parse_time_to_seconds (safe (r !! "Time"))) = true ->
  exists (before after : list record) (r' : record) (e : exn),
    records = (before ++ r' :: after)%list
    /\ Forall (fun x => passes_year_filter cfg x = true ->
                        is_Raise (parse_time_to_seconds (safe (x !! "Time"))) = false)
         before
    /\ passes_year_filter cfg r' = true
    /\ parse_time_to_seconds (safe (r' !! "Time")) = Raise e.
Proof.
  intros Hin Hp Hr. induction records as [|x l IH]; [contradiction|].
  destruct (passes_year_filter cfg x
            && is_Raise (parse_time_to_seconds (safe (x !! "Time")))) eqn:Ex.
  - apply andb_true_iff in Ex as (Ex1 & Ex2).
    destruct (parse_time_to_seconds (safe (x !! "Time"))) as [?|e] eqn:E; [discriminate|].
    exists [], l, x, e. repeat split; auto.
  - destruct Hin as [-> | Hin]; [rewrite Hp, Hr in Ex; discriminate|].
    destruct (IH Hin) as (before & after & r' & e & -> & Hb & Hp' & Hr').
    exists (x :: before), after, r', e. repeat split; auto.
    constructor; [|exact Hb]. intros Hx. rewrite Hx in Ex. exact Ex.
Qed.

(** X11.  [build_race_series] raises only [OverflowError], and only when
    the time of a record that passes the season filter makes
    [parse_time_to_seconds] raise it; and one such time is enough: if the
    time of any record that passes the filter raises, no series is
    returned, and the exception is the one of the first such record. *)
Theorem series_raises (cfg : config) (records : list record) (e : exn) :
  (build_race_series strptime cfg records = Raise e ->
   (exists msg, e = OverflowError msg)
   /\ exists r, In r records /\ passes_year_filter cfg r = true
                /\ parse_time_to_seconds (safe (r !! "Time")) = Raise e)
  /\ (forall (before after : list record) (r : record),
        records = (before ++ r :: after)%list ->
        Forall (fun x => passes_year_filter cfg x = true ->
                         is_Raise (parse_time_to_seconds (safe (x !! "Time"))) = false)
          before ->
        passes_year_filter cfg r = true ->
        parse_time_to_seconds (safe (r !! "Time")) = Raise e ->
        build_race_series strptime cfg records = Raise e)
  /\ (forall r : record,
        In r records -> passes_year_filter cfg r = true ->
        is_Raise (parse_time_to_seconds (safe (r !! "Time"))) = true ->
        exists e' : exn, build_race_series strptime cfg records = Raise e').
Proof.
  split; [|split].
  - unfold build_race_series.
    destruct (race_points strptime cfg records) as [points|e'] eqn:E; [discriminate|].
    intros [= ->]. apply race_points_raises in E as (r & Hin & Hr).
    split; [now apply parse_time_raises in Hr|].
    unfold filtered_records in Hin. apply filter_In in Hin as (Hin & Hpass).
    exists r. auto.
  - intros before after r -> Hb Hp Hr. unfold build_race_series.
    now rewrite (race_points_first_raise cfg before after r e Hb Hp Hr).
  - intros r Hin Hp Hr.
    destruct (first_raising_record cfg records r Hin Hp Hr)
      as (before & after & r' & e' & -> & Hb & Hp' & Hr').
    exists e'. unfold build_race_series.
    now rewrite (race_points_first_raise cfg before after r' e' Hb Hp' Hr').
Qed.
End SeriesPoints.

Lemma series_and_cards_agree_witness :
  List.length (map public (py_sort sort_key_of key_lt (map sample_point dated_records)))
  = List.length (meet_cards source_config dated_records)
  /\ List.length (map public (py_sort sort_key_of key_lt (map sample_point dated_records)))
     = List.length (filtered_records source_config dated_records).
Proof.
  apply (series_and_cards_agree Dt.strptime source_config dated_records).
  vm_compute. reflexivity.
Defined.

Lemma series_points_origin_witness :
  Forall (fun sp =>
            (exists r, In r two_records /\ passes_year_filter (season "2025") r = true
                       /\ sp_date sp = safe (r !! "Date")
                       /\ sp_meet sp = safe (r !! "Meet Name")
                       /\ sp_time sp = safe (r !! "Time"))
            /\ sp_date sp <> "" /\ sp_meet sp <> "" /\ sp_time sp <> ""
            /\ parse_time_to_seconds (sp_time sp) = Ok (sp_seconds sp))
    [public (sample_point (dated "3/1/2025"))].
Proof.
  apply (series_points_origin Dt.strptime (season "2025") two_records).
  vm_compute. reflexivity.
Defined.

Lemma series_raises_witness :
  ((exists msg, OverflowError "int too large to convert to float" = OverflowError msg)
   /\ exists r, In r [dated "3/1/2025"; overflowing_record]
                /\ passes_year_filter source_config r = true
                /\ parse_time_to_seconds (safe (r !! "Time"))
                   = Raise (OverflowError "int too large to convert to float"))
  /\ build_race_series Dt.strptime source_config
       ([dated "3/1/2025"] ++ overflowing_record :: [dated "3/1/2024"])%list
     = Raise (OverflowError "int too large to convert to float")
  /\ exists e' : exn,
       build_race_series Dt.strptime source_config [dated "3/1/2025"; overflowing_record]
       = Raise e'.
Proof.
  split; [|split].
  - apply (series_raises Dt.strptime source_config [dated "3/1/2025"; overflowing_record]).
    vm_compute. reflexivity.
  - apply (proj1 (proj2 (series_raises Dt.strptime source_config
                           ([dated "3/1/2025"] ++ overflowing_record :: [dated "3/1/2024"])%list
                           (OverflowError "int too large to convert to float")))
             [dated "3/1/2025"] [dated "3/1/2024"] overflowing_record).
    + reflexivity.
    + constructor; [intros _; vm_compute; reflexivity | constructor].
    + reflexivity.
    + vm_compute. reflexivity.
  - apply (proj2 (proj2 (series_raises Dt.strptime source_config
                           [dated "3/1/2025"; overflowing_record]
                           (OverflowError "int too large to convert to float")))
             overflowing_record).
    + right. left. reflexivity.
    + reflexivity.
    + vm_compute. reflexivity.
Defined.

(** ** The heading, once more *)

Lemma starts_with_prefix_only (p s x : string) :
  String.length p <= String.length s ->
  starts_with p (s ++ x) = starts_with p s.
Proof.
  revert s; induction p as [|a p IH]; intros s H; [reflexivity|].
  destruct s as [|b s]; simpl in *; [lia|].
  rewrite IH by lia. reflexivity.
Qed.

(** The first occurrence of a text does not depend on what follows it. *)
Lemma find_same_prefix (p a x y : string) :
  find p (a ++ p ++ x) = Some (String.length a) ->
  find p (a ++ p ++ y) = Some (String.length a).
Proof.
  induction a as [|c a IH]; simpl String.append; intros H.
  - rewrite find_unfold. now rewrite starts_with_app.
  - rewrite find_unfold in H. rewrite find_unfold.
    assert (E : forall z, starts_with p (String c (a ++ p ++ z))
                          = starts_with p (String c a ++ p)).
    { intros z. change (String c (a ++ p ++ z)) with (String c a ++ p ++ z).
      rewrite <- append_assoc. apply starts_with_prefix_only.
      rewrite length_append. lia. }
    rewrite E in H. rewrite E.
    destruct (starts_with p (String c a ++ p)); [discriminate|].
    destruct (find p (a ++ p ++ x)) as [k|] eqn:Ek; [|discriminate].
    simpl in H. injection H as ->. now rewrite IH.
Qed.

Lemma find_after_plain (c : ascii) (p plain rest : string) :
  count c plain = 0 ->
  find (String c p) (plain ++ String c p ++ rest) = Some (String.length plain).
Proof.
  intros H. apply find_first. intros j Hj.
  revert j Hj; induction plain as [|a plain IH]; intros j Hj; simpl in Hj; [lia|].
  simpl in H. destruct (Ascii.eqb_spec a c) as [->|Hac]; [discriminate|].
  destruct j as [|j]; simpl.
  - destruct (Ascii.eqb_spec c a); [congruence | reflexivity].
  - apply IH; [exact H | lia].
Qed.

Lemma replace_first_h1_blank (html_text new_name : string) :
  all_space new_name = true -> replace_first_h1 html_text new_name = Ok html_text.
Proof.
  intros H. apply strip_empty in H. unfold replace_first_h1. now rewrite H.
Qed.

(** The replacement for a name that is not blank and has no backslash. *)
Lemma replace_first_h1_plain (html_text new_name : string) :
  all_space new_name = false ->
  count bs new_name = 0 ->
  replace_first_h1 html_text new_name
  = match search_h1 html_text with
    | None => Ok html_text
    | Some (a, b) =>
        Ok (take a html_text
            ++ ("<h1>" ++ escape (strip new_name) ++ "</h1>")
            ++ drop b html_text)
    end.
Proof.
  intros Hname Hbs. unfold replace_first_h1.
  destruct (is_empty (strip new_name)) eqn:E.
  { apply is_empty_true, strip_empty in E. congruence. }
  unfold sub_first_h1. rewrite (heading_template_plain _ Hbs), bind_Ok.
  destruct (search_h1 html_text) as [[a b]|]; [|reflexivity].
  now rewrite expand_literals.
Qed.

Lemma replace_first_h1_found (html_text new_name : string) (i k : nat) :
  all_space new_name = false ->
  count bs new_name = 0 ->
  find "<h1>" html_text = Some i ->
  find "</h1>" (drop (i + 4) html_text) = Some k ->
  replace_first_h1 html_text new_name
  = Ok (take i html_text ++ "<h1>" ++ escape (strip new_name) ++ "</h1>"
        ++ drop (i + 4 + k + 5) html_text).
Proof.
  intros Hname Hbs H1 H2. rewrite (replace_first_h1_plain _ _ Hname Hbs).
  rewrite (search_h1_found _ _ _ H1 H2).
  replace (i + (4 + k + 5)) with (i + 4 + k + 5) by lia.
  now rewrite !append_assoc.
Qed.

(** X12.  Writing the same name twice changes nothing more: for a name
    without a backslash, [replace_first_h1] applied to its own result
    returns that result. *)
Theorem replace_first_h1_idempotent (html_text new_name out : string) :
  count bs new_name = 0 ->
  replace_first_h1 html_text new_name = Ok out ->
  replace_first_h1 out new_name = Ok out.
Proof.
  intros Hbs Hout.
  destruct (all_space new_name) eqn:Hblank.
  { now apply replace_first_h1_blank. }
  destruct (find "<h1>" html_text) as [i|] eqn:Ei.
  - destruct (find "</h1>" (drop (i + 4) html_text)) as [k|] eqn:Ek.
    + rewrite (replace_first_h1_found _ _ i k Hblank Hbs Ei Ek) in Hout.
      set (name := escape (strip new_name)) in *.
      set (tail := drop (i + 4 + k + 5) html_text) in *.
      assert (Hout' : out = take i html_text ++ "<h1>" ++ name ++ "</h1>" ++ tail)
        by congruence.
      clear Hout. subst out.
      pose proof (find_Some _ _ _ Ei) as (Hs & Hlen & _).
      assert (Hi : String.length (take i html_text) = i) by (apply length_take; lia).
      assert (Ht : html_text = take i html_text ++ "<h1>" ++ drop (i + 4) html_text).
      { rewrite <- (take_drop i html_text) at 1. f_equal.
        rewrite (starts_with_split _ _ Hs) at 1. now rewrite drop_drop. }
      assert (F1 : find "<h1>" (take i html_text ++ "<h1>" ++ name ++ "</h1>" ++ tail)
                   = Some i).
      { pose proof (find_same_prefix "<h1>" (take i html_text) (drop (i + 4) html_text)
                      (name ++ "</h1>" ++ tail)) as G.
        rewrite <- Ht, Hi in G. exact (G Ei). }
      assert (D : drop (i + 4) (take i html_text ++ "<h1>" ++ name ++ "</h1>" ++ tail)
                  = name ++ "</h1>" ++ tail).
      { rewrite <- drop_drop. rewrite <- Hi at 1. rewrite drop_app_length. reflexivity. }
      assert (F2 : find "</h1>"
                     (drop (i + 4) (take i html_text ++ "<h1>" ++ name ++ "</h1>" ++ tail))
                   = Some (String.length name)).
      { rewrite D. apply (find_after_plain "<" "/h1>").
        unfold name. apply escape_no_markup. }
      rewrite (replace_first_h1_found _ _ i _ Hblank Hbs F1 F2). fold name.
      assert (T : take i (take i html_text ++ "<h1>" ++ name ++ "</h1>" ++ tail)
                  = take i html_text).
      { rewrite <- Hi at 1. apply take_app_length. }
      assert (R : drop (i + 4 + String.length name + 5)
                    (take i html_text ++ "<h1>" ++ name ++ "</h1>" ++ tail) = tail).
      { replace (i + 4 + String.length name + 5)
          with ((i + 4) + String.length (name ++ "</h1>"))
          by (rewrite length_append; simpl; lia).
        rewrite <- drop_drop, D, <- append_assoc. apply drop_app_length. }
      now rewrite T, R.
    + rewrite (replace_first_h1_plain _ _ Hblank Hbs) in Hout.
      rewrite (search_h1_no_close _ _ Ei Ek) in Hout. injection Hout as <-.
      rewrite (replace_first_h1_plain _ _ Hblank Hbs).
      now rewrite (search_h1_no_close _ _ Ei Ek).
  - rewrite (replace_first_h1_plain _ _ Hblank Hbs) in Hout.
    rewrite (search_h1_no_open _ Ei) in Hout. injection Hout as <-.
    rewrite (replace_first_h1_plain _ _ Hblank Hbs).
    now rewrite (search_h1_no_open _ Ei).
Qed.

Lemma replace_first_h1_idempotent_witness :
  replace_first_h1 "<body><h1>Garrett Comer</h1><h1>Other</h1></body>" "Garrett Comer"
  = Ok "<body><h1>Garrett Comer</h1><h1>Other</h1></body>".
Proof.
  apply (replace_first_h1_idempotent "<body><h1>Old Name</h1><h1>Other</h1></body>"
           "Garrett Comer"); vm_compute; reflexivity.
Defined.

(** ** Escape sequences in the name *)

Lemma replace_append (c : ascii) (r s t : string) :
  replace c r (s ++ t) = replace c r s ++ replace c r t.
Proof.
  induction s as [|a s IH]; simpl; [reflexivity|].
  destruct (Ascii.eqb a c); rewrite IH; [now rewrite append_assoc | reflexivity].
Qed.

Lemma escape_append (s t : string) : escape (s ++ t) = escape s ++ escape t.
Proof. unfold escape. now rewrite !replace_append. Qed.

(** A letter or a backslash is written as it is by [escape]. *)
Lemma escape_letter (c : ascii) (s : string) :
  is_ascii_letter c = true \/ c = bs ->
  escape (String c s) = String c (escape s).
Proof.
  intros H. change (String c s) with (String c "" ++ s). rewrite escape_append.
  assert (E : escape (String c "") = String c "").
  { destruct H as [H | ->]; [|reflexivity].
    destruct c as [[] [] [] [] [] [] [] []]; try discriminate H; reflexivity. }
  now rewrite E.
Qed.

Lemma letter_not_digit (c : ascii) :
  is_ascii_letter c = true -> is_digit c = false /\ Ascii.eqb c "0" = false.
Proof.
  destruct c as [[] [] [] [] [] [] [] []]; vm_compute; intros H;
    try discriminate H; auto.
Qed.

Lemma parse_template_plain_prefix (plain s : string) :
  count bs plain = 0 ->
  Re.parse_template_from None (plain ++ s)
  = (rest ← Re.parse_template_from None s; Ok (literals plain ++ rest)%list).
Proof.
  induction plain as [|c plain IH]; simpl String.append.
  - intros _. destruct (Re.parse_template_from None s); reflexivity.
  - simpl count. destruct (Ascii.eqb_spec c bs) as [->|Hc]; [discriminate|].
    intros H. simpl in H. simpl Re.parse_template_from.
    destruct (Ascii.eqb_spec c bs) as [?|_]; [contradiction|]. simpl negb. cbv iota.
    rewrite (IH H). destruct (Re.parse_template_from None s); reflexivity.
Qed.

Lemma parse_template_bad_escape (c : ascii) (rest : string) :
  is_ascii_letter c = true -> Re.escapes c = None -> Ascii.eqb c "g" = false ->
  Re.parse_template_from None (String bs (String c rest)) = Raise (ReError "bad escape").
Proof.
  intros Hl He Hg. destruct (letter_not_digit c Hl) as (Hd & H0).
  simpl. now rewrite Hg, H0, Hd, He, Hl.
Qed.

(** X13.  A backslash in the name followed by a letter that is no escape
    of the replacement templates makes [replace_first_h1] raise, whatever
    the document is, with or without a heading in it. *)
Theorem replace_first_h1_bad_escape (html_text new_name pre post : string) (c : ascii) :
  strip new_name = pre ++ String bs (String c post) ->
  count bs pre = 0 ->
  is_ascii_letter c = true ->
  Re.escapes c = None ->
  Ascii.eqb c "g" = false ->
  replace_first_h1 html_text new_name = Raise (ReError "bad escape").
Proof.
  intros Hname Hpre Hl He Hg. unfold replace_first_h1. rewrite Hname.
  assert (Hne : is_empty (pre ++ String bs (String c post)) = false)
    by (destruct pre; reflexivity).
  rewrite Hne. unfold sub_first_h1, Re.parse_template.
  rewrite escape_append, (escape_letter bs) by now right.
  rewrite (escape_letter c) by now left.
  replace ("<h1>" ++ (escape pre ++ String bs (String c (escape post))) ++ "</h1>")
    with (("<h1>" ++ escape pre) ++ String bs (String c (escape post ++ "</h1>")))
    by (rewrite !append_assoc; reflexivity).
  rewrite parse_template_plain_prefix.
  - now rewrite (parse_template_bad_escape c _ Hl He Hg).
  - rewrite count_append, count_bs_escape, Hpre. reflexivity.
Qed.

Lemma replace_first_h1_bad_escape_witness :
  replace_first_h1 "<p>no heading here</p>" name_with_bad_escape
  = Raise (ReError "bad escape").
Proof.
  apply (replace_first_h1_bad_escape "<p>no heading here</p>" name_with_bad_escape
           "Ada" "" "d"); reflexivity.
Defined.

(** ** The behavior scripts *)

Lemma replace_from_skip (old new : string) (k : nat) (s : string) :
  replace_from old new k s = replace_from old new 0 (drop k s).
Proof.
  revert s; induction k as [|k IH]; intros s; [now destruct s|].
  destruct s as [|c s]; [reflexivity|]. simpl. apply IH.
Qed.

Lemma replace_text_absent (old new s : string) :
  find old s = None -> replace_text old new s = s.
Proof.
  unfold replace_text. induction s as [|c s IH]; [reflexivity|].
  rewrite find_unfold. destruct (starts_with old (String c s)) eqn:E; [discriminate|].
  destruct (find old s); [discriminate|]. intros _.
  simpl replace_from. rewrite E. now rewrite IH.
Qed.

(** [str.replace] at the first occurrence: the text before it stays, the
    occurrence becomes the new text, and what follows is treated the same
    way. *)
Lemma replace_text_first (old new s : string) (i : nat) :
  old <> "" ->
  find old s = Some i ->
  replace_text old new s
  = take i s ++ new ++ replace_text old new (drop (i + String.length old) s).
Proof.
  intros Hold. unfold replace_text. revert i; induction s as [|c s IH]; intros i.
  - rewrite find_unfold. destruct old; [congruence | simpl; discriminate].
  - rewrite find_unfold. destruct (starts_with old (String c s)) eqn:E.
    + intros [= <-]. simpl replace_from. rewrite E. simpl take. simpl String.append.
      rewrite replace_from_skip. do 2 f_equal.
      destruct old as [|a old]; [congruence|]. simpl. now rewrite Nat.sub_0_r.
    + destruct (find old s) as [k|] eqn:Ek; [|discriminate]. intros [= <-].
      simpl replace_from. rewrite E. rewrite (IH k eq_refl). reflexivity.
Qed.

Lemma contains_find (p s : string) :
  contains p s = match find p s with Some _ => true | None => false end.
Proof. reflexivity. Qed.

(** X14.  [inject_scripts] puts the script block at the end of a document
    without [</body>]; in a document with one [</body>] it puts the block
    and a line feed right before it and keeps the text before and after. *)
Theorem inject_scripts_placement (html_text race_series_json : string) :
  (find "</body>" html_text = None ->
   inject_scripts html_text race_series_json
   = html_text ++ script_block race_series_json)
  /\ (forall i : nat,
        find "</body>" html_text = Some i ->
        find "</body>" (drop (i + 7) html_text) = None ->
        inject_scripts html_text race_series_json
        = take i html_text ++ script_block race_series_json ++ nl ++ "</body>"
          ++ drop (i + 7) html_text).
Proof.
  unfold inject_scripts. rewrite contains_find. split.
  - intros H. now rewrite H.
  - intros i H1 H2. rewrite H1. simpl negb. cbv iota.
    rewrite (replace_text_first "</body>" _ _ i ltac:(discriminate) H1).
    change (String.length "</body>") with 7.
    rewrite (replace_text_absent _ _ _ H2). now rewrite !append_assoc.
Qed.

Lemma inject_scripts_placement_witness :
  inject_scripts "<html><body><p>x</p></html>" "[]"
  = "<html><body><p>x</p></html>" ++ script_block "[]"
  /\ inject_scripts "<html><body><p>x</p></body></html>" "[]"
     = take 20 "<html><body><p>x</p></body></html>" ++ script_block "[]" ++ nl ++ "</body>"
       ++ drop (20 + 7) "<html><body><p>x</p></body></html>".
Proof.
  split.
  - apply (inject_scripts_placement "<html><body><p>x</p></html>" "[]"). reflexivity.
  - apply (inject_scripts_placement "<html><body><p>x</p></body></html>" "[]");
      reflexivity.
Defined.

(** X15.  Every [</body>] gets the script block, not only the first: a
    document with two of them comes out with two copies of the block. *)
Theorem inject_scripts_every_marker (html_text race_series_json : string) (i k : nat) :
  find "</body>" html_text = Some i ->
  find "</body>" (drop (i + 7) html_text) = Some k ->
  find "</body>" (drop (i + 7 + (k + 7)) html_text) = None ->
  inject_scripts html_text race_series_json
  = take i html_text ++ script_block race_series_json ++ nl ++ "</body>"
    ++ take k (drop (i + 7) html_text)
    ++ script_block race_series_json ++ nl ++ "</body>"
    ++ drop (i + 7 + (k + 7)) html_text.
Proof.
  intros H1 H2 H3. unfold inject_scripts. rewrite contains_find, H1. simpl negb. cbv iota.
  rewrite (replace_text_first "</body>" _ _ i ltac:(discriminate) H1).
  change (String.length "</body>") with 7.
  rewrite (replace_text_first "</body>" _ _ k ltac:(discriminate) H2).
  change (String.length "</body>") with 7.
  rewrite drop_drop, (replace_text_absent _ _ _ H3). now rewrite !append_assoc.
Qed.

Lemma inject_scripts_every_marker_witness :
  inject_scripts "<b>one</body><i>two</body>end" "[]"
  = take 6 "<b>one</body><i>two</body>end" ++ script_block "[]" ++ nl ++ "</body>"
    ++ take 6 (drop (6 + 7) "<b>one</body><i>two</body>end")
    ++ script_block "[]" ++ nl ++ "</body>"
    ++ drop (6 + 7 + (6 + 7)) "<b>one</body><i>two</body>end".
Proof.
  apply (inject_scripts_every_marker "<b>one</body><i>two</body>end" "[]" 6 6);
    reflexivity.
Defined.

(** ** The sort is determined *)

Section SortUnique.
Context {A K : Type} (key : A -> K) (lt : K -> K -> bool).
Hypothesis lt_asym : forall a b, lt a b = true -> lt b a = false.
Hypothesis le_trans : forall a b c, lt b a = false -> lt c b = false -> lt c a = false.

Lemma lt_irrefl (k : K) : lt k k = false.
Proof. destruct (lt k k) eqn:E; [|reflexivity]. now rewrite (lt_asym _ _ E) in E. Qed.

Lemma same_class_refl (x : A) : same_class lt (key x) (key x) = true.
Proof. unfold same_class. now rewrite lt_irrefl. Qed.

Lemma stable_In (l1 l2 : list A) (x : A) :
  (forall k, List.filter (fun a => same_class lt k (key a)) l1
             = List.filter (fun a => same_class lt k (key a)) l2) ->
  In x l1 -> In x l2.
Proof.
  intros H Hx.
  assert (Hf : In x (List.filter (fun a => same_class lt (key x) (key a)) l1))
    by (apply filter_In; split; [exact Hx | apply same_class_refl]).
  rewrite H in Hf. now apply filter_In in Hf.
Qed.

Lemma sorted_head_least (x y : A) (l : list A) :
  StronglySorted (not_after key lt) (x :: l) -> In y (x :: l) -> lt (key y) (key x) = false.
Proof.
  intros Hs [<- | Hy]; [apply lt_irrefl|].
  apply StronglySorted_inv in Hs as (_ & Hf).
  now apply (proj1 (List.Forall_forall _ _) Hf).
Qed.

(** Two sorted lists with the same elements in every class, in the same
    order, are the same list. *)
Lemma sorted_stable_unique (l1 l2 : list A) :
  StronglySorted (not_after key lt) l1 ->
  StronglySorted (not_after key lt) l2 ->
  (forall k, List.filter (fun a => same_class lt k (key a)) l1
             = List.filter (fun a => same_class lt k (key a)) l2) ->
  l1 = l2.
Proof.
  revert l2; induction l1 as [|x l1 IH]; intros l2 S1 S2 H.
  - destruct l2 as [|y l2]; [reflexivity|].
    assert (Hy : In y []) by (apply (stable_In (y :: l2) []); [now symmetry | now left]).
    contradiction.
  - destruct l2 as [|y l2].
    { assert (Hx : In x []) by (apply (stable_In (x :: l1) []); [exact H | now left]).
      contradiction. }
    assert (Hxy : lt (key y) (key x) = false).
    { apply (sorted_head_least x y l1 S1).
      apply (stable_In (y :: l2) (x :: l1)); [now symmetry | now left]. }
    assert (Hyx : lt (key x) (key y) = false).
    { apply (sorted_head_least y x l2 S2).
      apply (stable_In (x :: l1) (y :: l2)); [exact H | now left]. }
    assert (Exy : x = y).
    { pose proof (H (key x)) as Hk. simpl in Hk. rewrite same_class_refl in Hk.
      unfold same_class at 2 in Hk. rewrite Hxy, Hyx in Hk. simpl in Hk. congruence. }
    subst y. f_equal.
    apply StronglySorted_inv in S1 as (S1 & _). apply StronglySorted_inv in S2 as (S2 & _).
    apply IH; [exact S1 | exact S2|].
    intros k. pose proof (H k) as Hk. simpl in Hk.
    destruct (same_class lt k (key x)); congruence.
Qed.

Lemma same_class_no_lt (k : K) (a b : A) :
  same_class lt k (key a) = true -> same_class lt k (key b) = true ->
  lt (key a) (key b) = false.
Proof.
  unfold same_class. intros [Ha1 Ha2]%andb_true_iff [Hb1 Hb2]%andb_true_iff.
  apply negb_true_iff in Ha1, Ha2, Hb1, Hb2. eauto.
Qed.

(** A list that is sorted and keeps the order of the input within every
    class is the list [py_sort] returns. *)
Lemma py_sort_unique (l l' : list A) :
  StronglySorted (not_after key lt) l' ->
  (forall k, List.filter (fun a => same_class lt k (key a)) l'
             = List.filter (fun a => same_class lt k (key a)) l) ->
  l' = py_sort key lt l.
Proof.
  intros S H. apply sorted_stable_unique; [exact S | |].
  - now apply py_sort_sorted.
  - intros k. rewrite H. symmetry. apply py_sort_filter.
    intros a b. apply same_class_no_lt.
Qed.
End SortUnique.

Lemma ltb_neither (s t : string) :
  String.ltb s t = false -> String.ltb t s = false -> s = t.
Proof.
  unfold String.ltb. rewrite (String.compare_antisym s t).
  destruct (String.compare t s) eqn:E; simpl; try discriminate.
  intros _ _. symmetry. now apply String.compare_eq_iff.
Qed.

Lemma same_class_key (k : bool * string) (p : point) :
  same_class key_lt k (sort_key_of p)
  = Bool.eqb (fst k) (String.eqb (snd k) "") && String.eqb (pt_sort p) (snd k).
Proof.
  destruct k as [b s]. unfold same_class, sort_key_of, key_lt. simpl.
  destruct (String.eqb_spec (pt_sort p) s) as [->|Hne].
  - rewrite andb_true_r. destruct b, (String.eqb s ""); simpl;
      rewrite ?ltb_irrefl; reflexivity.
  - rewrite andb_false_r.
    destruct b, (String.eqb (pt_sort p) "") eqn:E; simpl; try reflexivity;
      destruct (String.ltb s (pt_sort p)) eqn:E1; simpl; try reflexivity;
      destruct (String.ltb (pt_sort p) s) eqn:E2; simpl; try reflexivity;
      exfalso; apply Hne; symmetry; now apply ltb_neither.
Qed.

(** X16.  The order of the series is determined by two facts: an
    arrangement of the points that is in ascending order of the keys and
    keeps, for every key, the points with that key in the order of the
    input, is the arrangement [points.sort] produces.  (So it does not
    matter by which stable algorithm the sort is done.) *)
Theorem stable_sort_determined (points arranged : list point) :
  StronglySorted (not_after sort_key_of key_lt) arranged ->
  (forall k : string,
     List.filter (fun p => String.eqb (pt_sort p) k) arranged
     = List.filter (fun p => String.eqb (pt_sort p) k) points) ->
  arranged = py_sort sort_key_of key_lt points.
Proof.
  intros S H. apply py_sort_unique; [exact key_lt_asym | exact key_le_trans | exact S |].
  intros k.
  rewrite (filter_ext _ _ (same_class_key k) arranged),
          (filter_ext _ _ (same_class_key k) points).
  destruct (Bool.eqb (fst k) (String.eqb (snd k) "")) eqn:E; simpl.
  - apply H.
  - clear. generalize arranged as l1, points as l2.
    assert (N : forall l : list point, List.filter (fun _ => false) l = [])
      by (induction l; auto).
    intros l1 l2. now rewrite !N.
Qed.

Lemma stable_sort_determined_witness :
  map sample_point [dated "2024-01-05"; dated "3/1/2025"; dated "Mar 1 2025"; dated "sometime"]
  = py_sort sort_key_of key_lt
      (map sample_point
         [dated "3/1/2025"; dated "sometime"; dated "2024-01-05"; dated "Mar 1 2025"]).
Proof.
  pose (p1 := sample_point (dated "2024-01-05")).
  pose (p2 := sample_point (dated "3/1/2025")).
  pose (p3 := sample_point (dated "Mar 1 2025")).
  pose (p4 := sample_point (dated "sometime")).
  assert (E1 : pt_sort p1 = "2024-01-05") by (vm_compute; reflexivity).
  assert (E2 : pt_sort p2 = "2025-03-01") by (vm_compute; reflexivity).
  assert (E3 : pt_sort p3 = "2025-03-01") by (vm_compute; reflexivity).
  assert (E4 : pt_sort p4 = "") by (vm_compute; reflexivity).
  change ([p1; p2; p3; p4] = py_sort sort_key_of key_lt [p2; p4; p1; p3]).
  clearbody p1 p2 p3 p4.
  apply stable_sort_determined.
  - repeat (constructor; [|repeat (constructor;
                [unfold not_after, sort_key_of; rewrite ?E1, ?E2, ?E3, ?E4; reflexivity|]);
              constructor]).
    constructor.
  - intros k. simpl. rewrite E1, E2, E3, E4.
    destruct (String.eqb_spec "2024-01-05" k) as [<-|]; [reflexivity|].
    destruct (String.eqb_spec "2025-03-01" k) as [<-|]; [reflexivity|].
    destruct (String.eqb_spec "" k) as [<-|]; reflexivity.
Defined.

(** ** The sort key follows the calendar *)

Lemma digit_compare (x y : nat) :
  (x < 10)%nat -> (y < 10)%nat -> Ascii.compare (digit x) (digit y) = Nat.compare x y.
Proof.
  intros Hx Hy.
  do 10 (destruct x as [|x]; [do 10 (destruct y as [|y]; [reflexivity|]); lia|]); lia.
Qed.

Lemma zero_pad_4 (n : nat) :
  (n < 100 * 100)%nat ->
  Dt.zero_pad 4 n
  = String (digit (n / 1000)) (String (digit (n / 100 mod 10))
      (String (digit (n / 10 mod 10)) (String (digit (n mod 10)) ""))).
Proof.
  intros H.
  assert (A : forallb (fun n => String.eqb (Dt.zero_pad 4 n)
      (String (digit (n / 1000)) (String (digit (n / 100 mod 10))
         (String (digit (n / 10 mod 10)) (String (digit (n mod 10)) "")))))
      (seq 0 (100 * 100)) = true) by (vm_compute; reflexivity).
  rewrite forallb_forall in A. apply String.eqb_eq, A, in_seq. lia.
Qed.

Lemma zero_pad_2 (n : nat) :
  (n < 100)%nat ->
  Dt.zero_pad 2 n = String (digit (n / 10)) (String (digit (n mod 10)) "").
Proof.
  intros H.
  assert (A : forallb (fun n => String.eqb (Dt.zero_pad 2 n)
      (String (digit (n / 10)) (String (digit (n mod 10)) "")))
      (seq 0 100) = true) by (vm_compute; reflexivity).
  rewrite forallb_forall in A. apply String.eqb_eq, A, in_seq. lia.
Qed.

Lemma digits_4 (n : nat) :
  (n < 100 * 100)%nat ->
  (n = 1000 * (n / 1000) + 100 * (n / 100 mod 10) + 10 * (n / 10 mod 10) + n mod 10
   /\ n / 1000 < 10 /\ n / 100 mod 10 < 10 /\ n / 10 mod 10 < 10 /\ n mod 10 < 10)%nat.
Proof.
  intros H.
  pose proof (Nat.div_mod n 10 ltac:(lia)).
  pose proof (Nat.div_mod (n / 10) 10 ltac:(lia)).
  pose proof (Nat.div_mod (n / 100) 10 ltac:(lia)).
  pose proof (Nat.mod_upper_bound n 10 ltac:(lia)).
  pose proof (Nat.mod_upper_bound (n / 10) 10 ltac:(lia)).
  pose proof (Nat.mod_upper_bound (n / 100) 10 ltac:(lia)).
  assert (E1 : (n / 10 / 10 = n / 100)%nat) by (rewrite Nat.Div0.div_div; reflexivity).
  assert (E2 : (n / 100 / 10 = n / 1000)%nat) by (rewrite Nat.Div0.div_div; reflexivity).
  assert ((n / 1000 < 10)%nat) by (apply Nat.Div0.div_lt_upper_bound; lia).
  rewrite E1 in *. rewrite E2 in *. lia.
Qed.

Lemma digits_2 (n : nat) :
  (n < 100)%nat -> (n = 10 * (n / 10) + n mod 10 /\ n / 10 < 10 /\ n mod 10 < 10)%nat.
Proof.
  intros H.
  pose proof (Nat.div_mod n 10 ltac:(lia)).
  pose proof (Nat.mod_upper_bound n 10 ltac:(lia)).
  assert ((n / 10 < 10)%nat) by (apply Nat.Div0.div_lt_upper_bound; lia).
  lia.
Qed.

(** A date of the calendar: what [date(y, m, d)] accepts. *)
Lemma make_date_bounds (y m d : nat) (dt : Dt.date) :
  Dt.make_date y m d = Some dt ->
  (Dt.year dt < 100 * 100 /\ Dt.month dt < 100 /\ Dt.day dt < 100)%nat.
Proof.
  unfold Dt.make_date.
  destruct (_ && _) eqn:E; [|discriminate]. intros [= <-]. simpl.
  repeat (apply andb_true_iff in E as (E & ?)).
  assert (Dt.days_in_month y m <= 31)%nat.
  { unfold Dt.days_in_month. destruct (Dt.is_leap y).
    all: do 12 (destruct m as [|m]; [lia|]); lia. }
  repeat match goal with H : (_ <=? _)%nat = true |- _ => apply Nat.leb_le in H end.
  assert (E9 : 9999%nat = (100 * 100 - 1)%nat) by reflexivity.
  rewrite E9 in *. lia.
Qed.

Lemma strptime_bounds (ds fmt : string) (dt : Dt.date) :
  Dt.strptime ds fmt = Some dt ->
  (Dt.year dt < 100 * 100 /\ Dt.month dt < 100 /\ Dt.day dt < 100)%nat.
Proof.
  unfold Dt.strptime. destruct (existsb _ _); [discriminate|].
  destruct (Dt.match_tokens _ _ _) as [|[f rest] ?]; [discriminate|].
  destruct (is_empty rest); [|discriminate]. apply make_date_bounds.
Qed.

Lemma first_date_bounds (ds : string) (fmts : list string) (dt : Dt.date) :
  first_date ds fmts = Some dt ->
  (Dt.year dt < 100 * 100 /\ Dt.month dt < 100 /\ Dt.day dt < 100)%nat.
Proof.
  induction fmts as [|fmt fmts IH]; simpl; [discriminate|].
  destruct (Dt.strptime ds fmt) eqn:E; [|exact IH].
  intros [= <-]. now apply strptime_bounds in E.
Qed.

Lemma first_format_date (ds : string) (fmts : list string) :
  first_format Dt.strptime ds fmts
  = match first_date ds fmts with Some d => Dt.isoformat d | None => "" end.
Proof.
  induction fmts as [|fmt fmts IH]; simpl; [reflexivity|].
  now destruct (Dt.strptime ds fmt).
Qed.

Lemma isoformat_digits (d : Dt.date) :
  (Dt.year d < 100 * 100 /\ Dt.month d < 100 /\ Dt.day d < 100)%nat ->
  Dt.isoformat d
  = String (digit (Dt.year d / 1000)) (String (digit (Dt.year d / 100 mod 10))
      (String (digit (Dt.year d / 10 mod 10)) (String (digit (Dt.year d mod 10))
      (String "-" (String (digit (Dt.month d / 10)) (String (digit (Dt.month d mod 10))
      (String "-" (String (digit (Dt.day d / 10)) (String (digit (Dt.day d mod 10)) ""))))))))).
Proof.
  intros (Hy & Hm & Hd). unfold Dt.isoformat.
  now rewrite (zero_pad_4 _ Hy), (zero_pad_2 _ Hm), (zero_pad_2 _ Hd).
Qed.

Lemma compare_dash : Ascii.compare "-" "-" = Eq.
Proof. reflexivity. Qed.

Lemma iso_digits_ltb (a1 b1 c1 e1 m1 n1 p1 q1 a2 b2 c2 e2 m2 n2 p2 q2 : nat) :
  (a1 < 10 /\ b1 < 10 /\ c1 < 10 /\ e1 < 10 /\ m1 < 10 /\ n1 < 10 /\ p1 < 10 /\ q1 < 10)%nat ->
  (a2 < 10 /\ b2 < 10 /\ c2 < 10 /\ e2 < 10 /\ m2 < 10 /\ n2 < 10 /\ p2 < 10 /\ q2 < 10)%nat ->
  String.ltb
    (String (digit a1) (String (digit b1) (String (digit c1) (String (digit e1)
      (String "-" (String (digit m1) (String (digit n1)
      (String "-" (String (digit p1) (String (digit q1) ""))))))))))
    (String (digit a2) (String (digit b2) (String (digit c2) (String (digit e2)
      (String "-" (String (digit m2) (String (digit n2)
      (String "-" (String (digit p2) (String (digit q2) "")))))))))) = true
  <-> (1000 * a1 + 100 * b1 + 10 * c1 + e1 < 1000 * a2 + 100 * b2 + 10 * c2 + e2
       \/ (1000 * a1 + 100 * b1 + 10 * c1 + e1 = 1000 * a2 + 100 * b2 + 10 * c2 + e2
           /\ (10 * m1 + n1 < 10 * m2 + n2
               \/ (10 * m1 + n1 = 10 * m2 + n2 /\ 10 * p1 + q1 < 10 * p2 + q2))))%nat.
Proof.
  intros (? & ? & ? & ? & ? & ? & ? & ?) (? & ? & ? & ? & ? & ? & ? & ?).
  unfold String.ltb. cbn [String.compare].
  rewrite compare_dash, !digit_compare by assumption.
  repeat match goal with
         | |- context [Nat.compare ?x ?y] =>
             destruct (Nat.compare_spec x y); cbn iota
         end;
    (split; [intros; try discriminate; lia | intros; try reflexivity; lia]).
Qed.

(** The textual order of two ISO dates is the order of the dates. *)
Lemma isoformat_ltb (d1 d2 : Dt.date) :
  (Dt.year d1 < 100 * 100 /\ Dt.month d1 < 100 /\ Dt.day d1 < 100)%nat ->
  (Dt.year d2 < 100 * 100 /\ Dt.month d2 < 100 /\ Dt.day d2 < 100)%nat ->
  String.ltb (Dt.isoformat d1) (Dt.isoformat d2) = true <-> date_before d1 d2.
Proof.
  intros B1 B2. rewrite (isoformat_digits d1 B1), (isoformat_digits d2 B2).
  destruct B1 as (Hy1 & Hm1 & Hd1), B2 as (Hy2 & Hm2 & Hd2).
  destruct (digits_4 _ Hy1) as (Ey1 & ? & ? & ? & ?).
  destruct (digits_4 _ Hy2) as (Ey2 & ? & ? & ? & ?).
  destruct (digits_2 _ Hm1) as (Em1 & ? & ?).
  destruct (digits_2 _ Hm2) as (Em2 & ? & ?).
  destruct (digits_2 _ Hd1) as (Ed1 & ? & ?).
  destruct (digits_2 _ Hd2) as (Ed2 & ? & ?).
  rewrite iso_digits_ltb by (repeat split; assumption).
  unfold date_before. lia.
Qed.

Lemma isoformat_eqb_empty (d : Dt.date) : String.eqb (Dt.isoformat d) "" = false.
Proof. apply String.eqb_neq, isoformat_nonempty. Qed.

(** X17.  Dated points are ordered by the calendar: when the dates of two
    records parse, to [d1] and [d2], the key of the first point is smaller
    than the key of the second exactly when [d1] is the earlier date, in
    whichever of the five formats each date is written. *)
Theorem dated_keys_chronological (r1 r2 : record) (p1 p2 : point) (d1 d2 : Dt.date) :
  make_point Dt.strptime r1 = Ok p1 ->
  make_point Dt.strptime r2 = Ok p2 ->
  first_date (strip (or_empty (r1 !! "Date"))) date_formats = Some d1 ->
  first_date (strip (or_empty (r2 !! "Date"))) date_formats = Some d2 ->
  key_lt (sort_key_of p1) (sort_key_of p2) = true <-> date_before d1 d2.
Proof.
  intros P1 P2 D1 D2.
  assert (S1 : pt_sort p1 = Dt.isoformat d1).
  { unfold make_point in P1. destruct (parse_time_to_seconds _); [|discriminate].
    simpl in P1. injection P1 as <-. simpl. unfold sort_key.
    now rewrite first_format_date, D1. }
  assert (S2 : pt_sort p2 = Dt.isoformat d2).
  { unfold make_point in P2. destruct (parse_time_to_seconds _); [|discriminate].
    simpl in P2. injection P2 as <-. simpl. unfold sort_key.
    now rewrite first_format_date, D2. }
  apply first_date_bounds in D1, D2.
  unfold key_lt, sort_key_of. simpl. rewrite S1, S2.
  rewrite !isoformat_eqb_empty. simpl.
  now apply isoformat_ltb.
Qed.

Lemma dated_keys_chronological_witness :
  key_lt (sort_key_of (sample_point (dated "Mar 1 2025")))
         (sort_key_of (sample_point (dated "3/2/25"))) = true
  <-> date_before {| Dt.year := 2025; Dt.month := 3; Dt.day := 1 |}
                  {| Dt.year := 2025; Dt.month := 3; Dt.day := 2 |}.
Proof.
  apply (dated_keys_chronological (dated "Mar 1 2025") (dated "3/2/25"));
    vm_compute; reflexivity.
Defined.

(** ** Anchors in the other order *)

(** X18.  When the performance-panel tag starts before the meet-grid
    opening tag ends (the panel comes first in the template),
    [inject_cards_into_template] removes nothing: the template from the
    panel tag to the end of the meet-grid tag is written twice, once before
    the cards and once after them. *)
Theorem inject_cards_panel_first (template_html cards_html : string) (s1 e1 s2 e2 : nat) :
  search_div "meet-grid" template_html = Some (s1, e1) ->
  search_div "performance-panel" template_html = Some (s2, e2) ->
  s2 < e1 ->
  exists pre twice post : string,
    template_html = pre ++ twice ++ post
    /\ String.length pre = s2
    /\ String.length twice = e1 - s2
    /\ inject_cards_into_template template_html cards_html
       = Ok (pre ++ twice ++ nl ++ cards_html ++ nl ++ twice ++ post).
Proof.
  intros Hg Hp Hord.
  destruct (search_div_bound _ _ _ _ Hg) as ((Hg1 & Hg2) & _).
  set (t := template_html) in *.
  exists (take s2 t), (take (e1 - s2) (drop s2 t)), (drop e1 t).
  assert (Hd : drop s2 t = take (e1 - s2) (drop s2 t) ++ drop e1 t)
    by (apply drop_split; lia).
  assert (Ht : take e1 t = take s2 t ++ take (e1 - s2) (drop s2 t)).
  { rewrite <- take_add. f_equal. lia. }
  repeat split.
  - rewrite <- Hd. symmetry. apply take_drop.
  - apply length_take. lia.
  - apply length_take. rewrite length_drop. lia.
  - unfold inject_cards_into_template. fold t. rewrite Hg, Hp.
    rewrite <- Hd, Ht, !append_assoc. reflexivity.
Qed.

Lemma inject_cards_panel_first_witness :
  exists pre twice post : string,
    panel_first_template = pre ++ twice ++ post
    /\ String.length pre = 0
    /\ String.length twice = 54 - 0
    /\ inject_cards_into_template panel_first_template "CARDS"
       = Ok (pre ++ twice ++ nl ++ "CARDS" ++ nl ++ twice ++ post).
Proof.
  apply (inject_cards_panel_first panel_first_template "CARDS" 34 54 0 28).
  - vm_compute. reflexivity.
  - vm_compute. reflexivity.
  - lia.
Defined.

(** ** What the heading replacement can raise *)

Lemma count_cons_0 (c a : ascii) (s : string) :
  count c (String a s) = 0 -> a <> c /\ count c s = 0.
Proof.
  simpl. destruct (Ascii.eqb_spec a c); [discriminate|]. intros H. split; [assumption|exact H].
Qed.

Ltac raised_in_rest IH e :=
  match goal with
  | |- (mbind _ (Re.parse_template_from None ?s)) = Raise _ -> _ =>
      let E := fresh "E" in
      destruct (Re.parse_template_from None s) eqn:E; simpl;
      [discriminate | intros [= <-]; apply (IH e _); [simpl; lia | simpl; assumption | exact E]]
  end.

(** The replacement template of [replace_first_h1] ends in the closing
    tag and has no other [<] after its opening tag; the parser of [re.sub]
    raises nothing but [re.error] on such a text. *)
Lemma parse_template_closing_tag (n : nat) (e : string) (x : exn) :
  String.length e < n ->
  count "<" e = 0 ->
  Re.parse_template_from None (e ++ "</h1>") = Raise x ->
  exists msg, x = ReError msg.
Proof.
  revert e x. induction n as [|n IH]; intros e x Hn Hc; [lia|].
  destruct e as [|c e1]; [vm_compute; discriminate|].
  assert (IH' : forall e' x', String.length e' <= String.length e1 ->
            count "<" e' = 0 ->
            Re.parse_template_from None (e' ++ "</h1>") = Raise x' ->
            exists msg, x' = ReError msg).
  { intros e' x' Hl. apply IH. simpl in Hn. lia. }
  clear IH Hn.
  apply count_cons_0 in Hc as (Hlt & Hc).
  simpl String.append. cbn [Re.parse_template_from].
  destruct (Ascii.eqb c bs) eqn:Ec; cbn [negb]; [|raised_in_rest IH' e1].
  destruct e1 as [|e' e2]; [vm_compute; discriminate|].
  pose proof Hc as Hc1.
  apply count_cons_0 in Hc as (Hlt' & Hc).
  simpl String.append. cbv iota.
  destruct (Ascii.eqb e' "g").
  { destruct e2 as [|d e3]; [vm_compute; intros [= <-]; eauto|].
    apply count_cons_0 in Hc as (Hd & Hc). simpl String.append.
    destruct d as [[|] [|] [|] [|] [|] [|] [|] [|]];
      try (intros [= <-]; eauto; fail).
    now contradiction Hd. }
  destruct (Ascii.eqb e' "0").
  { destruct e2 as [|d1 e3]; [vm_compute; discriminate|].
    pose proof Hc as Hc2.
    apply count_cons_0 in Hc as (Hd1 & Hc). simpl String.append. cbv iota.
    destruct (Re.is_octdigit d1); [|raised_in_rest IH' (String d1 e3)].
    destruct e3 as [|d2 e4]; [simpl; discriminate|].
    pose proof Hc as Hc3.
    apply count_cons_0 in Hc as (Hd2 & Hc). simpl String.append. cbv iota.
    destruct (Re.is_octdigit d2);
      [raised_in_rest IH' e4 | raised_in_rest IH' (String d2 e4)]. }
  destruct (is_digit e').
  { destruct e2 as [|d2 e3].
    { simpl. rewrite !andb_false_r. intros [= <-]; eauto. }
    pose proof Hc as Hc2.
    apply count_cons_0 in Hc as (Hd2 & Hc).
    destruct e3 as [|d3 e4].
    { simpl. rewrite !andb_false_r. intros [= <-]; eauto. }
    pose proof Hc as Hc3.
    apply count_cons_0 in Hc as (Hd3 & Hc). simpl String.append. cbv iota.
    destruct (_ && _); [|intros [= <-]; eauto].
    cbv zeta. destruct (_ <? _)%nat; [intros [= <-]; eauto|].
    raised_in_rest IH' e4. }
  destruct (Re.escapes e'); [raised_in_rest IH' e2|].
  destruct (is_ascii_letter e'); [intros [= <-]; eauto|].
  raised_in_rest IH' e2.
Qed.

Lemma replace_first_h1_raise_inv (html_text new_name : string) (e : exn) :
  replace_first_h1 html_text new_name = Raise e ->
  (exists msg, e = ReError msg) /\ 0 < count bs new_name.
Proof.
  unfold replace_first_h1. destruct (is_empty (strip new_name)) eqn:Hs; [discriminate|].
  unfold sub_first_h1.
  destruct (Re.parse_template _) as [pieces|x] eqn:E; simpl.
  { destruct (search_h1 html_text) as [[a b]|]; discriminate. }
  intros [= <-]. split.
  - unfold Re.parse_template in E.
    rewrite (parse_template_plain_prefix "<h1>") in E by reflexivity.
    destruct (Re.parse_template_from None (escape (strip new_name) ++ "</h1>")) as [?|x']
      eqn:E'; [discriminate|].
    injection E as <-.
    apply (parse_template_closing_tag _ _ _ (Nat.lt_succ_diag_r _)
             (proj1 (escape_no_markup (strip new_name))) E').
  - destruct (count bs new_name) eqn:Hc; [|lia]. exfalso.
    rewrite parse_template_plain in E; [discriminate|].
    rewrite !count_append, count_bs_escape.
    pose proof (count_strip bs new_name). simpl. lia.
Qed.

(** The template is parsed before the document is looked at. *)
Lemma replace_first_h1_raise_any (html_text other_html new_name : string) (e : exn) :
  replace_first_h1 html_text new_name = Raise e ->
  replace_first_h1 other_html new_name = Raise e.
Proof.
  unfold replace_first_h1. destruct (is_empty (strip new_name)); [discriminate|].
  unfold sub_first_h1. destruct (Re.parse_template _) as [pieces|x]; simpl.
  - destruct (search_h1 html_text) as [[a b]|]; discriminate.
  - trivial.
Qed.

(** X19.  [replace_first_h1] raises nothing but [re.error], and only for a
    name with a backslash; the error does not depend on the document, which
    may have no heading at all. *)
Theorem replace_first_h1_raises (html_text new_name : string) (e : exn) :
  replace_first_h1 html_text new_name = Raise e ->
  (exists msg, e = ReError msg)
  /\ 0 < count bs new_name
  /\ forall other_html : string, replace_first_h1 other_html new_name = Raise e.
Proof.
  intros H. destruct (replace_first_h1_raise_inv _ _ _ H) as (Hkind & Hbs).
  split; [exact Hkind|]. split; [exact Hbs|].
  intros other_html. exact (replace_first_h1_raise_any _ other_html _ _ H).
Qed.

Lemma replace_first_h1_raises_witness :
  (exists msg, ReError "bad character in group name" = ReError msg)
  /\ 0 < count bs (String "J" (String bs "g"))
  /\ forall other_html : string,
       replace_first_h1 other_html (String "J" (String bs "g"))
       = Raise (ReError "bad character in group name").
Proof.
  apply (replace_first_h1_raises "<p>no heading</p>" (String "J" (String bs "g"))).
  vm_compute. reflexivity.
Defined.

(** ** The whole run *)

Lemma read_sections_raise_inv (rows : list row) (e : exn) :
  read_sections rows = Raise e ->
  ((exists msg, e = ValueError msg)
   /\ (find_marker "Bio" rows = None \/ find_marker "Results" rows = None))
  \/ (e = IndexError "list index out of range"
      /\ exists b r, find_marker "Bio" rows = Some b /\ find_marker "Results" rows = Some r
                     /\ (List.length rows <= b + 1 \/ List.length rows <= r + 1)).
Proof.
  unfold read_sections.
  destruct (find_marker "Bio" rows) as [b|] eqn:Eb;
    [destruct (find_marker "Results" rows) as [r|] eqn:Er|].
  - unfold index_row.
    destruct (nth_error rows (b + 1)) as [bh|] eqn:E1; simpl.
    + destruct (nth_error rows (r + 1)) as [rh|] eqn:E2; simpl; [discriminate|].
      intros [= <-]. right. split; [reflexivity|]. exists b, r.
      apply nth_error_None in E2. auto.
    + intros [= <-]. right. split; [reflexivity|]. exists b, r.
      apply nth_error_None in E1. auto.
  - intros [= <-]. left. eauto.
  - intros [= <-]. left. eauto.
Qed.

Lemma build_race_series_raise_inv (strptime : string -> string -> option Dt.date)
  (cfg : config) (records : list record) (e : exn) :
  build_race_series strptime cfg records = Raise e ->
  (exists msg, e = OverflowError msg)
  /\ exists r, In r records /\ passes_year_filter cfg r = true
               /\ parse_time_to_seconds (safe (r !! "Time")) = Raise e.
Proof.
  unfold build_race_series.
  destruct (race_points strptime cfg records) as [points|e'] eqn:E; [discriminate|].
  intros [= ->]. apply race_points_raises in E as (r & Hin & Hr).
  split; [now apply parse_time_raises in Hr|].
  unfold filtered_records in Hin. apply filter_In in Hin as (Hin & Hpass).
  exists r. auto.
Qed.

Lemma inject_scripts_no_body (html_text race_series_json : string) :
  find "</body>" html_text = None ->
  inject_scripts html_text race_series_json = html_text ++ script_block race_series_json.
Proof. intros H. unfold inject_scripts. rewrite contains_find. now rewrite H. Qed.

Lemma inject_scripts_one_body (html_text race_series_json : string) (i : nat) :
  find "</body>" html_text = Some i ->
  find "</body>" (drop (i + 7) html_text) = None ->
  inject_scripts html_text race_series_json
  = take i html_text ++ script_block race_series_json ++ nl ++ "</body>"
    ++ drop (i + 7) html_text.
Proof.
  intros H1 H2. unfold inject_scripts. rewrite contains_find, H1. simpl negb. cbv iota.
  rewrite (replace_text_first "</body>" _ _ i ltac:(discriminate) H1).
  change (String.length "</body>") with 7.
  rewrite (replace_text_absent _ _ _ H2). now rewrite !append_assoc.
Qed.

Section WholeRun.
Variable strptime : string -> string -> option Dt.date.
Variable json_dumps : list series_point -> string.

(** X21.  What can stop the run.  [build_page] raises in four ways only:
    the CSV has no "Bio" or no "Results" marker row ([ValueError]) or a
    marker row is its last row ([IndexError]); the template lacks an anchor
    ([ValueError]); the athlete name has a backslash that the template
    parser of [re.sub] rejects ([re.error]); the time of a result that
    passes the season filter is too large for a float ([OverflowError]). *)
Theorem build_page_raises (cfg : config) (template_html : string) (rows : list row)
  (e : exn) :
  build_page strptime json_dumps cfg template_html rows = Raise e ->
  (read_sections rows = Raise e
   /\ (((exists msg, e = ValueError msg)
        /\ (find_marker "Bio" rows = None \/ find_marker "Results" rows = None))
       \/ (e = IndexError "list index out of range"
           /\ exists b r, find_marker "Bio" rows = Some b
                          /\ find_marker "Results" rows = Some r
                          /\ (List.length rows <= b + 1 \/ List.length rows <= r + 1))))
  \/ exists bio_header bio_rows results_header results_rows,
       read_sections rows = Ok (bio_header, bio_rows, results_header, results_rows)
       /\ (((exists msg, e = ValueError msg)
            /\ (search_div "meet-grid" template_html = None
                \/ search_div "performance-panel" template_html = None))
           \/ ((exists msg, e = ReError msg)
               /\ 0 < count bs (or_empty (parse_primary_bio bio_header bio_rows
                                            !! "Athlete Name")))
           \/ ((exists msg, e = OverflowError msg)
               /\ exists r, In r (parse_results results_header results_rows)
                            /\ passes_year_filter cfg r = true
                            /\ parse_time_to_seconds (safe (r !! "Time")) = Raise e)).
Proof.
  unfold build_page.
  destruct (read_sections rows) as [[[[bh br] rh] rr]|e0] eqn:Er; simpl.
  2:{ intros [= <-]. left. split; [reflexivity|]. now apply read_sections_raise_inv. }
  intros H. right. exists bh, br, rh, rr. split; [reflexivity|].
  destruct (inject_cards_into_template _ _) as [out|e1] eqn:Ei; simpl in H.
  2:{ injection H as <-. left.
      destruct (inject_raises_only_ValueError _ _ _ Ei) as (msg & ->).
      split; [eauto|]. exact (proj1 (inject_ValueError _ _) (ex_intro _ msg Ei)). }
  destruct (replace_first_h1 out _) as [out'|e2] eqn:Eh; simpl in H.
  2:{ injection H as <-. right; left.
      destruct (replace_first_h1_raise_inv _ _ _ Eh) as (Hk & Hc).
      split; [exact Hk|].
      pose proof (count_strip bs (or_empty (parse_primary_bio bh br !! "Athlete Name"))).
      lia. }
  destruct (build_race_series _ _ _) as [series|e3] eqn:Es; simpl in H; [discriminate|].
  injection H as <-. right; right.
  now apply build_race_series_raise_inv in Es.
Qed.

(** X22.  When the run goes through.  With both marker rows in the CSV,
    each followed by a row, both anchors in the template, an athlete name
    without a backslash and no time that overflows among the results that
    pass the season filter, [build_page] returns a page, and the page is
    this: the template up to the end of the meet-grid tag, a line feed, the
    cards of the results, a line feed and the template from the
    performance-panel tag on; in that text, when the name is not empty,
    the first [<h1>] up to the first [</h1>] after it replaced by the
    escaped name in a heading; and that text handed to [inject_scripts]
    with the JSON of the series, which shows the results that pass the
    filter, sorted by their date keys. *)
Theorem build_page_returns (cfg : config) (template_html : string) (rows : list row)
  (b r s1 e1 s2 e2 : nat) :
  find_marker "Bio" rows = Some b ->
  find_marker "Results" rows = Some r ->
  b + 1 < List.length rows ->
  r + 1 < List.length rows ->
  search_div "meet-grid" template_html = Some (s1, e1) ->
  search_div "performance-panel" template_html = Some (s2, e2) ->
  count bs (or_empty (parse_primary_bio (nth (b + 1) rows []) (slice rows (b + 2) r)
                        !! "Athlete Name")) = 0 ->
  Forall (fun x => is_Raise (parse_time_to_seconds (safe (x !! "Time"))) = false)
    (filtered_records cfg (parse_results (nth (r + 1) rows []) (slice_from rows (r + 2)))) ->
  let results := parse_results (nth (r + 1) rows []) (slice_from rows (r + 2)) in
  let name := strip (or_empty (parse_primary_bio (nth (b + 1) rows [])
                                 (slice rows (b + 2) r) !! "Athlete Name")) in
  let with_cards :=
    take e1 template_html ++ nl ++ build_meet_cards cfg results ++ nl
    ++ drop s2 template_html in
  let with_name :=
    if is_empty name then with_cards
    else match find "<h1>" with_cards with
         | None => with_cards
         | Some i =>
             match find "</h1>" (drop (i + 4) with_cards) with
             | None => with_cards
             | Some k =>
                 take i with_cards ++ "<h1>" ++ escape name ++ "</h1>"
                 ++ drop (i + 4 + k + 5) with_cards
             end
         end in
  exists (ordered : list record) (race_series : list series_point),
    build_page strptime json_dumps cfg template_html rows
    = Ok (inject_scripts with_name (json_dumps race_series))
    /\ build_race_series strptime cfg results = Ok race_series
    /\ ordered = py_sort (record_key strptime) key_lt (filtered_records cfg results)
    /\ Forall2 shows ordered race_series
    /\ List.length race_series = List.length (filtered_records cfg results)
    /\ (find "</body>" with_name = None ->
        build_page strptime json_dumps cfg template_html rows
        = Ok (with_name ++ script_block (json_dumps race_series)))
    /\ (forall i : nat,
          find "</body>" with_name = Some i ->
          find "</body>" (drop (i + 7) with_name) = None ->
          build_page strptime json_dumps cfg template_html rows
          = Ok (take i with_name ++ script_block (json_dumps race_series) ++ nl
                ++ "</body>" ++ drop (i + 7) with_name)).
Proof.
  intros Hb Hr Lb Lr Hg Hp Hname Htimes results name with_cards with_name.
  destruct (read_sections_Ok rows b r Hb Hr Lb Lr) as (bh & rh & Ebh & Erh & Hs).
  assert (Ebh' : nth (b + 1) rows [] = bh) by (apply nth_error_nth; exact Ebh).
  assert (Erh' : nth (r + 1) rows [] = rh) by (apply nth_error_nth; exact Erh).
  subst bh rh.
  assert (Hinj : inject_cards_into_template template_html (build_meet_cards cfg results)
                 = Ok with_cards).
  { unfold inject_cards_into_template. now rewrite Hg, Hp. }
  assert (Hbs : count bs name = 0).
  { pose proof (count_strip bs (or_empty (parse_primary_bio (nth (b + 1) rows [])
                                  (slice rows (b + 2) r) !! "Athlete Name"))).
    unfold name. lia. }
  assert (Hh1 : replace_first_h1 with_cards name = Ok with_name).
  { unfold with_name. destruct (is_empty name) eqn:En.
    - apply replace_first_h1_blank. apply strip_empty.
      unfold name. rewrite strip_idempotent. now apply is_empty_true.
    - assert (Hns : all_space name = false).
      { destruct (all_space name) eqn:Ea; [|reflexivity].
        apply strip_empty in Ea. unfold name in Ea. rewrite strip_idempotent in Ea.
        fold name in Ea. rewrite Ea in En. discriminate. }
      assert (Est : strip name = name) by (unfold name; apply strip_idempotent).
      destruct (find "<h1>" with_cards) as [i|] eqn:F1.
      + destruct (find "</h1>" (drop (i + 4) with_cards)) as [k|] eqn:F2.
        * rewrite (replace_first_h1_found _ _ i k Hns Hbs F1 F2). now rewrite Est.
        * rewrite (replace_first_h1_plain _ _ Hns Hbs).
          now rewrite (search_h1_no_close _ _ F1 F2).
      + rewrite (replace_first_h1_plain _ _ Hns Hbs).
        now rewrite (search_h1_no_open _ F1). }
  fold results in Htimes. rewrite <- filter_not_skipped in Htimes.
  destruct (race_points_Ok strptime cfg _ Htimes) as (points & Epts & Hpts).
  exists (py_sort (record_key strptime) key_lt (filtered_records cfg results)),
         (map public (py_sort sort_key_of key_lt points)).
  assert (Hseries : build_race_series strptime cfg results
                    = Ok (map public (py_sort sort_key_of key_lt points))).
  { unfold build_race_series. now rewrite Epts. }
  assert (Hpage : build_page strptime json_dumps cfg template_html rows
                  = Ok (inject_scripts with_name
                          (json_dumps (map public (py_sort sort_key_of key_lt points))))).
  { unfold build_page. rewrite Hs.
    change (Ok ?v ≫= ?k) with (k v). cbv beta iota zeta.
    fold results. rewrite Hinj.
    change (Ok ?v ≫= ?k) with (k v). cbv beta.
    fold name. rewrite Hh1.
    change (Ok ?v ≫= ?k) with (k v). cbv beta.
    rewrite Hseries. reflexivity. }
  split; [exact Hpage|].
  split; [exact Hseries|]. split; [reflexivity|].
  split; [|split; [|split]].
  4:{ intros i H1 H2. rewrite Hpage. f_equal. now apply inject_scripts_one_body. }
  3:{ intros H. rewrite Hpage. f_equal. now apply inject_scripts_no_body. }
  - rewrite <- filter_not_skipped. apply Forall2_fmap_r.
    eapply Forall2_impl;
      [apply (py_sort_Forall2 (record_key strptime) sort_key_of key_lt
                (is_point_of strptime) (is_point_of_key strptime) _ _ Hpts)|].
    intros x p. apply is_point_of_shows.
  - assert (Hlen : List.length (List.filter (fun x => negb (skipped cfg x)) results)
                   = List.length points) by (eapply Forall2_length; exact Hpts).
    rewrite length_map, (Permutation_length (py_sort_perm sort_key_of key_lt points)),
      <- Hlen, filter_not_skipped.
    reflexivity.
Qed.
End WholeRun.

Lemma build_page_raises_witness :
  (read_sections sample_rows
   = Raise (ValueError ("Could not find <div id=" ++ q "meet-grid" ++ "...> in the template."))
   /\ (((exists msg, ValueError ("Could not find <div id=" ++ q "meet-grid"
                                  ++ "...> in the template.") = ValueError msg)
        /\ (find_marker "Bio" sample_rows = None \/ find_marker "Results" sample_rows = None))
       \/ (ValueError ("Could not find <div id=" ++ q "meet-grid" ++ "...> in the template.")
           = IndexError "list index out of range"
           /\ exists b r, find_marker "Bio" sample_rows = Some b
                          /\ find_marker "Results" sample_rows = Some r
                          /\ (List.length sample_rows <= b + 1
                              \/ List.length sample_rows <= r + 1))))
  \/ exists bio_header bio_rows results_header results_rows,
       read_sections sample_rows = Ok (bio_header, bio_rows, results_header, results_rows)
       /\ (((exists msg, ValueError ("Could not find <div id=" ++ q "meet-grid"
                                      ++ "...> in the template.") = ValueError msg)
            /\ (search_div "meet-grid" bare_template = None
                \/ search_div "performance-panel" bare_template = None))
           \/ ((exists msg, ValueError ("Could not find <div id=" ++ q "meet-grid"
                                         ++ "...> in the template.") = ReError msg)
               /\ 0 < count bs (or_empty (parse_primary_bio bio_header bio_rows
                                            !! "Athlete Name")))
           \/ ((exists msg, ValueError ("Could not find <div id=" ++ q "meet-grid"
                                         ++ "...> in the template.") = OverflowError msg)
               /\ exists r, In r (parse_results results_header results_rows)
                            /\ passes_year_filter source_config r = true
                            /\ parse_time_to_seconds (safe (r !! "Time"))
                               = Raise (ValueError ("Could not find <div id=" ++ q "meet-grid"
                                                    ++ "...> in the template.")))).
Proof.
  apply (build_page_raises Dt.strptime no_json source_config bare_template sample_rows).
  vm_compute. reflexivity.
Defined.

Lemma build_page_returns_witness :
  let results := parse_results (nth (3 + 1) sample_rows []) (slice_from sample_rows (3 + 2)) in
  let name := strip (or_empty (parse_primary_bio (nth (0 + 1) sample_rows [])
                                 (slice sample_rows (0 + 2) 3) !! "Athlete Name")) in
  let with_cards :=
    take 52 headed_template ++ nl ++ build_meet_cards source_config results ++ nl
    ++ drop 61 headed_template in
  let with_name :=
    if is_empty name then with_cards
    else match find "<h1>" with_cards with
         | None => with_cards
         | Some i =>
             match find "</h1>" (drop (i + 4) with_cards) with
             | None => with_cards
             | Some k =>
                 take i with_cards ++ "<h1>" ++ escape name ++ "</h1>"
                 ++ drop (i + 4 + k + 5) with_cards
             end
         end in
  exists (ordered : list record) (race_series : list series_point),
    build_page Dt.strptime no_json source_config headed_template sample_rows
    = Ok (inject_scripts with_name (no_json race_series))
    /\ build_race_series Dt.strptime source_config results = Ok race_series
    /\ ordered = py_sort (record_key Dt.strptime) key_lt
                   (filtered_records source_config results)
    /\ Forall2 shows ordered race_series
    /\ List.length race_series = List.length (filtered_records source_config results)
    /\ (find "</body>" with_name = None ->
        build_page Dt.strptime no_json source_config headed_template sample_rows
        = Ok (with_name ++ script_block (no_json race_series)))
    /\ (forall i : nat,
          find "</body>" with_name = Some i ->
          find "</body>" (drop (i + 7) with_name) = None ->
          build_page Dt.strptime no_json source_config headed_template sample_rows
          = Ok (take i with_name ++ script_block (no_json race_series) ++ nl
                ++ "</body>" ++ drop (i + 7) with_name)).
Proof.
  apply (build_page_returns Dt.strptime no_json source_config headed_template sample_rows
           0 3 19 52 61 89).
  - reflexivity.
  - reflexivity.
  - simpl. lia.
  - simpl. lia.
  - vm_compute. reflexivity.
  - vm_compute. reflexivity.
  - vm_compute. reflexivity.
  - change (filtered_records source_config _) with [dated "3/1/2025"].
    constructor; [vm_compute; reflexivity | constructor].
Defined.

(** ** Results added at the end *)

Lemma cards_from_app (cfg : config) (i : nat) (l1 l2 : list record) :
  cards_from cfg i (l1 ++ l2)%list
  = (cards_from cfg i l1 ++ cards_from cfg (i + List.length l1) l2)%list.
Proof.
  revert i; induction l1 as [|r l1 IH]; intros i; simpl.
  - now rewrite Nat.add_0_r.
  - now rewrite IH, Nat.add_succ_r.
Qed.

(** X20.  Results added after the others leave the cards of the others as
    they are: the cards of [earlier ++ later] are the cards of [earlier]
    followed by the cards of [later], numbered on from the number of cards
    before them (a result the season filter drops takes no number), and the
    markup of the earlier cards is the start of the markup of all of
    them. *)
Theorem cards_of_added_results (cfg : config) (earlier later : list record) :
  let n := List.length (meet_cards cfg earlier) in
  meet_cards cfg (earlier ++ later)%list
  = (meet_cards cfg earlier ++ cards_from cfg (n + 1) (filtered_records cfg later))%list
  /\ (meet_cards cfg earlier <> [] ->
      build_meet_cards cfg (earlier ++ later)%list
      = build_meet_cards cfg earlier
        ++ join (cards_from cfg (n + 1) (filtered_records cfg later))).
Proof.
  intros n.
  assert (H : meet_cards cfg (earlier ++ later)%list
              = (meet_cards cfg earlier
                 ++ cards_from cfg (n + 1) (filtered_records cfg later))%list).
  { unfold n, meet_cards, filtered_records.
    rewrite List.filter_app, cards_from_app, length_cards_from. do 2 f_equal. lia. }
  split; [exact H|].
  intros Hne. unfold build_meet_cards. rewrite H.
  destruct (meet_cards cfg earlier) as [|c cs] eqn:E; [congruence|].
  change ((c :: cs) ++ ?l)%list with (c :: (cs ++ l))%list.
  cbv iota. change (c :: (cs ++ ?l))%list with ((c :: cs) ++ l)%list.
  now rewrite join_app.
Qed.

Lemma cards_of_added_results_witness :
  build_meet_cards (season "2025")
    ([dated "3/1/2024"; dated "3/1/2025"] ++ [dated "4/1/2024"; dated "4/1/2025"])%list
  = build_meet_cards (season "2025") [dated "3/1/2024"; dated "3/1/2025"]
    ++ join [card (season "2025") 2 (dated "4/1/2025")].
Proof.
  apply (cards_of_added_results (season "2025") [dated "3/1/2024"; dated "3/1/2025"]
           [dated "4/1/2024"; dated "4/1/2025"]).
  vm_compute. discriminate.
Defined.

(** ** The bio row and the heading *)

Lemma zip_record_cells (P : string -> Prop) (header r : row) (acc : record)
  (k v : string) :
  P "" -> Forall P r ->
  zip_record header r acc !! k = Some v -> P v \/ acc !! k = Some v.
Proof.
  intros P0. revert r acc; induction header as [|k0 header IH]; intros r acc Hr; simpl.
  - auto.
  - intros H. apply IH in H as [H | H]; [now left | |].
    + destruct (decide (k0 = k)) as [->|Hne].
      * rewrite lookup_insert_eq in H. injection H as <-. left.
        destruct Hr; [exact P0 | assumption].
      * rewrite lookup_insert_ne in H by exact Hne. now right.
    + destruct Hr; [constructor | assumption].
Qed.

(** X23.  The bio is the row right below the bio header, blank or not:
    when that row has nothing but white space the name is empty and
    [replace_first_h1] leaves the document as it is, whatever the rows
    after it hold.  ([parse_results], for its part, passes over such
    rows.) *)
Theorem bio_blank_first_row (bio_header first : row) (others : list row)
  (html_text : string) :
  any_nonblank first = false ->
  strip (or_empty (parse_primary_bio bio_header (first :: others) !! "Athlete Name")) = ""
  /\ replace_first_h1 html_text
       (strip (or_empty (parse_primary_bio bio_header (first :: others) !! "Athlete Name")))
     = Ok html_text
  /\ parse_results bio_header (first :: others) = parse_results bio_header others.
Proof.
  intros Hb.
  assert (E : strip (or_empty (parse_primary_bio bio_header (first :: others)
                                 !! "Athlete Name")) = "").
  { unfold parse_primary_bio.
    destruct (zip_record bio_header first ∅ !! "Athlete Name") as [v|] eqn:Ev;
      [|reflexivity].
    apply (zip_record_cells (fun cell => all_space cell = true)) in Ev as [Hv | Hv].
    - simpl. now apply strip_empty.
    - rewrite lookup_empty in Hv. discriminate.
    - reflexivity.
    - now apply any_nonblank_false. }
  split; [exact E|]. split.
  - rewrite E. reflexivity.
  - simpl. now rewrite Hb.
Qed.

Lemma bio_blank_first_row_witness :
  strip (or_empty (parse_primary_bio ["Athlete Name"; "Grade"]
                     ([" "; ""] :: [["Garrett Comer"; "12"]]) !! "Athlete Name")) = ""
  /\ replace_first_h1 "<h1>Name</h1>"
       (strip (or_empty (parse_primary_bio ["Athlete Name"; "Grade"]
                           ([" "; ""] :: [["Garrett Comer"; "12"]]) !! "Athlete Name")))
     = Ok "<h1>Name</h1>"
  /\ parse_results ["Athlete Name"; "Grade"] ([" "; ""] :: [["Garrett Comer"; "12"]])
     = parse_results ["Athlete Name"; "Grade"] [["Garrett Comer"; "12"]].
Proof.
  apply (bio_blank_first_row ["Athlete Name"; "Grade"] [" "; ""] [["Garrett Comer"; "12"]]).
  reflexivity.
Defined.

(** ** The cards, then the name *)

Lemma heading_split (t : string) (i k : nat) :
  find "<h1>" t = Some i ->
  find "</h1>" (drop (i + 4) t) = Some k ->
  t = take i t ++ "<h1>" ++ take k (drop (i + 4) t) ++ "</h1>" ++ drop (i + 4 + k + 5) t
  /\ String.length (take i t) = i
  /\ String.length (take k (drop (i + 4) t)) = k.
Proof.
  intros H1 H2.
  apply find_Some in H1 as (S1 & L1 & _). apply find_Some in H2 as (S2 & L2 & _).
  apply starts_with_split in S1, S2.
  change (String.length "<h1>") with 4 in S1, L1.
  change (String.length "</h1>") with 5 in S2, L2.
  rewrite !drop_drop in S1, S2. rewrite length_drop in L2.
  split; [|split].
  - rewrite <- (take_drop i t) at 1. f_equal. rewrite S1 at 1. f_equal.
    rewrite <- (take_drop k (drop (i + 4) t)) at 1. f_equal.
    rewrite drop_drop, S2 at 1. now rewrite drop_drop.
  - apply length_take. lia.
  - apply length_take. rewrite length_drop. lia.
Qed.

(** X24.  The first steps of [main] on a template whose first heading ends
    before the meet-grid tag does: the cards are put in, then the name is
    written into the heading of the template, and into no heading that the
    cards may bring with them. *)
Theorem cards_then_name (template_html cards_html new_name : string)
  (s1 e1 s2 e2 i k : nat) :
  search_div "meet-grid" template_html = Some (s1, e1) ->
  search_div "performance-panel" template_html = Some (s2, e2) ->
  find "<h1>" template_html = Some i ->
  find "</h1>" (drop (i + 4) template_html) = Some k ->
  i + 4 + k + 5 <= e1 ->
  all_space new_name = false ->
  count bs new_name = 0 ->
  exists out_html,
    inject_cards_into_template template_html cards_html = Ok out_html
    /\ replace_first_h1 out_html new_name
       = Ok (take i template_html ++ "<h1>" ++ escape (strip new_name) ++ "</h1>"
             ++ take (e1 - (i + 4 + k + 5)) (drop (i + 4 + k + 5) template_html)
             ++ nl ++ cards_html ++ nl ++ drop s2 template_html).
Proof.
  intros Hg Hp H1 H2 Hle Hname Hbs.
  destruct (search_div_bound _ _ _ _ Hg) as ((_ & Le1) & _).
  set (t := template_html) in *. set (h := i + 4 + k + 5) in *.
  set (rest := nl ++ cards_html ++ nl ++ drop s2 t).
  exists (take e1 t ++ rest). split.
  { unfold inject_cards_into_template. fold t. now rewrite Hg, Hp. }
  destruct (heading_split t i k H1 H2) as (Ht & La & Lb). fold h in Ht.
  set (A := take i t) in *. set (B := take k (drop (i + 4) t)) in *.
  assert (Lh : String.length (A ++ "<h1>" ++ B ++ "</h1>") = h).
  { rewrite !length_append, La, Lb. simpl. unfold h. lia. }
  assert (Eh : take h t = A ++ "<h1>" ++ B ++ "</h1>").
  { rewrite Ht at 1. rewrite <- Lh at 1.
    replace (A ++ "<h1>" ++ B ++ "</h1>" ++ drop h t)
      with ((A ++ "<h1>" ++ B ++ "</h1>") ++ drop h t) by (now rewrite !append_assoc).
    apply take_app_length. }
  assert (Ee : take e1 t = (A ++ "<h1>" ++ B ++ "</h1>") ++ take (e1 - h) (drop h t)).
  { rewrite <- Eh, <- take_add. f_equal. lia. }
  set (C := take (e1 - h) (drop h t)) in *.
  assert (Eo : take e1 t ++ rest = A ++ "<h1>" ++ B ++ "</h1>" ++ C ++ rest).
  { rewrite Ee. now rewrite !append_assoc. }
  rewrite Eo.
  assert (F1 : find "<h1>" (A ++ "<h1>" ++ B ++ "</h1>" ++ C ++ rest) = Some i).
  { rewrite <- La. apply (find_same_prefix "<h1>" A (B ++ "</h1>" ++ drop h t)).
    rewrite <- Ht, La. exact H1. }
  assert (D1 : drop (i + 4) (A ++ "<h1>" ++ B ++ "</h1>" ++ C ++ rest)
               = B ++ "</h1>" ++ C ++ rest).
  { replace (A ++ "<h1>" ++ B ++ "</h1>" ++ C ++ rest)
      with ((A ++ "<h1>") ++ B ++ "</h1>" ++ C ++ rest) by (now rewrite !append_assoc).
    replace (i + 4) with (String.length (A ++ "<h1>"))
      by (rewrite length_append, La; reflexivity).
    apply drop_app_length. }
  assert (D0 : drop (i + 4) t = B ++ "</h1>" ++ drop h t).
  { rewrite Ht at 1.
    replace (A ++ "<h1>" ++ B ++ "</h1>" ++ drop h t)
      with ((A ++ "<h1>") ++ B ++ "</h1>" ++ drop h t) by (now rewrite !append_assoc).
    replace (i + 4) with (String.length (A ++ "<h1>"))
      by (rewrite length_append, La; reflexivity).
    apply drop_app_length. }
  assert (F2 : find "</h1>" (drop (i + 4) (A ++ "<h1>" ++ B ++ "</h1>" ++ C ++ rest))
               = Some k).
  { rewrite D1, <- Lb. apply (find_same_prefix "</h1>" B (drop h t)).
    rewrite <- D0, Lb. exact H2. }
  assert (T1 : take i (A ++ "<h1>" ++ B ++ "</h1>" ++ C ++ rest) = A)
    by (rewrite <- La at 1; apply take_app_length).
  assert (T2 : drop h (A ++ "<h1>" ++ B ++ "</h1>" ++ C ++ rest) = C ++ rest).
  { replace (A ++ "<h1>" ++ B ++ "</h1>" ++ C ++ rest)
      with ((A ++ "<h1>" ++ B ++ "</h1>") ++ C ++ rest) by (now rewrite !append_assoc).
    rewrite <- Lh at 1. apply drop_app_length. }
  rewrite (replace_first_h1_found _ _ i k Hname Hbs F1 F2). fold h.
  rewrite T1, T2. reflexivity.
Qed.

Lemma cards_then_name_witness :
  exists out_html,
    inject_cards_into_template headed_template cards_with_heading = Ok out_html
    /\ replace_first_h1 out_html "Garrett Comer"
       = Ok (take 0 headed_template ++ "<h1>" ++ escape (strip "Garrett Comer") ++ "</h1>"
             ++ take (52 - (0 + 4 + 4 + 5)) (drop (0 + 4 + 4 + 5) headed_template)
             ++ nl ++ cards_with_heading ++ nl ++ drop 61 headed_template).
Proof.
  apply (cards_then_name headed_template cards_with_heading "Garrett Comer" 19 52 61 89 0 4).
  - vm_compute. reflexivity.
  - vm_compute. reflexivity.
  - reflexivity.
  - reflexivity.
  - lia.
  - reflexivity.
  - reflexivity.
Defined.
